(** * dockerlayers: the Dockerfile layer analyzer

    A shallow embedding of the Go package [dockerlayers] (the line
    assembler [readInstructions], the instruction parser
    [parseInstruction], the descriptor table, and the stage/report
    builder [analyzeDockerfile]) together with the properties its
    specification states.

    Conventions of the embedding:
    - a Go [string] is a sequence of bytes: Rocq's [string], one [ascii]
      per byte;
    - a Go [int] is a [Z].  Every [int] of the package is a line number, a
      stage index, or a counter bounded by the length of a slice that is
      held in memory, so 64-bit wrap-around cannot occur and is not
      written out;
    - a Go [error] is its message;
    - the file system is an input: [analyzeDockerfile] takes what
      [filepath.Abs] returns for the path, and what opening and scanning
      the file gives (a [scan]).

    The file has three parts: the program (the standard-library
    functions it calls, then the package), the vocabulary of the
    properties with the concrete Dockerfiles of the examples, and the
    properties with their proofs, the examples last. *)

From Stdlib Require Import ZArith NArith Ascii String List Lia Bool.
From stdpp Require Import base gmap strings list pretty.

Local Open Scope string_scope.
Local Open Scope Z_scope.
Local Open Scope list_scope.

(** ** Results of fallible functions: a value or an error message *)

Inductive result (A : Type) : Type :=
| Ok (a : A)
| Err (msg : string).
Arguments Ok {A} a.
Arguments Err {A} msg.

(** ** The parts of Go's standard library the package calls *)

Module GoLib.

(** *** unicode/utf8 *)

Definition rune := N.
Definition RuneError : rune := 0xFFFD%N.
Definition RuneSelf : N := 0x80%N.

Definition byte_val (c : ascii) : N := N_of_ascii c.

(** [s[i]]; every use below is guarded by a length test. *)
Definition at_index (s : string) (i : nat) : N :=
  match String.get i s with
  | Some c => byte_val c
  | None => 0%N
  end.

Definition between (lo hi b : N) : bool := ((lo <=? b) && (b <=? hi))%N.

(** [utf8.DecodeRuneInString]: the rune at the start of [s] and its width
    in bytes; an invalid or short encoding is [RuneError] of width 1. *)
Definition DecodeRuneInString (s : string) : rune * nat :=
  let n := String.length s in
  if (n <? 1)%nat then (RuneError, 0%nat)
  else
    let s0 := at_index s 0 in
    if (s0 <? RuneSelf)%N then (s0, 1%nat)
    else if ((s0 <? 0xC2) || (0xF4 <? s0))%N then (RuneError, 1%nat)
    else
      let sz := (if (s0 <? 0xE0)%N then 2 else if (s0 <? 0xF0)%N then 3 else 4)%nat in
      let lo := (if s0 =? 0xE0 then 0xA0 else if s0 =? 0xF0 then 0x90 else 0x80)%N in
      let hi := (if s0 =? 0xED then 0x9F else if s0 =? 0xF4 then 0x8F else 0xBF)%N in
      if (n <? sz)%nat then (RuneError, 1%nat)
      else
        let s1 := at_index s 1 in
        if negb (between lo hi s1) then (RuneError, 1%nat)
        else if (sz <=? 2)%nat then
          (N.lor (N.shiftl (N.land s0 0x1F) 6) (N.land s1 0x3F), 2%nat)
        else
          let s2 := at_index s 2 in
          if negb (between 0x80 0xBF s2) then (RuneError, 1%nat)
          else if (sz <=? 3)%nat then
            (N.lor (N.lor (N.shiftl (N.land s0 0x0F) 12)
                          (N.shiftl (N.land s1 0x3F) 6))
                   (N.land s2 0x3F), 3%nat)
          else
            let s3 := at_index s 3 in
            if negb (between 0x80 0xBF s3) then (RuneError, 1%nat)
            else
              (N.lor (N.lor (N.lor (N.shiftl (N.land s0 0x07) 18)
                                   (N.shiftl (N.land s1 0x3F) 12))
                            (N.shiftl (N.land s2 0x3F) 6))
                     (N.land s3 0x3F), 4%nat).

(** [utf8.RuneStart]: not a continuation byte. *)
Definition RuneStart (b : N) : bool := negb (N.land b 0xC0 =? 0x80)%N.

(** The scan for a start byte in [utf8.DecodeLastRuneInString]:
    [for start--; start >= lim; start-- { if RuneStart(s[start]) { break } }],
    on integers since [start] may reach [lim - 1]. *)
Fixpoint last_start (fuel : nat) (s : string) (lim start : Z) : Z :=
  match fuel with
  | O => start
  | S k =>
    if start <? lim then start
    else if RuneStart (at_index s (Z.to_nat start)) then start
    else last_start k s lim (start - 1)
  end.

(** [utf8.DecodeLastRuneInString]: the last rune of [s] and its width. *)
Definition DecodeLastRuneInString (s : string) : rune * nat :=
  let e := Z.of_nat (String.length s) in
  if e =? 0 then (RuneError, 0%nat)
  else
    let start := e - 1 in
    let r := at_index s (Z.to_nat start) in
    if (r <? RuneSelf)%N then (r, 1%nat)
    else
      let lim := if e - 4 <? 0 then 0 else e - 4 in
      let start := last_start 4 s lim (start - 1) in
      let start := if start <? 0 then 0 else start in
      let '(r, size) :=
        DecodeRuneInString
          (substring (Z.to_nat start) (Z.to_nat (e - start)) s) in
      if negb (start + Z.of_nat size =? e) then (RuneError, 1%nat)
      else (r, size).

(** *** unicode *)

(** [unicode.IsSpace]: the Latin-1 switch, then the White_Space table. *)
Definition IsSpace (r : rune) : bool :=
  if (r <=? 0xFF)%N then
    ((r =? 0x09) || (r =? 0x0A) || (r =? 0x0B) || (r =? 0x0C) || (r =? 0x0D)
     || (r =? 0x20) || (r =? 0x85) || (r =? 0xA0))%N
  else
    ((r =? 0x1680) || between 0x2000 0x200A r || (r =? 0x2028)
     || (r =? 0x2029) || (r =? 0x202F) || (r =? 0x205F) || (r =? 0x3000))%N.

(** *** strings: the functions that work on bytes *)

Fixpoint HasPrefix (s prefix : string) {struct prefix} : bool :=
  match prefix with
  | EmptyString => true
  | String p prefix' =>
    match s with
    | EmptyString => false
    | String c s' => Ascii.eqb c p && HasPrefix s' prefix'
    end
  end.

(** [s[i:]] *)
Fixpoint slice_from (i : nat) (s : string) : string :=
  match i with
  | O => s
  | S k =>
    match s with
    | EmptyString => EmptyString
    | String _ s' => slice_from k s'
    end
  end.

(** [s[:i]] *)
Fixpoint slice_to (i : nat) (s : string) : string :=
  match i with
  | O => EmptyString
  | S k =>
    match s with
    | EmptyString => EmptyString
    | String c s' => String c (slice_to k s')
    end
  end.

Definition HasSuffix (s suffix : string) : bool :=
  (String.length suffix <=? String.length s)%nat
  && String.eqb (slice_from (String.length s - String.length suffix) s) suffix.

Definition TrimPrefix (s prefix : string) : string :=
  if HasPrefix s prefix then slice_from (String.length prefix) s else s.

Definition TrimSuffix (s suffix : string) : string :=
  if HasSuffix s suffix
  then slice_to (String.length s - String.length suffix) s
  else s.

Fixpoint Contains (s substr : string) : bool :=
  HasPrefix s substr
  || match s with
     | EmptyString => false
     | String _ s' => Contains s' substr
     end.

(** *** strings: the functions that decode runes *)

(** [for i, r := range s]: the start offset, the rune and the bytes of
    every rune of [s], decoded front to back.  [skip] counts the bytes
    that still belong to the rune decoded last. *)
Fixpoint range_from (i skip : nat) (s : string) : list (nat * rune * string) :=
  match s with
  | EmptyString => []
  | String _ s' =>
    match skip with
    | S k => range_from (S i) k s'
    | O =>
      let '(r, w) := DecodeRuneInString s in
      (i, r, slice_to w s) :: range_from (S i) (w - 1) s'
    end
  end.

Definition range (s : string) : list (nat * rune * string) := range_from 0 0 s.

(** [strings.IndexFunc(s, f)]: the byte offset of the first rune that
    satisfies [f], or -1. *)
Definition IndexFunc (s : string) (f : rune → bool) : Z :=
  match List.find (λ x, f (x.1.2)) (range s) with
  | Some x => Z.of_nat x.1.1
  | None => -1
  end.

(** The loop of [strings.lastIndexFunc(s, f, false)]:
    [for i := len(s); i > 0; { r, size := DecodeLastRuneInString(s[0:i]);
    i -= size; if !f(r) { return i } }; return -1]. *)
Fixpoint lastIndexNot (fuel : nat) (s : string) (f : rune → bool) (i : nat) : Z :=
  match fuel with
  | O => -1
  | S k =>
    if (i =? 0)%nat then -1
    else
      let '(r, size) := DecodeLastRuneInString (slice_to i s) in
      let i := (i - size)%nat in
      if negb (f r) then Z.of_nat i else lastIndexNot k s f i
  end.

Definition TrimLeftFunc (s : string) (f : rune → bool) : string :=
  let i := IndexFunc s (λ r, negb (f r)) in
  if i =? -1 then EmptyString else slice_from (Z.to_nat i) s.

Definition TrimRightFunc (s : string) (f : rune → bool) : string :=
  let i := lastIndexNot (String.length s) s f (String.length s) in
  let i :=
    if (0 <=? i) && (RuneSelf <=? at_index s (Z.to_nat i))%N
    then i + Z.of_nat (DecodeRuneInString (slice_from (Z.to_nat i) s)).2
    else i + 1 in
  slice_to (Z.to_nat i) s.

(** [strings.TrimSpace]: leading and trailing white space removed, as
    Unicode defines it.  (Go's implementation has a fast path for ASCII
    that computes the same slice.) *)
Definition TrimSpace (s : string) : string :=
  TrimRightFunc (TrimLeftFunc s IsSpace) IsSpace.

(** [strings.Fields]: the maximal runs of runes that are not white space.
    [cur] is the field being read, if any.  (Again the ASCII fast path of
    Go's implementation computes the same fields.) *)
Fixpoint fields_of (rs : list (nat * rune * string)) (cur : option string)
  : list string :=
  match rs with
  | [] =>
    match cur with
    | Some w => [w]
    | None => []
    end
  | (_, r, bytes) :: rs' =>
    if IsSpace r then
      match cur with
      | Some w => w :: fields_of rs' None
      | None => fields_of rs' None
      end
    else
      match cur with
      | Some w => fields_of rs' (Some (w +:+ bytes))
      | None => fields_of rs' (Some bytes)
      end
  end.

Definition Fields (s : string) : list string := fields_of (range s) None.

End GoLib.

Import GoLib.

(** *** The functions driven by Unicode's case and printability tables

    [strings.ToUpper], [strings.ToLower], [strings.EqualFold] and the
    verb [%q] of [fmt.Sprintf] (that is, [strconv.Quote]) consult tables
    of the Unicode standard that belong to the Go distribution, not to
    this package.  The package is embedded over any such functions. *)

Class UnicodeText := {
  ToUpper : string → string;
  ToLower : string → string;
  EqualFold : string → string → bool;
  Quote : string → string
}.

(** ** The package [dockerlayers] *)

Definition effectStageStart : string := "stage start".
Definition effectFilesystem : string := "filesystem layer".
Definition effectMetadata : string := "metadata".
Definition effectBuildArg : string := "build arg".

Record descriptor := {
  descEffect : string;
  descExplanation : string;
  descCacheHint : string
}.

Definition instructionDescriptorsEntries : list (string * descriptor) := [
  ("FROM", {|
    descEffect := effectStageStart;
    descExplanation := "Starts a stage and pulls the referenced base image. Any cache from previous stages is discarded.";
    descCacheHint := "Invalidates when the base image digest or flags like --platform change." |});
  ("RUN", {|
    descEffect := effectFilesystem;
    descExplanation := "Executes a shell command inside an intermediate container and commits the result as a new, immutable layer.";
    descCacheHint := "Cache key is the command text plus every file the command reads. Changing any of them busts the cache." |});
  ("COPY", {|
    descEffect := effectFilesystem;
    descExplanation := "Copies files into the image and creates a new layer with their contents.";
    descCacheHint := "Any change in the source files or flags invalidates this layer's cache entry." |});
  ("ADD", {|
    descEffect := effectFilesystem;
    descExplanation := "Behaves like COPY but also accepts remote URLs and auto-extracts tar archives, all of which produce new layers.";
    descCacheHint := "Cache depends on the archive/URL content as well as the instruction text." |});
  ("CMD", {|
    descEffect := effectMetadata;
    descExplanation := "Sets the default command for containers created from the image. No filesystem changes occur.";
    descCacheHint := "Cache is tied to the instruction text only." |});
  ("ENTRYPOINT", {|
    descEffect := effectMetadata;
    descExplanation := "Defines the executable that always runs when a container starts.";
    descCacheHint := "Cache is tied to the instruction text only." |});
  ("ENV", {|
    descEffect := effectMetadata;
    descExplanation := "Persists environment variables into image metadata for future instructions and containers.";
    descCacheHint := "Any variable value change invalidates the cache for this step and later steps." |});
  ("ARG", {|
    descEffect := effectBuildArg;
    descExplanation := "Defines build-time arguments. The value can influence cache keys but does not end up in the final image runtime environment.";
    descCacheHint := "Changing build args invalidates the layer that consumes them." |});
  ("WORKDIR", {|
    descEffect := effectMetadata;
    descExplanation := "Sets the working directory for subsequent instructions, recorded as metadata.";
    descCacheHint := "Cache busts only when the path changes." |});
  ("USER", {|
    descEffect := effectMetadata;
    descExplanation := "Configures the user/group used for following instructions and containers.";
    descCacheHint := "Cache busts when the user specification changes." |});
  ("LABEL", {|
    descEffect := effectMetadata;
    descExplanation := "Adds metadata key/value pairs to the image manifest without touching the filesystem.";
    descCacheHint := "Cache invalidates when a label changes." |});
  ("EXPOSE", {|
    descEffect := effectMetadata;
    descExplanation := "Documents which ports containers are expected to listen on. Pure metadata.";
    descCacheHint := "Cache invalidates when the exposed ports change." |});
  ("VOLUME", {|
    descEffect := effectMetadata;
    descExplanation := "Declares mount points that become anonymous volumes at runtime.";
    descCacheHint := "Cache depends only on the instruction text." |});
  ("HEALTHCHECK", {|
    descEffect := effectMetadata;
    descExplanation := "Stores a command for Docker to probe container health. No filesystem changes.";
    descCacheHint := "Cache invalidates when the command or interval flags change." |});
  ("STOPSIGNAL", {|
    descEffect := effectMetadata;
    descExplanation := "Configures which signal Docker sends to stop the container.";
    descCacheHint := "Cache depends on the instruction text." |});
  ("SHELL", {|
    descEffect := effectMetadata;
    descExplanation := "Overrides the default shell that RUN and similar instructions use.";
    descCacheHint := "Cache invalidates when the shell definition changes." |});
  ("ONBUILD", {|
    descEffect := effectMetadata;
    descExplanation := "Registers a trigger that fires when the current image is used as a base in another Dockerfile.";
    descCacheHint := "Cache ties to the trigger content." |});
  ("MAINTAINER", {|
    descEffect := effectMetadata;
    descExplanation := "Deprecated metadata about the author. Included here for completeness.";
    descCacheHint := "Cache invalidates when the value changes." |})
].

Definition instructionDescriptors : gmap string descriptor :=
  list_to_map instructionDescriptorsEntries.

Record rawInstruction := {
  line : Z;
  text : string
}.

Record parsedInstruction := {
  Line : Z;
  Keyword : string;
  Args : string;
  Raw : string
}.

Record layerReport := {
  Number : Z;
  Instruction : parsedInstruction;
  Effect : string;
  Explanation : string;
  CacheHint : string;
  Notes : list string
}.

Record stageInfo := {
  Index : Z;
  Name : string;
  Base : string
}.

Record stageReport := {
  Stage : stageInfo;
  Layers : list layerReport;
  FsLayers : Z;
  MetadataLayers : Z;
  BuildArgs : Z
}.

(** [Stages] is a slice of pointers in the source.  Each pointer is
    created by [ensureStage], stored in exactly one slot and never nil, so
    a stage is identified with its slot and an update through the pointer
    is an update of the slot. *)
Record report := {
  FilePath : string;
  Global : list layerReport;
  Stages : list stageReport
}.

(** What [os.Open] and a [bufio.Scanner] over the file give: the
    physical lines that [scanner.Scan] yields, in order, and the error
    [scanner.Err] reports once it has stopped, if any.  [os.Open] itself
    may fail, so a file is a [result scan]. *)
Record scan := {
  scanned : list string;
  scanErr : option string
}.

(** [len(x)] of a slice and of a string, as Go's [int]. *)
Definition len {A : Type} (l : list A) : Z := Z.of_nat (length l).
Definition strlen (s : string) : Z := Z.of_nat (String.length s).

(** Field assignments. *)
Definition withNumber (n : Z) (l : layerReport) : layerReport :=
  {| Number := n; Instruction := Instruction l; Effect := Effect l;
     Explanation := Explanation l; CacheHint := CacheHint l; Notes := Notes l |}.

Definition withNotes (notes : list string) (l : layerReport) : layerReport :=
  {| Number := Number l; Instruction := Instruction l; Effect := Effect l;
     Explanation := Explanation l; CacheHint := CacheHint l; Notes := notes |}.

Definition withStage (i : stageInfo) (s : stageReport) : stageReport :=
  {| Stage := i; Layers := Layers s; FsLayers := FsLayers s;
     MetadataLayers := MetadataLayers s; BuildArgs := BuildArgs s |}.

Definition withLayers (ls : list layerReport) (s : stageReport) : stageReport :=
  {| Stage := Stage s; Layers := ls; FsLayers := FsLayers s;
     MetadataLayers := MetadataLayers s; BuildArgs := BuildArgs s |}.

Definition withGlobal (g : list layerReport) (r : report) : report :=
  {| FilePath := FilePath r; Global := g; Stages := Stages r |}.

Definition withStages (ss : list stageReport) (r : report) : report :=
  {| FilePath := FilePath r; Global := Global r; Stages := ss |}.

Definition buildLayer (inst : parsedInstruction) (desc : descriptor)
    (extraNotes : list string) : layerReport :=
  {| Number := 0;
     Instruction := inst;
     Effect := descEffect desc;
     Explanation := descExplanation desc;
     CacheHint := descCacheHint desc;
     Notes := [] ++ extraNotes |}.

Definition descriptorFor (keyword : string) : descriptor :=
  match instructionDescriptors !! keyword with
  | Some desc => desc
  | None =>
    {| descEffect := effectMetadata;
       descExplanation := "Recorded as metadata. It influences how containers start but does not add filesystem content.";
       descCacheHint := "Cache key ties to the literal instruction, so changing text invalidates the layer." |}
  end.

(** The loop of [ensureStage]: [missing] is [index + 1 - len(rep.Stages)],
    the number of iterations left. *)
Fixpoint ensureStage_grow (missing : nat) (stages : list stageReport)
  : list stageReport :=
  match missing with
  | O => stages
  | S k =>
    ensureStage_grow k
      (stages ++ [ {| Stage := {| Index := len stages; Name := EmptyString; Base := EmptyString |};
                      Layers := []; FsLayers := 0; MetadataLayers := 0;
                      BuildArgs := 0 |} ])
  end.

(** [ensureStage(rep, index)]: the report with the stage list grown to
    hold slot [index]; the pointer it returns is that slot.  The branch
    for a nil slot cannot be taken (no slot is ever nil). *)
Definition ensureStage (rep : report) (index : Z) : report :=
  withStages (ensureStage_grow (Z.to_nat (index + 1 - len (Stages rep))) (Stages rep)) rep.

(** An update through the pointer [ensureStage] returned. *)
Definition updateStage (index : Z) (f : stageReport → stageReport)
    (rep : report) : report :=
  withStages (alter f (Z.to_nat index) (Stages rep)) rep.

Section Analyzer.
Context `{UnicodeText}.

Definition parseInstruction (raw : rawInstruction) : result parsedInstruction :=
  let trimmed := TrimSpace (text raw) in
  if String.eqb trimmed EmptyString then
    Ok {| Line := 0; Keyword := EmptyString; Args := EmptyString; Raw := EmptyString |}
  else
    let idx := IndexFunc trimmed IsSpace in
    let '(keyword, args) :=
      if idx =? -1 then (trimmed, EmptyString)
      else (slice_to (Z.to_nat idx) trimmed,
            TrimSpace (slice_from (Z.to_nat idx) trimmed)) in
    Ok {| Line := line raw; Keyword := ToUpper keyword; Args := args; Raw := trimmed |}.

Definition backslash : string := String "092" EmptyString.
Definition hash : N := byte_val "#".

Definition stripContinuation (line : string) : string * bool :=
  if HasSuffix line backslash then (TrimSpace (TrimSuffix line backslash), true)
  else (line, false).

(** The loop of [removeInlineComment], [for i := 0; i < len(line); i++];
    [todo] is [len(line) - i].  [line[i-1]] is a byte, and
    [rune(line[i-1])] is the code point with the value of that byte. *)
Fixpoint removeInlineComment_loop (todo : nat) (line : string) (i : nat) : string :=
  match todo with
  | O => line
  | S k =>
    if (at_index line i =? hash)%N
       && ((i =? 0)%nat || IsSpace (at_index line (i - 1)))
    then TrimSpace (slice_to i line)
    else removeInlineComment_loop k line (S i)
  end.

Definition removeInlineComment (line : string) : string :=
  removeInlineComment_loop (String.length line) line 0.

(** The state of the loop of [readInstructions]: the instructions read so
    far, the [strings.Builder] and the line the open instruction began on. *)
Record assembler := {
  instructions : list rawInstruction;
  current : string;
  currentLine : Z
}.

(** One iteration: the physical line [text], numbered [line]. *)
Definition readLine (line : Z) (text : string) (a : assembler) : assembler :=
  let trimmed := TrimSpace text in
  if String.eqb trimmed EmptyString || HasPrefix trimmed "#" then a
  else
    let lineWithoutInlineComment := removeInlineComment trimmed in
    if String.eqb lineWithoutInlineComment EmptyString then a
    else
      let a :=
        if strlen (current a) =? 0
        then {| instructions := instructions a; current := current a;
                currentLine := line |}
        else {| instructions := instructions a; current := current a +:+ " ";
                currentLine := currentLine a |} in
      let '(linePart, carries) := stripContinuation lineWithoutInlineComment in
      let a := {| instructions := instructions a;
                  current := current a +:+ linePart;
                  currentLine := currentLine a |} in
      if negb carries then
        {| instructions :=
             instructions a ++ [ {| line := currentLine a; text := current a |} ];
           current := EmptyString;
           currentLine := currentLine a |}
      else a.

(** [for line := 1; scanner.Scan(); line++]: [line] also advances over
    the lines the body skips with [continue]. *)
Fixpoint readLines (line : Z) (lines : list string) (a : assembler) : assembler :=
  match lines with
  | [] => a
  | text :: rest => readLines (line + 1) rest (readLine line text a)
  end.

Definition readInstructions (file : result scan) : result (list rawInstruction) :=
  match file with
  | Err e => Err e
  | Ok file =>
    let a := readLines 1 (scanned file)
               {| instructions := []; current := EmptyString; currentLine := 0 |} in
    match scanErr file with
    | Some e => Err e
    | None =>
      if negb (strlen (current a) =? 0)
      then Err "unterminated line continuation at end of file"
      else Ok (instructions a)
    end
  end.

(** The first loop of [parseFrom]: the tokens from the first one that
    does not start with two dashes, [tokens[i:]]. *)
Fixpoint skipFlags (tokens : list string) : list string :=
  match tokens with
  | [] => []
  | token :: rest => if HasPrefix token "--" then skipFlags rest else tokens
  end.

Definition parseFrom (args : string) : string * string :=
  let tokens := Fields args in
  if len tokens =? 0 then (EmptyString, EmptyString)
  else
    match skipFlags tokens with
    | [] => (EmptyString, EmptyString)
    | base :: rest =>
      match rest with
      | t :: alias :: _ =>
        if EqualFold t "AS" then (base, alias) else (base, EmptyString)
      | _ => (base, EmptyString)
      end
    end.

(** The loop of [detectCopySourceStage] over [tokens[i:]]. *)
Fixpoint detectCopySourceStage_loop (tokens : list string) : string :=
  match tokens with
  | [] => EmptyString
  | token :: rest =>
    if HasPrefix token "--from=" then TrimPrefix token "--from="
    else
      match rest with
      | next :: _ =>
        if String.eqb token "--from" then next
        else detectCopySourceStage_loop rest
      | [] => detectCopySourceStage_loop rest
      end
  end.

Definition detectCopySourceStage (args : string) : string :=
  detectCopySourceStage_loop (Fields args).

Definition copyNotes (args : string) (aliases : gmap string Z) : list string :=
  let source := detectCopySourceStage args in
  if String.eqb source EmptyString then
    ["Takes files from the build context, so editing those files will invalidate this layer."]
  else
    let lowered := ToLower source in
    match aliases !! lowered with
    | Some idx =>
      ["Copies from stage " +:+ pretty idx +:+ " (" +:+ source
       +:+ "). Cache depends on that stage's output instead of local files."]
    | None =>
      ["Copies from " +:+ Quote source +:+ ". Make sure the stage or image exists."]
    end.

(** The variables of the loop of [analyzeDockerfile]. *)
Record builder := {
  rep : report;
  stageIndex : Z;
  stageAliases : gmap string Z
}.

(** [layer.Number = len(stage.Layers) + 1;
     stage.Layers = append(stage.Layers, layer)] *)
Definition appendLayer (layer : layerReport) (stage : stageReport) : stageReport :=
  withLayers (Layers stage ++ [withNumber (len (Layers stage) + 1) layer]) stage.

(** [switch layer.Effect] *)
Definition countLayer (layer : layerReport) (stage : stageReport) : stageReport :=
  if String.eqb (Effect layer) effectFilesystem then
    {| Stage := Stage stage; Layers := Layers stage;
       FsLayers := FsLayers stage + 1;
       MetadataLayers := MetadataLayers stage; BuildArgs := BuildArgs stage |}
  else if String.eqb (Effect layer) effectMetadata then
    {| Stage := Stage stage; Layers := Layers stage;
       FsLayers := FsLayers stage;
       MetadataLayers := MetadataLayers stage + 1; BuildArgs := BuildArgs stage |}
  else if String.eqb (Effect layer) effectBuildArg then
    {| Stage := Stage stage; Layers := Layers stage;
       FsLayers := FsLayers stage;
       MetadataLayers := MetadataLayers stage; BuildArgs := BuildArgs stage + 1 |}
  else stage.

(** [switch inst.Keyword]: the notes appended to the layer. *)
Definition keywordNotes (inst : parsedInstruction) (aliases : gmap string Z)
  : list string :=
  if String.eqb (Keyword inst) "COPY" then copyNotes (Args inst) aliases
  else if String.eqb (Keyword inst) "ADD" then
    (if Contains (Args inst) "http://" || Contains (Args inst) "https://"
     then ["Remote URLs are downloaded at build time; network changes can invalidate cache."]
     else [])
    ++ (if Contains (Args inst) ".tar"
        then ["Tar archives are auto-extracted, which can surprise caching when archive contents change."]
        else [])
  else if String.eqb (Keyword inst) "RUN" then
    ["Cleanup temp files within the same RUN to prevent them from sticking in the layer."]
  else if String.eqb (Keyword inst) "ARG" then
    ["Only available during build; use ENV if the value is needed at runtime."]
  else [].

(** The branch [inst.Keyword == "FROM"]. *)
Definition analyzeFrom (b : builder) (inst : parsedInstruction) : result builder :=
  let stageIndex := stageIndex b + 1 in
  let rep := ensureStage (rep b) stageIndex in
  let '(base, alias) := parseFrom (Args inst) in
  if String.eqb base EmptyString then
    Err ("line " +:+ pretty (Line inst) +:+ ": FROM instruction missing base image")
  else
    let rep :=
      updateStage stageIndex
        (λ stage, withStage {| Index := Index (Stage stage); Name := alias; Base := base |} stage)
        rep in
    let stageAliases :=
      if negb (String.eqb alias EmptyString)
      then <[ToLower alias := stageIndex]> (stageAliases b)
      else stageAliases b in
    let stageAliases := <[pretty stageIndex := stageIndex]> stageAliases in
    let layer :=
      buildLayer inst (descriptorFor (Keyword inst))
        ["Stage resets here and pulls " +:+ Quote base +:+ "."] in
    let layer :=
      if negb (String.eqb alias EmptyString)
      then withNotes
             (Notes layer ++
              ["Alias " +:+ Quote alias
               +:+ " lets you reference this stage via COPY --from=" +:+ alias +:+ "."])
             layer
      else layer in
    let rep := updateStage stageIndex (appendLayer layer) rep in
    Ok {| rep := rep; stageIndex := stageIndex; stageAliases := stageAliases |}.

(** The branch [stageIndex == -1] (the instruction is not a FROM). *)
Definition analyzeGlobal (b : builder) (inst : parsedInstruction) : result builder :=
  if String.eqb (Keyword inst) "ARG" then
    let layer := buildLayer inst (descriptorFor (Keyword inst)) [] in
    let layer :=
      withNotes
        (Notes layer ++ ["This ARG applies globally and can be referenced in the first FROM."])
        layer in
    let layer := withNumber (len (Global (rep b)) + 1) layer in
    Ok {| rep := withGlobal (Global (rep b) ++ [layer]) (rep b);
          stageIndex := stageIndex b; stageAliases := stageAliases b |}
  else
    Err ("line " +:+ pretty (Line inst) +:+ ": Dockerfile must start with FROM (found "
         +:+ Keyword inst +:+ ")").

(** The rest of the body: an instruction inside the current stage. *)
Definition analyzeInStage (b : builder) (inst : parsedInstruction) : result builder :=
  let rep := ensureStage (rep b) (stageIndex b) in
  let layer := buildLayer inst (descriptorFor (Keyword inst)) [] in
  let layer := withNotes (Notes layer ++ keywordNotes inst (stageAliases b)) layer in
  let rep := updateStage (stageIndex b) (countLayer layer) rep in
  let rep := updateStage (stageIndex b) (appendLayer layer) rep in
  Ok {| rep := rep; stageIndex := stageIndex b; stageAliases := stageAliases b |}.

(** One iteration of [for _, inst := range instructions]. *)
Definition analyzeInstruction (b : builder) (inst : parsedInstruction) : result builder :=
  if String.eqb (Keyword inst) EmptyString then Ok b
  else if String.eqb (Keyword inst) "FROM" then analyzeFrom b inst
  else if stageIndex b =? -1 then analyzeGlobal b inst
  else analyzeInStage b inst.

Fixpoint analyzeInstructions (insts : list parsedInstruction) (b : builder)
  : result builder :=
  match insts with
  | [] => Ok b
  | inst :: rest =>
    match analyzeInstruction b inst with
    | Ok b => analyzeInstructions rest b
    | Err e => Err e
    end
  end.

(** [for _, raw := range rawInstructions { parsed, err := parseInstruction(raw) ... }] *)
Fixpoint parseInstructions (raws : list rawInstruction) : result (list parsedInstruction) :=
  match raws with
  | [] => Ok []
  | raw :: rest =>
    match parseInstruction raw with
    | Err e => Err e
    | Ok parsed =>
      match parseInstructions rest with
      | Err e => Err e
      | Ok instructions => Ok (parsed :: instructions)
      end
    end
  end.

Definition newBuilder (fullPath : string) : builder :=
  {| rep := {| FilePath := fullPath; Global := []; Stages := [] |};
     stageIndex := -1;
     stageAliases := ∅ |}.

(** The variables of [analyzeDockerfile] after its loop: [abs] is what
    [filepath.Abs(path)] returns, [file] what the file at that path
    gives. *)
Definition analyzeDockerfile_builder (abs : result string) (file : result scan)
  : result builder :=
  match abs with
  | Err e => Err e
  | Ok fullPath =>
    match readInstructions file with
    | Err e => Err e
    | Ok rawInstructions =>
      if len rawInstructions =? 0 then
        Err ("no Dockerfile instructions found in " +:+ fullPath)
      else
        match parseInstructions rawInstructions with
        | Err e => Err e
        | Ok instructions => analyzeInstructions instructions (newBuilder fullPath)
        end
    end
  end.

Definition analyzeDockerfile (abs : result string) (file : result scan)
  : result report :=
  match analyzeDockerfile_builder abs file with
  | Err e => Err e
  | Ok b => Ok (rep b)
  end.

End Analyzer.

(** ** The helpers of the package's tests *)

(** The loop of [findLayer] over [stage.Layers[i:]]; [None] is nil. *)
Fixpoint findLayer_loop (layers : list layerReport) (keyword : string)
  : option layerReport :=
  match layers with
  | [] => None
  | layer :: rest =>
    if String.eqb (Keyword (Instruction layer)) keyword then Some layer
    else findLayer_loop rest keyword
  end.

Definition findLayer (stage : stageReport) (keyword : string) : option layerReport :=
  findLayer_loop (Layers stage) keyword.

Fixpoint noteContains (notes : list string) (needle : string) : bool :=
  match notes with
  | [] => false
  | note :: rest => if Contains note needle then true else noteContains rest needle
  end.

(** ** An instance for evaluation: ASCII text

    These four functions agree with Go's on strings of ASCII bytes, where
    no Unicode table is consulted; they are what the examples below run
    with.  Bytes from 0x80 on are left as they are. *)

Module AsciiText.

Definition upper_byte (c : ascii) : ascii :=
  let b := byte_val c in
  if between 0x61 0x7A b then ascii_of_N (b - 0x20) else c.

Definition lower_byte (c : ascii) : ascii :=
  let b := byte_val c in
  if between 0x41 0x5A b then ascii_of_N (b + 0x20) else c.

Fixpoint map_bytes (f : ascii → ascii) (s : string) : string :=
  match s with
  | EmptyString => EmptyString
  | String c s' => String (f c) (map_bytes f s')
  end.

Definition hex_digit (n : N) : ascii :=
  if (n <? 10)%N then ascii_of_N (0x30 + n) else ascii_of_N (0x61 + (n - 10)).

(** The escape [strconv.Quote] writes for one ASCII byte. *)
Definition quote_byte (c : ascii) : string :=
  let b := byte_val c in
  let esc (x : ascii) := String "092" (String x EmptyString) in
  if (b =? 0x22)%N then esc "034"%char
  else if (b =? 0x5C)%N then esc "092"%char
  else if between 0x20 0x7E b then String c EmptyString
  else if (b =? 0x07)%N then esc "a"%char
  else if (b =? 0x08)%N then esc "b"%char
  else if (b =? 0x0C)%N then esc "f"%char
  else if (b =? 0x0A)%N then esc "n"%char
  else if (b =? 0x0D)%N then esc "r"%char
  else if (b =? 0x09)%N then esc "t"%char
  else if (b =? 0x0B)%N then esc "v"%char
  else String "092" (String "x" (String (hex_digit (b / 16)) (String (hex_digit (b mod 16)) EmptyString))).

Fixpoint quote_bytes (s : string) : string :=
  match s with
  | EmptyString => EmptyString
  | String c s' => quote_byte c +:+ quote_bytes s'
  end.

#[export] Instance ascii_text : UnicodeText := {|
  ToUpper := map_bytes upper_byte;
  ToLower := map_bytes lower_byte;
  EqualFold := λ s t, String.eqb (map_bytes lower_byte s) (map_bytes lower_byte t);
  Quote := λ s, String "034" (quote_bytes s) +:+ String "034" EmptyString
|}.

End AsciiText.

(** * The vocabulary of the properties *)

Section Vocabulary.
Context `{UnicodeText}.

(** The loop keeps [stageIndex] at the last slot of [rep.Stages]. *)
Definition aligned (b : builder) : Prop :=
  stageIndex b = len (Stages (rep b)) - 1.

(** The FROM layer as [analyzeDockerfile] builds it, before numbering. *)
Definition fromLayer (inst : parsedInstruction) (base alias : string) : layerReport :=
  let layer :=
    buildLayer inst (descriptorFor (Keyword inst))
      ["Stage resets here and pulls " +:+ Quote base +:+ "."] in
  if negb (String.eqb alias EmptyString)
  then withNotes
         (Notes layer ++
          ["Alias " +:+ Quote alias
           +:+ " lets you reference this stage via COPY --from=" +:+ alias +:+ "."])
         layer
  else layer.

(** The layer of an instruction inside a stage, before numbering. *)
Definition stageLayer (inst : parsedInstruction) (aliases : gmap string Z) : layerReport :=
  let layer := buildLayer inst (descriptorFor (Keyword inst)) [] in
  withNotes (Notes layer ++ keywordNotes inst aliases) layer.

Definition registerStage (alias : string) (index : Z) (aliases : gmap string Z)
  : gmap string Z :=
  <[pretty index := index]>
    (if negb (String.eqb alias EmptyString)
     then <[ToLower alias := index]> aliases
     else aliases).

(** The number of layers of [layers] whose effect is [effect]. *)
Definition counted (effect : string) (layers : list layerReport) : Z :=
  len (filter (λ l, Effect l = effect) layers).

(** What holds of the stage in slot [i]. *)
Record stage_ok (i : nat) (st : stageReport) : Prop := {
  ok_index : Index (Stage st) = Z.of_nat i;
  ok_first :
    ∃ l0 rest,
      Layers st = l0 :: rest ∧ Number l0 = 1 ∧ Effect l0 = effectStageStart
      ∧ Keyword (Instruction l0) = "FROM"
      ∧ Forall (λ l, Effect l ≠ effectStageStart) rest;
  ok_numbers :
    ∀ k l, Layers st !! k = Some l → Number l = Z.of_nat k + 1;
  ok_fs : FsLayers st = counted effectFilesystem (Layers st);
  ok_metadata : MetadataLayers st = counted effectMetadata (Layers st);
  ok_buildargs : BuildArgs st = counted effectBuildArg (Layers st);
  ok_total :
    len (Layers st) = FsLayers st + MetadataLayers st + BuildArgs st + 1
}.

Record wf (b : builder) : Prop := {
  wf_aligned : aligned b;
  wf_stages : ∀ i st, Stages (rep b) !! i = Some st → stage_ok i st;
  wf_global :
    Forall (λ l, Effect l = effectBuildArg ∧ Keyword (Instruction l) = "ARG")
           (Global (rep b))
}.

(** The layer [analyzeDockerfile] appends to [rep.Global], before
    numbering. *)
Definition globalLayer (inst : parsedInstruction) : layerReport :=
  withNotes ["This ARG applies globally and can be referenced in the first FROM."]
    (buildLayer inst (descriptorFor "ARG") []).

(** The claim C3 as the specification states it: every stage that
    declared an alias is what the table gives for that alias. *)
Definition alias_write_once (b : builder) : Prop :=
  ∀ i st,
    Stages (rep b) !! i = Some st → Name (Stage st) ≠ EmptyString →
    stageAliases b !! ToLower (Name (Stage st)) = Some (Z.of_nat i).

(** The stage in slot [i], of alias [name], writes the table at [key]:
    under its lowercased alias if it has one, and under its index. *)
Definition registers (i : nat) (name key : string) : Prop :=
  (name ≠ EmptyString ∧ ToLower name = key) ∨ pretty (Z.of_nat i) = key.

(** Slot [j] is the last one of [names] that writes [key]. *)
Definition last_registered (names : list string) (key : string) (j : nat) : Prop :=
  (∃ name, names !! j = Some name ∧ registers j name key)
  ∧ ∀ j' name', (j < j')%nat → names !! j' = Some name' → ¬ registers j' name' key.

Definition stageNames (r : report) : list string :=
  map (λ st, Name (Stage st)) (Stages r).

(** The table holds, at every key, the last stage that wrote it. *)
Definition aliases_ok (b : builder) : Prop :=
  ∀ key,
    match stageAliases b !! key with
    | Some idx => ∃ j, idx = Z.of_nat j ∧ last_registered (stageNames (rep b)) key j
    | None => ∀ j name, stageNames (rep b) !! j = Some name → ¬ registers j name key
    end.

(** [token] is not a [--from] flag. *)
Definition not_from_flag (token : string) : Prop :=
  HasPrefix token "--from=" = false ∧ token ≠ "--from".

End Vocabulary.

(** Offset [i] of [line] starts an inline comment for
    [removeInlineComment]: a hash sign that is the first byte, or that
    follows a byte whose value is the code point of a white space. *)
Definition starts_comment (line : string) (i : nat) : Prop :=
  at_index line i = hash
  ∧ (i = 0%nat ∨ IsSpace (at_index line (i - 1)) = true).

(** ** More vocabulary: the report as a whole *)

(** The stage [ensureStage] stores in a new slot [i]. *)
Definition freshStage (i : Z) : stageReport :=
  {| Stage := {| Index := i; Name := EmptyString; Base := EmptyString |};
     Layers := []; FsLayers := 0; MetadataLayers := 0; BuildArgs := 0 |}.

(** All layers of a report in the order [printReport] walks them: the
    global ones, then those of each stage. *)
Definition layersInOrder (r : report) : list layerReport :=
  Global r ++ concat (map Layers (Stages r)).

(** The layer carries the descriptor of its own instruction's keyword. *)
Definition described (l : layerReport) : Prop :=
  Effect l = descEffect (descriptorFor (Keyword (Instruction l)))
  ∧ Explanation l = descExplanation (descriptorFor (Keyword (Instruction l)))
  ∧ CacheHint l = descCacheHint (descriptorFor (Keyword (Instruction l))).

(** The layers of [layers] are numbered 1, 2, ... *)
Definition numbered (layers : list layerReport) : Prop :=
  ∀ k l, layers !! k = Some l → Number l = Z.of_nat k + 1.

Section MoreVocabulary.
Context `{UnicodeText}.

(** [token] is a flag for [parseFrom]. *)
Definition is_flag (token : string) : Prop := HasPrefix token "--" = true.

(** The FROM instruction names a base image. *)
Definition has_base (inst : parsedInstruction) : Prop :=
  Keyword inst = "FROM" → (parseFrom (Args inst)).1 ≠ EmptyString.

(** The stage repeats what [parseFrom] reads in the arguments of the
    instruction of its first layer. *)
Definition stage_from_ok (st : stageReport) : Prop :=
  ∃ l0, head (Layers st) = Some l0
        ∧ parseFrom (Args (Instruction l0)) = (Base (Stage st), Name (Stage st))
        ∧ Base (Stage st) ≠ EmptyString.

(** The report of [b'] continues that of [b]: the global list and the
    layer list of every stage of [b] are extended at the end, and a stage
    before the current one of [b] is the same in both. *)
Definition extends (b b' : builder) : Prop :=
  (∃ more, Global (rep b') = Global (rep b) ++ more)
  ∧ (∀ i st, Stages (rep b) !! i = Some st →
       ∃ st', Stages (rep b') !! i = Some st'
              ∧ Stage st' = Stage st
              ∧ (∃ more, Layers st' = Layers st ++ more)
              ∧ (Z.of_nat i < stageIndex b → st' = st))
  ∧ stageIndex b ≤ stageIndex b'.

(** The two messages of the loop of [analyzeDockerfile]. *)
Definition missingBaseError (inst : parsedInstruction) : string :=
  "line " +:+ pretty (Line inst) +:+ ": FROM instruction missing base image".

Definition mustStartWithFromError (inst : parsedInstruction) : string :=
  "line " +:+ pretty (Line inst) +:+ ": Dockerfile must start with FROM (found "
  +:+ Keyword inst +:+ ")".

End MoreVocabulary.

Section NotesVocabulary.
Context `{UnicodeText}.

(** The layer is that of a FROM, or its notes are those of the switch on
    its keyword, for some alias table. *)
Definition noted (l : layerReport) : Prop :=
  Keyword (Instruction l) = "FROM"
  ∨ ∃ aliases, Notes l = keywordNotes (Instruction l) aliases.

End NotesVocabulary.

(** ** More vocabulary: the line assembler *)

(** What [readInstructions] keeps of a physical line: the line trimmed
    and without its inline comment. *)
Definition lineContent (text : string) : string :=
  removeInlineComment (TrimSpace text).

(** The loop of [readInstructions] skips the line: it is blank, a
    comment, or nothing is left of it. *)
Definition skippedLine (text : string) : bool :=
  String.eqb (TrimSpace text) EmptyString
  || HasPrefix (TrimSpace text) "#"
  || String.eqb (lineContent text) EmptyString.

(** The line ends with a backslash once trimmed and without comment. *)
Definition carriesOn (text : string) : bool :=
  HasSuffix (lineContent text) backslash.

(** The part a line that carries on contributes. *)
Definition carriedPart (text : string) : string :=
  TrimSpace (TrimSuffix (lineContent text) backslash).

(** The instructions of a file in which no line carries on: one for each
    line that is not skipped, with the number of that line. *)
Fixpoint plainInstructions (line : Z) (lines : list string) : list rawInstruction :=
  match lines with
  | [] => []
  | text :: rest =>
    (if skippedLine text then []
     else [ {| line := line; text := lineContent text |} ])
    ++ plainInstructions (line + 1) rest
  end.

(** The parts of the lines inside a continuation, skipped lines left
    out. *)
Fixpoint carriedParts (lines : list string) : list string :=
  match lines with
  | [] => []
  | text :: rest =>
    (if skippedLine text then [] else [carriedPart text]) ++ carriedParts rest
  end.

(** The parts with one space between them. *)
Fixpoint joinSpace (parts : list string) : string :=
  match parts with
  | [] => EmptyString
  | [part] => part
  | part :: rest => part +:+ " " +:+ joinSpace rest
  end.

(** The lines of [raws] grow strictly. *)
Definition increasing (raws : list rawInstruction) : Prop :=
  ∀ i j ri rj, (i < j)%nat → raws !! i = Some ri → raws !! j = Some rj →
    line ri < line rj.

(** What the loop of [readInstructions] keeps true, before it reads line
    [n]. *)
Record assembler_ok (n : Z) (a : assembler) : Prop := {
  asm_increasing : increasing (instructions a);
  asm_instructions :
    Forall (λ r, 1 ≤ line r < n ∧ text r ≠ EmptyString) (instructions a);
  asm_open :
    current a ≠ EmptyString →
    1 ≤ currentLine a < n
    ∧ Forall (λ r, line r < currentLine a) (instructions a)
}.

(** ** Concrete Dockerfiles

    The inputs of the examples at the end, evaluated with the ASCII
    instance. *)

Module Inputs.
Import AsciiText.

(** The Dockerfiles of the specification's scenarios A and B (the exec
    forms of CMD and ENTRYPOINT written without quotes). *)
Definition scenarioA : list string := [
  "ARG GLOBAL_VERSION=3.18";
  "FROM alpine:${GLOBAL_VERSION}";
  "RUN apk add --no-cache curl";
  "COPY . /app";
  "WORKDIR /app";
  "CMD [./run]"
].

Definition scenarioB : list string := [
  "FROM golang:1.22 AS base";
  "FROM base AS builder";
  "ARG VERSION=1.0";
  "COPY --from=base /src /src";
  "FROM scratch";
  "COPY --from=builder /bin/app /bin/app";
  "ENTRYPOINT [/bin/app]"
].

(** Two stages that declare the same alias. *)
Definition sameAlias : list string := [
  "FROM alpine:3.18 AS build";
  "FROM debian:12 AS build"
].

(** A file that opens and scans without error, and its absolute path. *)
Definition textFile (lines : list string) : result scan :=
  Ok {| scanned := lines; scanErr := None |}.

Definition srcDockerfile : result string := Ok "/src/Dockerfile".

Definition reportOf (res : result report) : report :=
  match res with
  | Ok r => r
  | Err _ => {| FilePath := EmptyString; Global := []; Stages := [] |}
  end.

Definition builderOf (res : result builder) : builder :=
  match res with
  | Ok b => b
  | Err _ => newBuilder EmptyString
  end.

Definition listOf {A : Type} (res : result (list A)) : list A :=
  match res with
  | Ok l => l
  | Err _ => []
  end.

Definition scenarioA_report : report :=
  Eval vm_compute in reportOf (analyzeDockerfile srcDockerfile (textFile scenarioA)).

Definition scenarioB_raws : list rawInstruction :=
  Eval vm_compute in listOf (readInstructions (textFile scenarioB)).

Definition scenarioB_insts : list parsedInstruction :=
  Eval vm_compute in listOf (parseInstructions scenarioB_raws).

Definition scenarioB_report : report :=
  Eval vm_compute in reportOf (analyzeDockerfile srcDockerfile (textFile scenarioB)).

Definition sameAlias_builder : builder :=
  Eval vm_compute in builderOf (analyzeDockerfile_builder srcDockerfile (textFile sameAlias)).

(** The builder after the first line of scenario B. *)
Definition inStage0 : builder :=
  Eval vm_compute in builderOf (analyzeDockerfile_builder srcDockerfile (textFile ["FROM golang:1.22 AS base"])).

Definition argVersion : parsedInstruction :=
  {| Line := 1; Keyword := "ARG"; Args := "VERSION=3.18"; Raw := "ARG VERSION=3.18" |}.

Definition runFirst : parsedInstruction :=
  {| Line := 2; Keyword := "RUN"; Args := "echo hi"; Raw := "RUN echo hi" |}.

Definition fromAlpine : parsedInstruction :=
  {| Line := 3; Keyword := "FROM"; Args := "--platform=linux/amd64 alpine:3.18 as build";
     Raw := "FROM --platform=linux/amd64 alpine:3.18 as build" |}.

Definition fromNothing : parsedInstruction :=
  {| Line := 7; Keyword := "FROM"; Args := "--platform=linux/amd64";
     Raw := "FROM --platform=linux/amd64" |}.

Definition copyFromBase : parsedInstruction :=
  {| Line := 2; Keyword := "COPY"; Args := "--from=BASE /src /src";
     Raw := "COPY --from=BASE /src /src" |}.

(** The builder after a global ARG and the first FROM. *)
Definition argThenFrom : builder :=
  Eval vm_compute in
    builderOf (analyzeInstructions [argVersion; fromAlpine] (newBuilder "/src/Dockerfile")).

Definition checkpoint : parsedInstruction :=
  {| Line := 3; Keyword := "CHECKPOINT"; Args := "now"; Raw := "CHECKPOINT now" |}.

(** A file whose last line holds a backslash and nothing else. *)
Definition loneBackslash : list string := ["FROM alpine:3.18"; backslash].

(** The UTF-8 encodings of U+00E0 (a with grave) and of U+2003 (em
    space, a white space). *)
Definition a_grave : string := String "195" (String "160" EmptyString).
Definition em_space : string := String "226" (String "128" (String "131" EmptyString)).

Definition labelLine : string := "LABEL greeting=voil" +:+ a_grave +:+ "#1".

End Inputs.

(** ** More concrete inputs *)

Module MoreInputs.
Import AsciiText Inputs.

(** The arguments of a FROM with a flag, a base and an alias. *)
Definition fromArgs : string := "--platform=linux/amd64 alpine:3.18 as build".

(** The instructions of scenario B up to its second stage, and the
    builders after them and after all of scenario B. *)
Definition firstTwoStages : list parsedInstruction :=
  Eval vm_compute in take 4 scenarioB_insts.

Definition lastStage : list parsedInstruction :=
  Eval vm_compute in drop 4 scenarioB_insts.

Definition afterTwoStages : builder :=
  Eval vm_compute in
    builderOf (analyzeInstructions firstTwoStages (newBuilder "/src/Dockerfile")).

Definition scenarioB_builder : builder :=
  Eval vm_compute in
    builderOf (analyzeDockerfile_builder srcDockerfile (textFile scenarioB)).

(** A RUN before any FROM. *)
Definition runBeforeFrom : list string := ["ARG VERSION=1"; "RUN echo hi"; "FROM alpine"].

Definition runBeforeFrom_insts : list parsedInstruction :=
  Eval vm_compute in
    listOf (parseInstructions (listOf (readInstructions (textFile runBeforeFrom)))).

Definition runBeforeFromError : string :=
  "line 2: Dockerfile must start with FROM (found RUN)".

(** Blank lines and comments only. *)
Definition onlyComments : list string := [EmptyString; "# syntax=docker/dockerfile:1"; "   "].

(** An instruction over three physical lines, with a comment inside. *)
Definition runFirstLine : string := "RUN apk update && " +:+ backslash.
Definition runSecondLine : string := "    apk add curl " +:+ backslash.
Definition runLastLine : string := "    && rm -rf /var/cache".

Definition emptyAssembler : assembler :=
  {| instructions := []; current := EmptyString; currentLine := 0 |}.

Definition copyArgs : string := "--from=base /src /src".

Definition baseAliases : gmap string Z := Eval vm_compute in stageAliases inStage0.

(** The second stage of scenario B. *)
Definition builderStage : stageReport :=
  Eval vm_compute in default (freshStage 1) (Stages scenarioB_report !! 1%nat).

End MoreInputs.

(** * Properties *)

(** ** The descriptor table *)

Lemma descriptor_in_table (keyword : string) (desc : descriptor) :
  instructionDescriptors !! keyword = Some desc →
  (keyword, desc) ∈ instructionDescriptorsEntries.
Proof. apply elem_of_list_to_map_2. Qed.

(** Only FROM starts a stage: every other keyword, in the table or not,
    is classified as one of the three counted effects. *)
Lemma descriptorFor_counted (keyword : string) :
  keyword ≠ "FROM" →
  descEffect (descriptorFor keyword) = effectFilesystem
  ∨ descEffect (descriptorFor keyword) = effectMetadata
  ∨ descEffect (descriptorFor keyword) = effectBuildArg.
Proof.
  intros Hk. unfold descriptorFor.
  destruct (instructionDescriptors !! keyword) as [desc|] eqn:E; [|by auto].
  apply descriptor_in_table in E. unfold instructionDescriptorsEntries in E.
  repeat (apply elem_of_cons in E as [E|E];
          [injection E as -> ->; first [done | by auto] |]).
  by apply elem_of_nil in E.
Qed.

Lemma descriptorFor_FROM : descEffect (descriptorFor "FROM") = effectStageStart.
Proof. by vm_compute. Qed.

Lemma descriptorFor_ARG : descEffect (descriptorFor "ARG") = effectBuildArg.
Proof. by vm_compute. Qed.

(** ** [ensureStage] *)

Lemma ensureStage_grow_length (missing : nat) (stages : list stageReport) :
  length (ensureStage_grow missing stages) = (length stages + missing)%nat.
Proof.
  revert stages. induction missing as [|k IH]; intros stages; simpl; [lia|].
  rewrite IH, length_app. simpl. lia.
Qed.

(** The slot exists afterwards. *)
Lemma ensureStage_in_range (rep : report) (index : Z) :
  index < len (Stages (ensureStage rep index)).
Proof.
  unfold ensureStage, len. simpl. rewrite ensureStage_grow_length.
  unfold len. lia.
Qed.

(** A slot that exists already: nothing changes. *)
Lemma ensureStage_present (rep : report) (index : Z) :
  index < len (Stages rep) → ensureStage rep index = rep.
Proof.
  intros Hlt. unfold ensureStage.
  replace (Z.to_nat (index + 1 - len (Stages rep))) with 0%nat by lia.
  by destruct rep.
Qed.

(** The next slot: exactly one fresh stage is appended, numbered by its
    position. *)
Lemma ensureStage_next (rep : report) :
  Stages (ensureStage rep (len (Stages rep))) =
  Stages rep ++ [ {| Stage := {| Index := len (Stages rep); Name := EmptyString;
                                 Base := EmptyString |};
                     Layers := []; FsLayers := 0; MetadataLayers := 0;
                     BuildArgs := 0 |} ].
Proof.
  unfold ensureStage.
  replace (Z.to_nat (len (Stages rep) + 1 - len (Stages rep))) with 1%nat by lia.
  reflexivity.
Qed.

Lemma to_nat_len {A : Type} (l : list A) : Z.to_nat (len l) = length l.
Proof. apply Nat2Z.id. Qed.

Lemma alter_last {A : Type} (f : A → A) (l : list A) (x : A) :
  alter f (length l) (l ++ [x]) = l ++ [f x].
Proof. induction l as [|y l IH]; simpl; [done|]. f_equal. exact IH. Qed.

(** ** Tokens of [strings.Fields] *)

(** A rune decoded from a string that is not empty has at least one byte. *)
Lemma DecodeRuneInString_width (c : ascii) (s : string) :
  (1 ≤ (DecodeRuneInString (String c s)).2)%nat.
Proof.
  unfold DecodeRuneInString. cbn [String.length Nat.ltb Nat.leb].
  repeat (match goal with |- context [if ?x then _ else _] => destruct x end);
    simpl; lia.
Qed.

Lemma range_from_bytes (i skip : nat) (s : string) :
  Forall (λ x, x.2 ≠ EmptyString) (range_from i skip s).
Proof.
  revert i skip. induction s as [|c s IH]; intros i skip; [constructor|].
  cbn [range_from]. destruct skip as [|k]; [|apply IH].
  pose proof (DecodeRuneInString_width c s) as Hw.
  destruct (DecodeRuneInString (String c s)) as [r w]. simpl in Hw.
  constructor; [|apply IH].
  destruct w as [|w]; [lia|]. done.
Qed.

Lemma append_not_empty (s t : string) : s ≠ EmptyString → s +:+ t ≠ EmptyString.
Proof. by destruct s. Qed.

Lemma fields_of_not_empty (rs : list (nat * rune * string)) (cur : option string) :
  Forall (λ x, x.2 ≠ EmptyString) rs →
  (∀ w, cur = Some w → w ≠ EmptyString) →
  Forall (λ token, token ≠ EmptyString) (fields_of rs cur).
Proof.
  intros Hrs. revert cur. induction Hrs as [|[[i r] bytes] rs Hb _ IH]; intros cur Hcur.
  - simpl. destruct cur; [|constructor]. constructor; [by apply Hcur | constructor].
  - simpl in Hb. cbn [fields_of]. destruct (IsSpace r).
    + destruct cur as [w|]; [constructor; [by apply Hcur|] |]; by apply IH.
    + destruct cur as [w|]; apply IH; intros w' [= <-]; [|done].
      apply append_not_empty. by apply Hcur.
Qed.

(** No token of [strings.Fields] is empty. *)
Lemma Fields_not_empty (s : string) :
  Forall (λ token, token ≠ EmptyString) (Fields s).
Proof. apply fields_of_not_empty; [apply range_from_bytes | done]. Qed.

Lemma lookup_alter_inv {A : Type} (f : A → A) (l : list A) (i j : nat) (y : A) :
  alter f i l !! j = Some y →
  (i = j ∧ ∃ x, l !! j = Some x ∧ y = f x) ∨ (i ≠ j ∧ l !! j = Some y).
Proof.
  rewrite list_lookup_alter. case_decide as Hij; [|by right].
  subst j. destruct (l !! i) as [x|] eqn:E; [|done].
  intros [= <-]. left. eauto.
Qed.

Section AnalyzerFacts.
Context `{UnicodeText}.

(** ** The shape of one iteration *)

Lemma analyzeFrom_Ok (b b' : builder) (inst : parsedInstruction) :
  aligned b →
  analyzeFrom b inst = Ok b' →
  ∃ base alias,
    parseFrom (Args inst) = (base, alias) ∧ base ≠ EmptyString
    ∧ Stages (rep b') =
        Stages (rep b) ++
        [ {| Stage := {| Index := len (Stages (rep b)); Name := alias; Base := base |};
             Layers := [withNumber 1 (fromLayer inst base alias)];
             FsLayers := 0; MetadataLayers := 0; BuildArgs := 0 |} ]
    ∧ Global (rep b') = Global (rep b)
    ∧ FilePath (rep b') = FilePath (rep b)
    ∧ stageIndex b' = stageIndex b + 1
    ∧ stageAliases b' = registerStage alias (stageIndex b + 1) (stageAliases b).
Proof.
  intros Hal. unfold analyzeFrom.
  destruct (parseFrom (Args inst)) as [base alias] eqn:Epf.
  destruct (String.eqb_spec base EmptyString) as [->|Hbase]; [done|].
  intros [= <-]. exists base, alias. cbn [rep stageIndex stageAliases].
  replace (stageIndex b + 1) with (len (Stages (rep b))) by (rewrite Hal; lia).
  repeat split; try done.
  unfold updateStage. cbn [Stages withStages].
  rewrite ensureStage_next, to_nat_len, !alter_last. reflexivity.
Qed.

Lemma analyzeInStage_Ok (b : builder) (inst : parsedInstruction) :
  aligned b →
  ∃ b',
    analyzeInStage b inst = Ok b'
    ∧ Stages (rep b') =
        alter (λ stage, appendLayer (stageLayer inst (stageAliases b))
                          (countLayer (stageLayer inst (stageAliases b)) stage))
              (Z.to_nat (stageIndex b)) (Stages (rep b))
    ∧ Global (rep b') = Global (rep b)
    ∧ FilePath (rep b') = FilePath (rep b)
    ∧ stageIndex b' = stageIndex b
    ∧ stageAliases b' = stageAliases b.
Proof.
  intros Hal. eexists. split; [reflexivity|].
  cbn [rep stageIndex stageAliases].
  rewrite ensureStage_present by (rewrite Hal; lia).
  repeat split. unfold updateStage. cbn [Stages withStages].
  by rewrite list_alter_alter_eq.
Qed.

Lemma analyzeGlobal_Ok (b b' : builder) (inst : parsedInstruction) :
  analyzeGlobal b inst = Ok b' →
  Keyword inst = "ARG"
  ∧ Global (rep b') =
      Global (rep b) ++
      [withNumber (len (Global (rep b)) + 1) (globalLayer inst)]
  ∧ Stages (rep b') = Stages (rep b)
  ∧ FilePath (rep b') = FilePath (rep b)
  ∧ stageIndex b' = stageIndex b
  ∧ stageAliases b' = stageAliases b.
Proof.
  unfold analyzeGlobal.
  destruct (String.eqb_spec (Keyword inst) "ARG") as [E|]; [|done].
  intros [= <-]. simpl. by rewrite E.
Qed.

(** ** The invariant of the loop of [analyzeDockerfile] *)

Lemma counted_snoc (effect : string) (layers : list layerReport) (l : layerReport) :
  counted effect (layers ++ [l]) =
  counted effect layers + (if decide (Effect l = effect) then 1 else 0).
Proof.
  unfold counted, len. rewrite filter_app, length_app, filter_cons, filter_nil.
  case_decide; simpl; lia.
Qed.

Lemma wf_newBuilder (fullPath : string) : wf (newBuilder fullPath).
Proof. split; [done | by intros i st [=] | by constructor]. Qed.

Lemma fromLayer_Effect (inst : parsedInstruction) (base alias : string) :
  Effect (fromLayer inst base alias) = descEffect (descriptorFor (Keyword inst)).
Proof. unfold fromLayer. by destruct (negb _). Qed.

Lemma fromLayer_Instruction (inst : parsedInstruction) (base alias : string) :
  Instruction (fromLayer inst base alias) = inst.
Proof. unfold fromLayer. by destruct (negb _). Qed.

(** A stage as FROM leaves it. *)
Lemma stage_ok_from (i : nat) (inst : parsedInstruction) (base alias : string) :
  Keyword inst = "FROM" →
  stage_ok i
    {| Stage := {| Index := Z.of_nat i; Name := alias; Base := base |};
       Layers := [withNumber 1 (fromLayer inst base alias)];
       FsLayers := 0; MetadataLayers := 0; BuildArgs := 0 |}.
Proof.
  intros Hk.
  assert (Effect (withNumber 1 (fromLayer inst base alias)) = effectStageStart) as HE.
  { cbn [withNumber Effect]. rewrite fromLayer_Effect, Hk. apply descriptorFor_FROM. }
  split; cbn [Stage Index Layers FsLayers MetadataLayers BuildArgs]; try done.
  - eexists _, []. repeat split; try done.
    cbn [withNumber Instruction]. by rewrite fromLayer_Instruction.
  - intros [|k] l; [by intros [= <-] | done].
  - unfold counted. rewrite filter_cons, HE. by case_decide.
  - unfold counted. rewrite filter_cons, HE. by case_decide.
  - unfold counted. rewrite filter_cons, HE. by case_decide.
Qed.

(** Appending a counted layer keeps a stage in order. *)
Lemma stage_ok_append (i : nat) (st : stageReport) (layer : layerReport) :
  stage_ok i st →
  Effect layer = effectFilesystem ∨ Effect layer = effectMetadata
  ∨ Effect layer = effectBuildArg →
  stage_ok i (appendLayer layer (countLayer layer st)).
Proof.
  intros [Hi (l0 & rest & HL & Hn & He & Hk & Hrest) Hnum Hfs Hmd Hba Htot] HE.
  assert (Layers (countLayer layer st) = Layers st) as HLc.
  { unfold countLayer. by repeat case_match. }
  assert (Stage (countLayer layer st) = Stage st) as HSc.
  { unfold countLayer. by repeat case_match. }
  assert (Effect (withNumber (len (Layers st) + 1) layer) = Effect layer) as HEn by done.
  split; unfold appendLayer;
    cbn [withLayers Stage Layers FsLayers MetadataLayers BuildArgs];
    rewrite ?HLc, ?HSc; try done.
  - exists l0, (rest ++ [withNumber (len (Layers st) + 1) layer]).
    rewrite HL. repeat split; try done.
    apply Forall_app. split; [done|]. constructor; [|done].
    cbn [withNumber Effect]. by destruct HE as [-> | [-> | ->]].
  - intros k l Hl. apply lookup_app_Some in Hl as [Hl | [Hge Hl]]; [by apply Hnum|].
    destruct (k - length (Layers st))%nat as [|k'] eqn:Ek; [|done].
    injection Hl as <-. cbn [withNumber Number]. unfold len. lia.
  - rewrite counted_snoc, HEn.
    unfold countLayer.
    destruct HE as [HE | [HE | HE]]; rewrite HE; cbn; case_decide; try done; lia.
  - rewrite counted_snoc, HEn.
    unfold countLayer.
    destruct HE as [HE | [HE | HE]]; rewrite HE; cbn; case_decide; try done; lia.
  - rewrite counted_snoc, HEn.
    unfold countLayer.
    destruct HE as [HE | [HE | HE]]; rewrite HE; cbn; case_decide; try done; lia.
  - unfold len. rewrite length_app. cbn [length]. unfold len in Htot.
    unfold countLayer.
    destruct HE as [HE | [HE | HE]]; rewrite HE; cbn; lia.
Qed.

Lemma stageLayer_Effect (inst : parsedInstruction) (aliases : gmap string Z) :
  Effect (stageLayer inst aliases) = descEffect (descriptorFor (Keyword inst)).
Proof. reflexivity. Qed.

(** One iteration keeps the invariant. *)
Lemma analyzeInstruction_wf (b b' : builder) (inst : parsedInstruction) :
  wf b → analyzeInstruction b inst = Ok b' → wf b'.
Proof.
  intros [Hal Hst Hgl]. unfold analyzeInstruction.
  destruct (String.eqb_spec (Keyword inst) EmptyString) as [|Hne];
    [by intros [= <-]|].
  destruct (String.eqb_spec (Keyword inst) "FROM") as [Hfrom|Hnf].
  - intros Hok.
    apply analyzeFrom_Ok in Hok
      as (base & alias & _ & _ & HS & HG & _ & HI & _); [|done].
    split.
    + unfold aligned. rewrite HI, HS, Hal. unfold len. rewrite length_app. simpl. lia.
    + intros i st. rewrite HS. intros Hl.
      apply lookup_app_Some in Hl as [Hl | [Hge Hl]]; [by apply Hst|].
      destruct (i - length (Stages (rep b)))%nat as [|k] eqn:Ek; [|done].
      injection Hl as <-.
      replace i with (length (Stages (rep b))) by lia.
      by apply stage_ok_from.
    + by rewrite HG.
  - destruct (Z.eqb_spec (stageIndex b) (-1)) as [Hm1|Hin].
    + intros Hok. apply analyzeGlobal_Ok in Hok as (Harg & HG & HS & _ & HI & _).
      split.
      * unfold aligned. by rewrite HI, HS.
      * by rewrite HS.
      * rewrite HG. apply Forall_app. split; [done|]. constructor; [|done].
        split; [apply descriptorFor_ARG | done].
    + destruct (analyzeInStage_Ok b inst Hal) as (b1 & -> & HS & HG & _ & HI & _).
      intros [= <-]. split.
      * unfold aligned, len. rewrite HI, HS, length_alter. exact Hal.
      * intros i st. rewrite HS. intros Hl.
        apply lookup_alter_inv in Hl
          as [[Hi (st0 & Hl & ->)] | [Hi Hl]]; [|by apply Hst].
        apply stage_ok_append; [by apply Hst|].
        rewrite stageLayer_Effect. by apply descriptorFor_counted.
      * by rewrite HG.
Qed.

Lemma analyzeInstructions_wf (insts : list parsedInstruction) (b b' : builder) :
  wf b → analyzeInstructions insts b = Ok b' → wf b'.
Proof.
  revert b. induction insts as [|inst rest IH]; intros b Hwf; simpl.
  - by intros [= <-].
  - destruct (analyzeInstruction b inst) as [b1|] eqn:E; [|done].
    apply IH. by eapply analyzeInstruction_wf.
Qed.

(** The cases of one successful iteration. *)
Lemma analyzeInstruction_cases (b b' : builder) (inst : parsedInstruction) :
  analyzeInstruction b inst = Ok b' →
  (Keyword inst = EmptyString ∧ b' = b)
  ∨ (Keyword inst = "FROM" ∧ analyzeFrom b inst = Ok b')
  ∨ (Keyword inst = "ARG" ∧ stageIndex b = -1 ∧ analyzeGlobal b inst = Ok b')
  ∨ (Keyword inst ≠ EmptyString ∧ Keyword inst ≠ "FROM" ∧ stageIndex b ≠ -1
     ∧ analyzeInStage b inst = Ok b').
Proof.
  unfold analyzeInstruction.
  destruct (String.eqb_spec (Keyword inst) EmptyString) as [|Hne];
    [intros [= <-]; by left|].
  destruct (String.eqb_spec (Keyword inst) "FROM") as [Hfrom|Hnf];
    [intros; right; left; by split|].
  destruct (Z.eqb_spec (stageIndex b) (-1)) as [Hm1|Hin]; intros Hok.
  - right. right. left. by destruct (analyzeGlobal_Ok _ _ _ Hok) as [? _].
  - do 3 right. by repeat split.
Qed.

(** What a successful run of [analyzeDockerfile] went through. *)
Lemma analyzeDockerfile_builder_Ok (abs : result string) (file : result scan)
    (b : builder) :
  analyzeDockerfile_builder abs file = Ok b →
  ∃ fullPath raws insts,
    abs = Ok fullPath
    ∧ readInstructions file = Ok raws ∧ parseInstructions raws = Ok insts
    ∧ analyzeInstructions insts (newBuilder fullPath) = Ok b.
Proof.
  unfold analyzeDockerfile_builder.
  destruct abs as [fullPath|]; [|done].
  destruct (readInstructions file) as [raws|]; [|done].
  destruct (len raws =? 0); [done|].
  destruct (parseInstructions raws) as [insts|] eqn:Hp; [|done].
  intros Hb. exists fullPath, raws, insts. by repeat split.
Qed.

Lemma analyzeDockerfile_Ok (abs : result string) (file : result scan) (r : report) :
  analyzeDockerfile abs file = Ok r →
  ∃ b, analyzeDockerfile_builder abs file = Ok b ∧ r = rep b.
Proof.
  unfold analyzeDockerfile.
  destruct (analyzeDockerfile_builder abs file) as [b|]; [|done].
  intros [= <-]. by exists b.
Qed.

Lemma analyzeDockerfile_wf (abs : result string) (file : result scan) (r : report) :
  analyzeDockerfile abs file = Ok r → ∃ b, wf b ∧ r = rep b.
Proof.
  intros (b & Hb & ->)%analyzeDockerfile_Ok. exists b. split; [|done].
  apply analyzeDockerfile_builder_Ok in Hb
    as (fullPath & raws & insts & _ & _ & _ & Hrun).
  eapply analyzeInstructions_wf; [apply wf_newBuilder | exact Hrun].
Qed.

(** The stage list grows by one per FROM. *)
Lemma analyzeInstructions_stages (insts : list parsedInstruction) (b b' : builder) :
  wf b → analyzeInstructions insts b = Ok b' →
  len (Stages (rep b')) =
  len (Stages (rep b)) + len (filter (λ inst, Keyword inst = "FROM") insts).
Proof.
  revert b. induction insts as [|inst rest IH]; intros b Hwf; simpl.
  - intros [= <-]. unfold len. simpl. lia.
  - destruct (analyzeInstruction b inst) as [b1|] eqn:E; [|done].
    intros Hrun. rewrite (IH b1); [|by eapply analyzeInstruction_wf|done].
    rewrite filter_cons.
    destruct (analyzeInstruction_cases _ _ _ E)
      as [[Hk ->] | [[Hk Hf] | [(Hk & _ & Hg) | (_ & Hk & _ & Hs)]]].
    + rewrite decide_False by (by rewrite Hk). lia.
    + rewrite decide_True by done.
      apply analyzeFrom_Ok in Hf as (? & ? & _ & _ & -> & _); [|by destruct Hwf].
      unfold len. rewrite length_app. simpl. lia.
    + rewrite decide_False by (by rewrite Hk).
      apply analyzeGlobal_Ok in Hg as (_ & _ & -> & _). lia.
    + rewrite decide_False by done.
      destruct (analyzeInStage_Ok b inst (wf_aligned _ Hwf)) as (b2 & E2 & HS & _).
      rewrite E2 in Hs. injection Hs as <-.
      unfold len. rewrite HS, length_alter. lia.
Qed.

(** ** The claims on the report of a successful analysis *)

(** C1. For every stage of the report of a successful analysis, each of
    [fsLayers], [metadataLayers] and [buildArgs] is the number of the
    stage's layers whose effect is Filesystem, Metadata and BuildArg
    respectively, and the stage has [fsLayers + metadataLayers + buildArgs
    + 1] layers; the one layer outside the three buckets is the stage's
    own FROM layer, its first, whose effect is StageStart. *)
Theorem counts_round_trip (abs : result string) (file : result scan) (r : report)
    (i : nat) (st : stageReport) :
  analyzeDockerfile abs file = Ok r →
  Stages r !! i = Some st →
  FsLayers st = counted effectFilesystem (Layers st)
  ∧ MetadataLayers st = counted effectMetadata (Layers st)
  ∧ BuildArgs st = counted effectBuildArg (Layers st)
  ∧ len (Layers st) = FsLayers st + MetadataLayers st + BuildArgs st + 1
  ∧ counted effectStageStart (Layers st) = 1
  ∧ ∃ l0, head (Layers st) = Some l0 ∧ Keyword (Instruction l0) = "FROM"
          ∧ Effect l0 = effectStageStart.
Proof.
  intros (b & Hwf & ->)%analyzeDockerfile_wf Hst.
  destruct (wf_stages _ Hwf _ _ Hst)
    as [_ (l0 & rest & HL & _ & He & Hk & Hrest) _ Hfs Hmd Hba Htot].
  repeat split; try done.
  - rewrite HL. unfold counted. rewrite filter_cons, decide_True by done.
    replace (filter _ rest) with (@nil layerReport); [done|].
    symmetry. clear HL. induction Hrest as [|l ls Hl _ IH]; [done|].
    by rewrite filter_cons, decide_False.
  - exists l0. by rewrite HL.
Qed.

(** C2. For every Dockerfile text whose analysis succeeds, the report has
    as many stages as the instruction stream has FROM instructions, and
    the stage in slot [i] has index [i]. *)
Theorem stages_follow_FROMs (abs : result string) (file : result scan)
    (raws : list rawInstruction) (insts : list parsedInstruction) (r : report) :
  readInstructions file = Ok raws →
  parseInstructions raws = Ok insts →
  analyzeDockerfile abs file = Ok r →
  len (Stages r) = len (filter (λ inst, Keyword inst = "FROM") insts)
  ∧ ∀ i st, Stages r !! i = Some st → Index (Stage st) = Z.of_nat i.
Proof.
  intros Hread Hparse (b & Hb & ->)%analyzeDockerfile_Ok.
  apply analyzeDockerfile_builder_Ok in Hb
    as (fullPath & raws' & insts' & _ & Hr' & Hp' & Hrun).
  rewrite Hread in Hr'. injection Hr' as <-.
  rewrite Hparse in Hp'. injection Hp' as <-.
  split.
  - by rewrite (analyzeInstructions_stages _ _ _ (wf_newBuilder fullPath) Hrun).
  - intros i st Hst.
    apply (ok_index i st).
    eapply wf_stages; [|exact Hst].
    eapply analyzeInstructions_wf; [apply wf_newBuilder | exact Hrun].
Qed.

(** C10. In the report of a successful analysis every stage has a first
    layer, numbered 1, of keyword FROM and effect StageStart; no other
    layer of the stage and no layer of [report.global] has effect
    StageStart. *)
Theorem stage_start_is_first_layer (abs : result string) (file : result scan)
    (r : report) :
  analyzeDockerfile abs file = Ok r →
  (∀ i st, Stages r !! i = Some st →
     ∃ l0 rest,
       Layers st = l0 :: rest ∧ Number l0 = 1 ∧ Effect l0 = effectStageStart
       ∧ Keyword (Instruction l0) = "FROM"
       ∧ Forall (λ l, Effect l ≠ effectStageStart) rest)
  ∧ Forall (λ l, Effect l ≠ effectStageStart) (Global r).
Proof.
  intros (b & Hwf & ->)%analyzeDockerfile_wf. split.
  - intros i st Hst. exact (ok_first i st (wf_stages _ Hwf _ _ Hst)).
  - eapply Forall_impl; [exact (wf_global _ Hwf)|].
    intros l [-> _]. done.
Qed.

(** ** Unknown keywords *)

(** C9. For every keyword that is not in the descriptor table,
    [descriptorFor] returns the fallback descriptor, of effect Metadata
    with the generic explanation and cache hint, and processing an
    instruction of that keyword inside a stage does not produce an
    error. *)
Theorem unknown_keyword_is_metadata (keyword : string) :
  instructionDescriptors !! keyword = None →
  descriptorFor keyword =
    {| descEffect := effectMetadata;
       descExplanation := "Recorded as metadata. It influences how containers start but does not add filesystem content.";
       descCacheHint := "Cache key ties to the literal instruction, so changing text invalidates the layer." |}
  ∧ ∀ (b : builder) (inst : parsedInstruction),
      Keyword inst = keyword → stageIndex b ≠ -1 →
      ∃ b', analyzeInstruction b inst = Ok b'.
Proof.
  intros Hnone. split.
  - unfold descriptorFor. by rewrite Hnone.
  - intros b inst Hk Hin. unfold analyzeInstruction.
    destruct (String.eqb (Keyword inst) EmptyString); [by eexists|].
    destruct (String.eqb_spec (Keyword inst) "FROM") as [Hfrom|_].
    { rewrite <- Hk, Hfrom in Hnone. by vm_compute in Hnone. }
    destruct (Z.eqb_spec (stageIndex b) (-1)); [done|].
    by eexists.
Qed.

(** ** Instructions before the first FROM *)

Lemma analyzeInstructions_app (l1 l2 : list parsedInstruction) (b : builder) :
  analyzeInstructions (l1 ++ l2) b =
  match analyzeInstructions l1 b with
  | Ok b1 => analyzeInstructions l2 b1
  | Err e => Err e
  end.
Proof.
  revert b. induction l1 as [|inst l1 IH]; intros b; simpl; [done|].
  by destruct (analyzeInstruction b inst).
Qed.

(** Before the first FROM a run succeeds only on ARG (and blank)
    instructions, and leaves their layers in [rep.Global], in order. *)
Lemma analyzeInstructions_before_FROM (pre : list parsedInstruction) (b b' : builder) :
  stageIndex b = -1 →
  Forall (λ inst, Keyword inst ≠ "FROM") pre →
  analyzeInstructions pre b = Ok b' →
  stageIndex b' = -1
  ∧ Stages (rep b') = Stages (rep b)
  ∧ map Instruction (Global (rep b')) =
      map Instruction (Global (rep b)) ++ filter (λ inst, Keyword inst = "ARG") pre
  ∧ Forall (λ inst, Keyword inst = "ARG" ∨ Keyword inst = EmptyString) pre.
Proof.
  intros Hm1 Hpre. revert b Hm1.
  induction Hpre as [|inst pre Hnf _ IH]; intros b Hm1; simpl.
  - intros [= <-]. by rewrite app_nil_r.
  - destruct (analyzeInstruction b inst) as [b1|] eqn:E; [|done]. intros Hrun.
    destruct (analyzeInstruction_cases _ _ _ E)
      as [[Hk ->] | [[Hk _] | [(Hk & _ & Hg) | (_ & _ & Hin & _)]]]; try done.
    + destruct (IH _ Hm1 Hrun) as (HI & HS & HG & HF).
      rewrite filter_cons, decide_False by (by rewrite Hk).
      repeat split; try done. constructor; [by right | done].
    + apply analyzeGlobal_Ok in Hg as (_ & HG1 & HS1 & _ & HI1 & _).
      destruct (IH b1) as (HI & HS & HG & HF); [by rewrite HI1 | done |].
      rewrite filter_cons, decide_True by done.
      repeat split; try done.
      * by rewrite HS.
      * rewrite HG, HG1, map_app. simpl. by rewrite <- app_assoc.
      * constructor; [by left | done].
Qed.

(** Once inside a stage, [rep.Global] is not touched any more. *)
Lemma analyzeInstructions_in_stage (insts : list parsedInstruction) (b b' : builder) :
  aligned b → 0 ≤ stageIndex b →
  analyzeInstructions insts b = Ok b' →
  Global (rep b') = Global (rep b).
Proof.
  revert b. induction insts as [|inst rest IH]; intros b Hal Hge; simpl.
  - by intros [= <-].
  - destruct (analyzeInstruction b inst) as [b1|] eqn:E; [|done]. intros Hrun.
    destruct (analyzeInstruction_cases _ _ _ E)
      as [[Hk ->] | [[Hk Hf] | [(Hk & Hm1 & _) | (_ & _ & Hin & Hs)]]].
    + by apply IH.
    + apply analyzeFrom_Ok in Hf as (? & ? & _ & _ & HS & HG & _ & HI & _); [|done].
      rewrite <- HG. apply IH; [|lia|done].
      unfold aligned, len. rewrite HI, HS, Hal, length_app. unfold len. simpl. lia.
    + lia.
    + destruct (analyzeInStage_Ok b inst Hal) as (b2 & E2 & HS & HG & _ & HI & _).
      rewrite E2 in Hs. injection Hs as <-.
      rewrite <- HG. apply IH; [|lia|done].
      unfold aligned, len. rewrite HI, HS, length_alter. exact Hal.
Qed.

Lemma globalLayers_BuildArg (b : builder) :
  wf b → Forall (λ l, Effect l = effectBuildArg) (Global (rep b)).
Proof.
  intros Hwf. eapply Forall_impl; [exact (wf_global _ Hwf)|]. by intros l [? _].
Qed.

(** C4. Let [pre] be the instructions strictly before the first FROM of
    an instruction stream (all of it when there is no FROM).  If the
    analysis succeeds, [report.global] holds the ARG instructions of
    [pre], in their original order, each with effect BuildArg.  If [pre]
    holds an instruction whose keyword is neither ARG nor FROM (an
    instruction with no keyword at all is a blank one, which the loop
    skips), the analysis fails, with no report, on the first of them:
    the error is "line <its line>: Dockerfile must start with FROM (found
    <its keyword>)". *)
Theorem only_ARG_before_first_FROM (fullPath : string)
    (pre rest : list parsedInstruction) :
  Forall (λ inst, Keyword inst ≠ "FROM") pre →
  (rest = [] ∨ ∃ from rest', rest = from :: rest' ∧ Keyword from = "FROM") →
  (∀ b, analyzeInstructions (pre ++ rest) (newBuilder fullPath) = Ok b →
     map Instruction (Global (rep b)) = filter (λ inst, Keyword inst = "ARG") pre
     ∧ Forall (λ l, Effect l = effectBuildArg) (Global (rep b)))
  ∧ (∀ before inst after,
       pre = before ++ inst :: after →
       Forall (λ i, Keyword i = "ARG" ∨ Keyword i = EmptyString) before →
       Keyword inst ≠ "ARG" → Keyword inst ≠ EmptyString →
       analyzeInstructions (pre ++ rest) (newBuilder fullPath) =
       Err ("line " +:+ pretty (Line inst)
            +:+ ": Dockerfile must start with FROM (found " +:+ Keyword inst +:+ ")")).
Proof.
  intros Hpre Hrest. split.
  - intros b. rewrite analyzeInstructions_app.
    destruct (analyzeInstructions pre (newBuilder fullPath)) as [b1|] eqn:E1; [|done].
    intros Hrun.
    assert (wf b1) as Hwf1 by (eapply analyzeInstructions_wf; [apply wf_newBuilder|done]).
    assert (wf b) as Hwf by (by eapply analyzeInstructions_wf).
    split; [|by apply globalLayers_BuildArg].
    destruct (analyzeInstructions_before_FROM pre (newBuilder fullPath) b1
                eq_refl Hpre E1) as (HI1 & HS1 & HG1 & _).
    destruct Hrest as [-> | (from & rest' & -> & Hfrom)].
    + simpl in Hrun. injection Hrun as <-. exact HG1.
    + simpl in Hrun.
      destruct (analyzeInstruction b1 from) as [b2|] eqn:E2; [|done].
      destruct (analyzeInstruction_cases _ _ _ E2)
        as [[Hk _] | [[_ Hf] | [(Hk & _) | (_ & Hk & _)]]];
        try (by rewrite Hfrom in Hk).
      apply analyzeFrom_Ok in Hf as (? & ? & _ & _ & HS & HG & _ & HI & _);
        [|by destruct Hwf1].
      rewrite (analyzeInstructions_in_stage _ _ _ (wf_aligned _
                 (analyzeInstruction_wf _ _ _ Hwf1 E2)) ltac:(lia) Hrun).
      by rewrite HG.
  - intros before inst after -> Hbefore Hna Hne.
    rewrite <- !app_assoc, analyzeInstructions_app.
    assert (∀ b, stageIndex b = -1 →
              ∃ b1, analyzeInstructions before b = Ok b1 ∧ stageIndex b1 = -1)
      as Hrun.
    { clear Hpre. induction Hbefore as [|i before Hi _ IH]; intros b Hm1; simpl.
      - by exists b.
      - unfold analyzeInstruction.
        destruct Hi as [Hi | Hi]; rewrite Hi; simpl.
        + rewrite Hm1. simpl. unfold analyzeGlobal. rewrite Hi. simpl. by apply IH.
        + by apply IH. }
    destruct (Hrun (newBuilder fullPath) eq_refl) as (b1 & -> & Hm1).
    apply Forall_app in Hpre as [_ Hpre]. apply Forall_cons in Hpre as [Hnf _].
    simpl. unfold analyzeInstruction.
    rewrite (proj2 (String.eqb_neq _ _) Hne), (proj2 (String.eqb_neq _ _) Hnf), Hm1.
    simpl. unfold analyzeGlobal. by rewrite (proj2 (String.eqb_neq _ _) Hna).
Qed.

(** ** The alias table *)

Lemma registerStage_lookup (alias key : string) (n : nat) (aliases : gmap string Z) :
  registerStage alias (Z.of_nat n) aliases !! key =
  if decide (registers n alias key) then Some (Z.of_nat n) else aliases !! key.
Proof.
  unfold registerStage, registers.
  destruct (decide (pretty (Z.of_nat n) = key)) as [->|Hp].
  - rewrite lookup_insert_eq. by rewrite decide_True by (by right).
  - rewrite lookup_insert_ne by done.
    destruct (String.eqb_spec alias EmptyString) as [->|Ha]; simpl.
    + by rewrite decide_False by (by intros [[? _]|?]).
    + destruct (decide (ToLower alias = key)) as [->|Hl].
      * rewrite lookup_insert_eq. by rewrite decide_True by (by left).
      * rewrite lookup_insert_ne by done.
        by rewrite decide_False by (by intros [[_ ?]|?]).
Qed.

Lemma aliases_ok_register (names : list string) (aliases : gmap string Z)
    (alias : string) :
  (∀ key,
     match aliases !! key with
     | Some idx => ∃ j, idx = Z.of_nat j ∧ last_registered names key j
     | None => ∀ j name, names !! j = Some name → ¬ registers j name key
     end) →
  ∀ key,
    match registerStage alias (Z.of_nat (length names)) aliases !! key with
    | Some idx => ∃ j, idx = Z.of_nat j ∧ last_registered (names ++ [alias]) key j
    | None => ∀ j name, (names ++ [alias]) !! j = Some name → ¬ registers j name key
    end.
Proof.
  intros Hok key. rewrite registerStage_lookup. specialize (Hok key).
  assert (∀ j name, (names ++ [alias]) !! j = Some name →
            names !! j = Some name ∨ (j = length names ∧ name = alias)) as Hsnoc.
  { intros j name [Hl | [Hge Hl]]%lookup_app_Some; [by left|]. right.
    destruct (j - length names)%nat as [|k] eqn:Ek; [|done].
    injection Hl as <-. split; [lia | done]. }
  case_decide as Hreg.
  - exists (length names). split; [done|]. split.
    + exists alias. split; [|done]. by rewrite lookup_app_r, Nat.sub_diag.
    + intros j' name' Hlt Hl. apply lookup_lt_Some in Hl.
      rewrite length_app in Hl. simpl in Hl. lia.
  - destruct (aliases !! key) as [idx|].
    + destruct Hok as (j & -> & (name & Hj & Hr) & Hlast).
      exists j. split; [done|]. split.
      * exists name. split; [|done]. by apply lookup_app_l_Some.
      * intros j' name' Hlt [Hl | [-> ->]]%Hsnoc; [by eapply Hlast | done].
    + intros j name [Hl | [-> ->]]%Hsnoc; [by eapply Hok | done].
Qed.

Lemma stageNames_alter (f : stageReport → stageReport) (i : nat)
    (stages : list stageReport) :
  (∀ st, Stage (f st) = Stage st) →
  map (λ st, Name (Stage st)) (alter f i stages) =
  map (λ st, Name (Stage st)) stages.
Proof.
  intros Hf. revert i. induction stages as [|st stages IH]; intros [|i]; simpl;
    try done.
  - by rewrite Hf.
  - f_equal. apply IH.
Qed.

Lemma countLayer_Stage (layer : layerReport) (st : stageReport) :
  Stage (countLayer layer st) = Stage st.
Proof. unfold countLayer. by repeat case_match. Qed.

Lemma analyzeInstruction_aliases_ok (b b' : builder) (inst : parsedInstruction) :
  aligned b → aliases_ok b → analyzeInstruction b inst = Ok b' → aliases_ok b'.
Proof.
  intros Hal Hok E.
  destruct (analyzeInstruction_cases _ _ _ E)
    as [[Hk ->] | [[Hk Hf] | [(Hk & _ & Hg) | (_ & _ & Hin & Hs)]]]; [done|..].
  - apply analyzeFrom_Ok in Hf as (base & alias & _ & _ & HS & _ & _ & _ & HA);
      [|done].
    unfold aliases_ok, stageNames. rewrite HA, HS, map_app. simpl.
    replace (stageIndex b + 1) with (Z.of_nat (length (stageNames (rep b)))).
    + by apply aliases_ok_register.
    + unfold stageNames. rewrite length_map, Hal. unfold len. lia.
  - apply analyzeGlobal_Ok in Hg as (_ & _ & HS & _ & _ & HA).
    unfold aliases_ok, stageNames. by rewrite HA, HS.
  - destruct (analyzeInStage_Ok b inst Hal) as (b2 & E2 & HS & _ & _ & _ & HA).
    rewrite E2 in Hs. injection Hs as <-.
    unfold aliases_ok, stageNames. rewrite HA, HS, stageNames_alter; [done|].
    intros st. unfold appendLayer. cbn [withLayers Stage]. apply countLayer_Stage.
Qed.

Lemma analyzeInstructions_aliases_ok (insts : list parsedInstruction) (b b' : builder) :
  wf b → aliases_ok b → analyzeInstructions insts b = Ok b' → aliases_ok b'.
Proof.
  revert b. induction insts as [|inst rest IH]; intros b Hwf Hok; simpl.
  - by intros [= <-].
  - destruct (analyzeInstruction b inst) as [b1|] eqn:E; [|done].
    apply IH; [by eapply analyzeInstruction_wf|].
    eapply analyzeInstruction_aliases_ok; [by destruct Hwf | done | done].
Qed.

(** C3, as the code has it.  After a successful analysis, for every
    stage whose FROM declared an alias, looking that alias up (lowercased)
    in the alias table yields the index of the last stage that wrote that
    key, be it as its lowercased alias or as its stringified index: a
    later FROM that declares the same alias overwrites the entry of the
    earlier stage. *)
Theorem alias_table_last_wins (abs : result string) (file : result scan)
    (b : builder) (i : nat) (st : stageReport) :
  analyzeDockerfile_builder abs file = Ok b →
  Stages (rep b) !! i = Some st →
  Name (Stage st) ≠ EmptyString →
  ∃ j, stageAliases b !! ToLower (Name (Stage st)) = Some (Z.of_nat j)
       ∧ (i ≤ j)%nat
       ∧ last_registered (stageNames (rep b)) (ToLower (Name (Stage st))) j.
Proof.
  intros (fullPath & raws & insts & _ & _ & _ & Hrun)%analyzeDockerfile_builder_Ok
    Hst Hname.
  assert (aliases_ok b) as Hok.
  { eapply analyzeInstructions_aliases_ok; [apply wf_newBuilder | | exact Hrun].
    intros key. simpl. rewrite lookup_empty. by intros [|j] name. }
  assert (stageNames (rep b) !! i = Some (Name (Stage st))) as Hi.
  { unfold stageNames. by rewrite list_lookup_fmap, Hst. }
  assert (registers i (Name (Stage st)) (ToLower (Name (Stage st)))) as Hreg
    by (by left).
  specialize (Hok (ToLower (Name (Stage st)))).
  destruct (stageAliases b !! ToLower (Name (Stage st))) as [idx|].
  - destruct Hok as (j & -> & Hlast). exists j. repeat split; try done; try apply Hlast.
    destruct (decide (i ≤ j)%nat) as [|Hgt]; [done|].
    destruct Hlast as [_ Hlast]. exfalso. eapply (Hlast i); [lia | done | done].
  - exfalso. by eapply Hok.
Qed.

(** ** FROM: base image and alias *)

Lemma skipFlags_app (flags rest : list string) :
  Forall (λ token, HasPrefix token "--" = true) flags →
  skipFlags (flags ++ rest) = skipFlags rest.
Proof.
  induction 1 as [|token flags Hf _ IH]; [done|].
  cbn [app skipFlags]. by rewrite Hf.
Qed.

Lemma skipFlags_all (tokens : list string) :
  Forall (λ token, HasPrefix token "--" = true) tokens → skipFlags tokens = [].
Proof.
  intros Hall. rewrite <- (app_nil_r tokens). by rewrite skipFlags_app.
Qed.

Lemma parseFrom_no_base (args : string) :
  Forall (λ token, HasPrefix token "--" = true) (Fields args) →
  parseFrom args = (EmptyString, EmptyString).
Proof.
  intros Hall. unfold parseFrom. rewrite skipFlags_all by done.
  by destruct (len (Fields args) =? 0).
Qed.

Lemma parseFrom_base (args : string) (flags : list string) (base : string)
    (rest : list string) :
  Fields args = flags ++ base :: rest →
  Forall (λ token, HasPrefix token "--" = true) flags →
  HasPrefix base "--" = false →
  parseFrom args =
  (base, match rest with
         | t :: alias :: _ => if EqualFold t "AS" then alias else EmptyString
         | _ => EmptyString
         end).
Proof.
  intros HF Hflags Hbase. unfold parseFrom. rewrite HF, skipFlags_app by done.
  cbn [skipFlags]. rewrite Hbase.
  destruct (Z.eqb_spec (len (flags ++ base :: rest)) 0) as [Hz|_].
  { unfold len in Hz. rewrite length_app in Hz. simpl in Hz. lia. }
  destruct rest as [|t [|alias rest']]; try done.
  by destruct (EqualFold t "AS").
Qed.

(** C8. For every FROM instruction the loop processes: if its arguments
    have a first whitespace-separated token [base] that does not start
    with two dashes, the stage is created with that token as its base
    image, and its alias is the token after the next one when the next
    one is AS in any case (it is empty otherwise); if there is no such
    token (no arguments, or flags only), the analysis fails with "line
    <line>: FROM instruction missing base image". *)
Theorem FROM_base_and_alias (b : builder) (inst : parsedInstruction) :
  aligned b →
  Keyword inst = "FROM" →
  (∀ flags base rest,
     Fields (Args inst) = flags ++ base :: rest →
     Forall (λ token, HasPrefix token "--" = true) flags →
     HasPrefix base "--" = false →
     ∃ b' st,
       analyzeInstruction b inst = Ok b'
       ∧ last (Stages (rep b')) = Some st
       ∧ Base (Stage st) = base
       ∧ (∀ t alias rest', rest = t :: alias :: rest' → EqualFold t "AS" = true →
            Name (Stage st) = alias)
       ∧ ((∀ t alias rest', rest = t :: alias :: rest' → EqualFold t "AS" = false) →
            Name (Stage st) = EmptyString))
  ∧ (Forall (λ token, HasPrefix token "--" = true) (Fields (Args inst)) →
     analyzeInstruction b inst =
     Err ("line " +:+ pretty (Line inst) +:+ ": FROM instruction missing base image")).
Proof.
  intros Hal Hk.
  assert (analyzeInstruction b inst = analyzeFrom b inst) as ->.
  { unfold analyzeInstruction. by rewrite Hk. }
  split.
  - intros flags base rest HF Hflags Hbase.
    pose proof (parseFrom_base _ _ _ _ HF Hflags Hbase) as Hpf.
    assert (base ≠ EmptyString) as Hne.
    { pose proof (Fields_not_empty (Args inst)) as Hall. rewrite HF in Hall.
      apply Forall_app in Hall as [_ Hall]. by apply Forall_cons in Hall as [? _]. }
    destruct (analyzeFrom b inst) as [b'|msg] eqn:E.
    + apply analyzeFrom_Ok in E as (base' & alias' & Hpf' & _ & HS & _); [|done].
      rewrite Hpf in Hpf'. injection Hpf' as <- <-.
      eexists b', _. split; [done|]. rewrite HS, last_snoc. split; [done|].
      cbn [Stage Base Name]. split; [done|]. split.
      * intros t alias rest' -> Ht. by rewrite Ht.
      * intros Hno. destruct rest as [|t [|alias rest']]; try done.
        by rewrite (Hno t alias rest' eq_refl).
    + exfalso. unfold analyzeFrom in E. rewrite Hpf in E.
      by rewrite (proj2 (String.eqb_neq _ _) Hne) in E.
  - intros Hall. unfold analyzeFrom. by rewrite parseFrom_no_base.
Qed.

(** ** COPY: where the files come from *)

Lemma detectCopySourceStage_skip (pre rest : list string) :
  Forall not_from_flag pre →
  detectCopySourceStage_loop (pre ++ rest) = detectCopySourceStage_loop rest.
Proof.
  induction 1 as [|token pre [Hp Hne] _ IH]; [done|].
  cbn [app detectCopySourceStage_loop]. rewrite Hp, IH.
  rewrite (proj2 (String.eqb_neq _ _) Hne).
  destruct (pre ++ rest) eqn:E; [|done].
  apply app_eq_nil in E as [_ ->]. done.
Qed.

Lemma detectCopySourceStage_none (tokens : list string) :
  Forall not_from_flag tokens → detectCopySourceStage_loop tokens = EmptyString.
Proof.
  intros Hall. rewrite <- (app_nil_r tokens). by rewrite detectCopySourceStage_skip.
Qed.

(** The reference of the first [--from] flag is what
    [detectCopySourceStage] returns. *)
Lemma detectCopySourceStage_ref (args : string) (pre : list string) (ref : string)
    (post : list string) :
  Forall not_from_flag pre →
  (Fields args = pre ++ ("--from=" +:+ ref) :: post ∧ ref ≠ EmptyString)
  ∨ Fields args = pre ++ "--from" :: ref :: post →
  detectCopySourceStage_loop (Fields args) = ref ∧ ref ≠ EmptyString.
Proof.
  intros Hpre [[-> Hne] | HF].
  - rewrite detectCopySourceStage_skip by done. split; [|done]. by vm_compute.
  - pose proof (Fields_not_empty args) as Hall. rewrite HF in Hall.
    apply Forall_app in Hall as [_ Hall].
    apply Forall_cons in Hall as [_ Hall]. apply Forall_cons in Hall as [Hne _].
    rewrite HF, detectCopySourceStage_skip by done.
    split; [|done]. by vm_compute.
Qed.

(** The layer a COPY inside a stage appends carries the notes of
    [copyNotes]. *)
Lemma COPY_layer (b : builder) (inst : parsedInstruction) :
  aligned b → 0 ≤ stageIndex b → Keyword inst = "COPY" →
  ∃ b' st layer,
    analyzeInstruction b inst = Ok b'
    ∧ Stages (rep b') !! Z.to_nat (stageIndex b) = Some st
    ∧ last (Layers st) = Some layer
    ∧ Instruction layer = inst
    ∧ Notes layer = copyNotes (Args inst) (stageAliases b).
Proof.
  intros Hal Hge Hk.
  destruct (analyzeInStage_Ok b inst Hal) as (b' & E & HS & _).
  assert (analyzeInstruction b inst = Ok b') as ->.
  { unfold analyzeInstruction. rewrite Hk. simpl.
    by destruct (Z.eqb_spec (stageIndex b) (-1)); [lia|]. }
  destruct (lookup_lt_is_Some_2 (Stages (rep b)) (Z.to_nat (stageIndex b)))
    as [st0 Hst0].
  { unfold aligned, len in Hal. lia. }
  eexists b', _, _. split; [done|]. rewrite HS, list_lookup_alter_eq, Hst0.
  split; [done|]. unfold appendLayer. cbn [withLayers Layers].
  rewrite last_snoc. split; [done|]. cbn [withNumber Instruction Notes].
  split; [done|]. unfold stageLayer, keywordNotes. by rewrite Hk.
Qed.

(** C5. For every COPY instruction processed inside a stage, the layer
    it appends has one note.  If the first [--from] flag among the
    whitespace-separated tokens of its arguments is [--from=<ref>] or
    [--from <ref>] and the alias table has an entry for the lowercased
    <ref> (a registered alias, or the stringified index of a stage), the
    note names the stage index of that entry and the reference; if the
    table has no entry for it, the note says the reference is to a stage
    or image that must exist; if no token is a [--from] flag, the note
    says the files come from the build context, so that editing them
    invalidates the layer. *)
Theorem COPY_note (b : builder) (inst : parsedInstruction) :
  aligned b → 0 ≤ stageIndex b → Keyword inst = "COPY" →
  ∃ b' st layer,
    analyzeInstruction b inst = Ok b'
    ∧ Stages (rep b') !! Z.to_nat (stageIndex b) = Some st
    ∧ last (Layers st) = Some layer
    ∧ Instruction layer = inst
    ∧ (∀ pre ref post,
         Forall not_from_flag pre →
         (Fields (Args inst) = pre ++ ("--from=" +:+ ref) :: post ∧ ref ≠ EmptyString)
         ∨ Fields (Args inst) = pre ++ "--from" :: ref :: post →
         (∀ idx, stageAliases b !! ToLower ref = Some idx →
            Notes layer =
            ["Copies from stage " +:+ pretty idx +:+ " (" +:+ ref
             +:+ "). Cache depends on that stage's output instead of local files."])
         ∧ (stageAliases b !! ToLower ref = None →
            Notes layer =
            ["Copies from " +:+ Quote ref +:+ ". Make sure the stage or image exists."]))
    ∧ (Forall not_from_flag (Fields (Args inst)) →
       Notes layer =
       ["Takes files from the build context, so editing those files will invalidate this layer."]).
Proof.
  intros Hal Hge Hk.
  destruct (COPY_layer b inst Hal Hge Hk) as (b' & st & layer & E & Hst & Hl & Hi & HN).
  exists b', st, layer. do 4 (split; [done|]). split.
  - intros pre ref post Hpre Href.
    destruct (detectCopySourceStage_ref _ _ _ _ Hpre Href) as [Hsrc Hne].
    rewrite HN. unfold copyNotes, detectCopySourceStage.
    rewrite Hsrc, (proj2 (String.eqb_neq _ _) Hne).
    split; [intros idx Hidx; by rewrite Hidx | intros Hnone; by rewrite Hnone].
  - intros Hall. rewrite HN. unfold copyNotes, detectCopySourceStage.
    by rewrite detectCopySourceStage_none.
Qed.

End AnalyzerFacts.

(** ** The line assembler *)

Lemma starts_comment_test (line : string) (i : nat) :
  (at_index line i =? hash)%N && ((i =? 0)%nat || IsSpace (at_index line (i - 1))) = true
  ↔ starts_comment line i.
Proof.
  unfold starts_comment.
  rewrite andb_true_iff, orb_true_iff, N.eqb_eq, Nat.eqb_eq. done.
Qed.

Lemma removeInlineComment_loop_spec (todo : nat) (line : string) (i : nat) :
  (∀ j, (i ≤ j < i + todo)%nat → ¬ starts_comment line j)
  ∧ removeInlineComment_loop todo line i = line
  ∨ ∃ k, (i ≤ k < i + todo)%nat ∧ starts_comment line k
         ∧ (∀ j, (i ≤ j < k)%nat → ¬ starts_comment line j)
         ∧ removeInlineComment_loop todo line i = TrimSpace (slice_to k line).
Proof.
  revert i. induction todo as [|todo IH]; intros i; cbn [removeInlineComment_loop].
  - left. split; [intros j ?; lia | done].
  - destruct ((at_index line i =? hash)%N && _) eqn:E.
    + apply starts_comment_test in E. right. exists i.
      split; [lia|]. split; [done|]. split; [intros j ?; lia | done].
    + assert (¬ starts_comment line i) as Hi.
      { intros Hc%starts_comment_test. congruence. }
      destruct (IH (S i)) as [[Hno ->] | (k & Hk & Hc & Hno & ->)].
      * left. split; [|done]. intros j Hj.
        destruct (decide (j = i)) as [->|]; [done | apply Hno; lia].
      * right. exists k. split; [lia|]. split; [done|]. split; [|done].
        intros j Hj.
        destruct (decide (j = i)) as [->|]; [done | apply Hno; lia].
Qed.

(** X24. What [removeInlineComment] computes, in terms of bytes: the
    line cut at the first offset that starts a comment and trimmed, or
    the line as it is when no offset does. *)
Lemma removeInlineComment_spec (line : string) :
  (∀ j, (j < String.length line)%nat → ¬ starts_comment line j)
  ∧ removeInlineComment line = line
  ∨ ∃ k, (k < String.length line)%nat ∧ starts_comment line k
         ∧ (∀ j, (j < k)%nat → ¬ starts_comment line j)
         ∧ removeInlineComment line = TrimSpace (slice_to k line).
Proof.
  unfold removeInlineComment.
  destruct (removeInlineComment_loop_spec (String.length line) line 0)
    as [[Hno E] | (k & Hk & Hc & Hno & E)].
  - left. split; [|done]. intros j Hj. apply Hno. lia.
  - right. exists k. split; [lia|]. split; [done|]. split; [|done].
    intros j Hj. apply Hno. lia.
Qed.

(** ** Strings: prefixes, suffixes and substrings *)

Lemma append_cons (c : ascii) (s t : string) : String c s +:+ t = String c (s +:+ t).
Proof. reflexivity. Qed.

Lemma append_assoc (s t u : string) : (s +:+ t) +:+ u = s +:+ (t +:+ u).
Proof. induction s as [|c s IH]; [done|]. by rewrite !append_cons, IH. Qed.

Lemma append_empty_r (s : string) : s +:+ EmptyString = s.
Proof. induction s as [|c s IH]; [done|]. by rewrite append_cons, IH. Qed.

Lemma length_append (s t : string) :
  String.length (s +:+ t) = (String.length s + String.length t)%nat.
Proof. induction s as [|c s IH]; [done|]. rewrite append_cons. cbn. by rewrite IH. Qed.

Lemma append_not_empty_r (s t : string) : t ≠ EmptyString → s +:+ t ≠ EmptyString.
Proof. destruct s; [done|]. by rewrite append_cons. Qed.

Lemma strlen_zero (s : string) : (strlen s =? 0) = String.eqb s EmptyString.
Proof. by destruct s. Qed.

Lemma slice_from_append (s t : string) : slice_from (String.length s) (s +:+ t) = t.
Proof. induction s as [|c s IH]; [done|]. exact IH. Qed.

Lemma slice_to_append (s t : string) : slice_to (String.length s) (s +:+ t) = s.
Proof.
  induction s as [|c s IH]; [done|]. rewrite append_cons. cbn. by rewrite IH.
Qed.

Lemma slice_to_from (i : nat) (s : string) : slice_to i s +:+ slice_from i s = s.
Proof.
  revert s. induction i as [|i IH]; intros s; [done|].
  destruct s as [|c s]; [done|]. cbn [slice_to slice_from].
  by rewrite append_cons, IH.
Qed.

Lemma length_slice_to (i : nat) (s : string) :
  (i ≤ String.length s)%nat → String.length (slice_to i s) = i.
Proof.
  revert s. induction i as [|i IH]; intros s Hi; [done|].
  destruct s as [|c s]; [simpl in Hi; lia|]. cbn. rewrite IH; [done|]. simpl in Hi. lia.
Qed.

(** [strings.HasPrefix(s, prefix)] says that [s] begins with [prefix]. *)
Lemma HasPrefix_iff (s prefix : string) :
  HasPrefix s prefix = true ↔ ∃ t, s = prefix +:+ t.
Proof.
  revert s. induction prefix as [|p prefix IH]; intros s; cbn [HasPrefix].
  - split; [by exists s | done].
  - destruct s as [|c s]; [split; [done | by intros [t [=]]]|].
    rewrite andb_true_iff, IH. split.
    + intros [->%Ascii.eqb_eq [t ->]]. by exists t.
    + intros [t [= -> ->]]. split; [apply Ascii.eqb_refl | by exists t].
Qed.

(** [strings.HasSuffix(s, suffix)] says that [s] ends with [suffix]. *)
Lemma HasSuffix_iff (s suffix : string) :
  HasSuffix s suffix = true ↔ ∃ t, s = t +:+ suffix.
Proof.
  unfold HasSuffix. rewrite andb_true_iff, Nat.leb_le, String.eqb_eq. split.
  - intros [Hlen Heq].
    exists (slice_to (String.length s - String.length suffix) s).
    rewrite <- Heq at 2. by rewrite slice_to_from.
  - intros [t ->]. rewrite length_append. split; [lia|].
    replace (String.length t + String.length suffix - String.length suffix)%nat
      with (String.length t) by lia.
    apply slice_from_append.
Qed.

Lemma TrimSuffix_append (t suffix : string) : TrimSuffix (t +:+ suffix) suffix = t.
Proof.
  unfold TrimSuffix.
  rewrite (proj2 (HasSuffix_iff _ _)) by (by exists t).
  rewrite length_append.
  replace (String.length t + String.length suffix - String.length suffix)%nat
    with (String.length t) by lia.
  apply slice_to_append.
Qed.

(** [strings.Contains(s, substr)] says that [substr] occurs in [s]. *)
Lemma Contains_iff (s substr : string) :
  Contains s substr = true ↔ ∃ before after, s = before +:+ substr +:+ after.
Proof.
  induction s as [|c s IH]; cbn [Contains]; rewrite orb_true_iff, HasPrefix_iff.
  - split.
    + intros [[t Ht] | ?]; [|done]. by exists EmptyString, t.
    + intros ([|c before] & after & Hs); [left; by exists after | done].
  - rewrite IH. split.
    + intros [[t Ht] | (before & after & ->)]; [by exists EmptyString, t|].
      by exists (String c before), after.
    + intros ([|c' before] & after & Hs); [left; by exists after|].
      right. injection Hs as -> ->. by exists before, after.
Qed.

(** ** [ensureStage], in full *)

Lemma ensureStage_grow_lookup (missing : nat) (stages : list stageReport) (i : nat) :
  ensureStage_grow missing stages !! i =
  if decide (i < length stages)%nat then stages !! i
  else if decide (i < length stages + missing)%nat then Some (freshStage (Z.of_nat i))
  else None.
Proof.
  revert stages. induction missing as [|k IH]; intros stages; cbn [ensureStage_grow].
  - case_decide; [done|]. rewrite decide_False by lia. apply lookup_ge_None. lia.
  - rewrite IH, length_app. cbn [length].
    destruct (decide (i < length stages)%nat) as [Hlt|Hge].
    + rewrite decide_True by lia. by rewrite lookup_app_l.
    + destruct (decide (i = length stages)) as [->|Hne].
      * rewrite decide_True by lia. rewrite decide_True by lia.
        rewrite lookup_app_r, Nat.sub_diag by lia. reflexivity.
      * rewrite decide_False by lia.
        destruct (decide (i < length stages + S k)%nat).
        -- by rewrite decide_True by lia.
        -- by rewrite decide_False by lia.
Qed.

(** X1. [ensureStage(rep, index)] for an index that is not negative makes
    the stage list exactly long enough to hold slot [index]: stages that
    exist stay as they are, every new slot holds an empty stage whose
    index is its position, nothing else of the report changes, and a
    second call changes nothing. *)
Theorem ensureStage_fills_slots (r : report) (index : Z) :
  0 ≤ index →
  len (Stages (ensureStage r index)) = Z.max (len (Stages r)) (index + 1)
  ∧ (∀ i st, Stages r !! i = Some st → Stages (ensureStage r index) !! i = Some st)
  ∧ (∀ i st, (length (Stages r) ≤ i)%nat →
       Stages (ensureStage r index) !! i = Some st → st = freshStage (Z.of_nat i))
  ∧ Global (ensureStage r index) = Global r
  ∧ FilePath (ensureStage r index) = FilePath r
  ∧ ensureStage (ensureStage r index) index = ensureStage r index.
Proof.
  intros Hge. unfold ensureStage. cbn [Stages withStages Global FilePath].
  split; [|split; [|split; [|split; [done|split; [done|]]]]].
  - unfold len. rewrite ensureStage_grow_length. unfold len. lia.
  - intros i st Hst. rewrite ensureStage_grow_lookup.
    by rewrite decide_True by (by eapply lookup_lt_Some).
  - intros i st Hi. rewrite ensureStage_grow_lookup.
    rewrite decide_False by lia. by case_decide; [intros [= <-]|].
  - replace (Z.to_nat (index + 1 - len (ensureStage_grow _ (Stages r)))) with 0%nat.
    + reflexivity.
    + unfold len. rewrite ensureStage_grow_length. unfold len. lia.
Qed.

Section ReportFacts.
Context `{UnicodeText}.

(** ** Every instruction becomes one layer *)

Lemma stages_nil_of_index (b : builder) :
  aligned b → stageIndex b = -1 → Stages (rep b) = [].
Proof.
  unfold aligned, len. intros Hal Hm1.
  destruct (Stages (rep b)); [done | simpl in Hal; lia].
Qed.

Lemma stages_snoc_of_index (b : builder) :
  aligned b → stageIndex b ≠ -1 →
  ∃ stages st, Stages (rep b) = stages ++ [st]
               ∧ Z.to_nat (stageIndex b) = length stages.
Proof.
  unfold aligned, len. intros Hal Hin.
  destruct (Stages (rep b)) as [|st0 stages] using rev_ind; [simpl in Hal; lia|].
  exists stages, st0. split; [done|]. rewrite length_app in Hal. simpl in Hal. lia.
Qed.

Lemma countLayer_Layers (layer : layerReport) (st : stageReport) :
  Layers (countLayer layer st) = Layers st.
Proof. unfold countLayer. by repeat case_match. Qed.

Lemma layersInOrder_snoc_stage (r : report) (stages : list stageReport)
    (st : stageReport) :
  Stages r = stages ++ [st] →
  layersInOrder r = Global r ++ concat (map Layers stages) ++ Layers st.
Proof.
  intros HS. unfold layersInOrder.
  by rewrite HS, map_app, concat_app; cbn [map concat]; rewrite app_nil_r.
Qed.

(** One iteration appends one layer to the report, that of its
    instruction, or nothing for a blank instruction. *)
Lemma analyzeInstruction_layers (b b' : builder) (inst : parsedInstruction) :
  aligned b → analyzeInstruction b inst = Ok b' →
  (Keyword inst = EmptyString ∧ b' = b)
  ∨ (Keyword inst ≠ EmptyString
     ∧ ∃ l, Instruction l = inst ∧ described l
            ∧ layersInOrder (rep b') = layersInOrder (rep b) ++ [l]).
Proof.
  intros Hal E.
  destruct (analyzeInstruction_cases _ _ _ E)
    as [[Hk ->] | [[Hk Hf] | [(Hk & Hm1 & Hg) | (Hne & Hk & Hin & Hs)]]].
  - by left.
  - right. split; [by rewrite Hk|].
    apply analyzeFrom_Ok in Hf as (base & alias & _ & _ & HS & HG & _); [|done].
    eexists. split; [|split]; [| |unfold layersInOrder;
      rewrite HS, HG, map_app, concat_app; cbn [map concat Layers];
      by rewrite app_nil_r, app_assoc].
    + cbn [withNumber Instruction]. apply fromLayer_Instruction.
    + unfold described. cbn [withNumber Instruction Effect Explanation CacheHint].
      rewrite fromLayer_Instruction. unfold fromLayer. by destruct (negb _).
  - right. split; [by rewrite Hk|].
    apply analyzeGlobal_Ok in Hg as (_ & HG & HS & _).
    eexists. split; [|split]; [| |unfold layersInOrder;
      by rewrite HS, HG, (stages_nil_of_index b Hal Hm1), !app_nil_r].
    + reflexivity.
    + unfold described, globalLayer. cbn. by rewrite Hk.
  - right. split; [done|].
    destruct (analyzeInStage_Ok b inst Hal) as (b2 & E2 & HS & HG & _).
    rewrite E2 in Hs. injection Hs as <-.
    destruct (stages_snoc_of_index b Hal Hin) as (stages & st & HSb & Hidx).
    exists (withNumber (len (Layers st) + 1) (stageLayer inst (stageAliases b))).
    split; [done|]. split; [done|].
    rewrite (layersInOrder_snoc_stage (rep b) stages st HSb).
    rewrite (layersInOrder_snoc_stage (rep b2) stages
               (appendLayer (stageLayer inst (stageAliases b))
                  (countLayer (stageLayer inst (stageAliases b)) st))).
    + unfold appendLayer. cbn [withLayers Layers]. rewrite countLayer_Layers, HG.
      by rewrite !app_assoc.
    + by rewrite HS, HSb, Hidx, alter_last.
Qed.

Lemma analyzeInstructions_layers (insts : list parsedInstruction) (b b' : builder) :
  wf b → analyzeInstructions insts b = Ok b' →
  map Instruction (layersInOrder (rep b')) =
    map Instruction (layersInOrder (rep b))
    ++ filter (λ inst, Keyword inst ≠ EmptyString) insts
  ∧ (Forall described (layersInOrder (rep b)) →
     Forall described (layersInOrder (rep b'))).
Proof.
  revert b. induction insts as [|inst rest IH]; intros b Hwf; simpl.
  - intros [= <-]. by rewrite app_nil_r.
  - destruct (analyzeInstruction b inst) as [b1|] eqn:E; [|done]. intros Hrun.
    destruct (IH b1 (analyzeInstruction_wf _ _ _ Hwf E) Hrun) as [Hmap Hdesc].
    rewrite filter_cons.
    destruct (analyzeInstruction_layers _ _ _ (wf_aligned _ Hwf) E)
      as [[Hk ->] | (Hne & l & Hi & Hd & HL)].
    + rewrite decide_False by (by intros ?). done.
    + rewrite decide_True by done. split.
      * by rewrite Hmap, HL, map_app, <- app_assoc; cbn [map app]; rewrite Hi.
      * intros Hall. apply Hdesc. rewrite HL. apply Forall_app. split; [done|].
        by constructor.
Qed.

(** X2. In the report of a successful analysis the layers, read global
    list first and then stage by stage, are the instructions of the
    stream that have a keyword, one layer each, in their order: no
    instruction is dropped, duplicated or moved. *)
Theorem one_layer_per_instruction (abs : result string) (file : result scan)
    (raws : list rawInstruction) (insts : list parsedInstruction) (r : report) :
  readInstructions file = Ok raws →
  parseInstructions raws = Ok insts →
  analyzeDockerfile abs file = Ok r →
  map Instruction (layersInOrder r) = filter (λ inst, Keyword inst ≠ EmptyString) insts.
Proof.
  intros Hread Hparse (b & Hb & ->)%analyzeDockerfile_Ok.
  apply analyzeDockerfile_builder_Ok in Hb
    as (fullPath & raws' & insts' & _ & Hr' & Hp' & Hrun).
  rewrite Hread in Hr'. injection Hr' as <-.
  rewrite Hparse in Hp'. injection Hp' as <-.
  by destruct (analyzeInstructions_layers _ _ _ (wf_newBuilder fullPath) Hrun) as [-> _].
Qed.

(** X3. Every layer of the report of a successful analysis, global or
    in a stage, carries the effect, the explanation and the cache hint
    that [descriptorFor] gives for the keyword of the layer's own
    instruction. *)
Theorem layers_carry_their_descriptor (abs : result string) (file : result scan)
    (r : report) (l : layerReport) :
  analyzeDockerfile abs file = Ok r →
  l ∈ layersInOrder r →
  Effect l = descEffect (descriptorFor (Keyword (Instruction l)))
  ∧ Explanation l = descExplanation (descriptorFor (Keyword (Instruction l)))
  ∧ CacheHint l = descCacheHint (descriptorFor (Keyword (Instruction l))).
Proof.
  intros (b & Hb & ->)%analyzeDockerfile_Ok Hl.
  apply analyzeDockerfile_builder_Ok in Hb
    as (fullPath & raws & insts & _ & _ & _ & Hrun).
  destruct (analyzeInstructions_layers _ _ _ (wf_newBuilder fullPath) Hrun) as [_ Hdesc].
  assert (Forall described (layersInOrder (rep b))) as Hall
    by (apply Hdesc; constructor).
  by apply (proj1 (Forall_forall _ _) Hall l).
Qed.

(** ** Numbering *)

Lemma numbered_snoc (layers : list layerReport) (l : layerReport) :
  numbered layers → numbered (layers ++ [withNumber (len layers + 1) l]).
Proof.
  intros Hnum k l' Hl. apply lookup_app_Some in Hl as [Hl | [Hge Hl]]; [by apply Hnum|].
  destruct (k - length layers)%nat as [|k'] eqn:Ek; [|done].
  injection Hl as <-. cbn [withNumber Number]. unfold len. lia.
Qed.

Lemma analyzeInstructions_global_numbered (insts : list parsedInstruction)
    (b b' : builder) :
  numbered (Global (rep b)) → analyzeInstructions insts b = Ok b' →
  numbered (Global (rep b')).
Proof.
  revert b. induction insts as [|inst rest IH]; intros b Hnum; simpl.
  - by intros [= <-].
  - destruct (analyzeInstruction b inst) as [b1|] eqn:E; [|done].
    apply IH. unfold analyzeInstruction in E.
    destruct (String.eqb (Keyword inst) EmptyString); [by injection E as <-|].
    destruct (String.eqb (Keyword inst) "FROM").
    { unfold analyzeFrom in E. destruct (parseFrom (Args inst)) as [base alias].
      destruct (String.eqb base EmptyString); [done|]. by injection E as <-. }
    destruct (stageIndex b =? -1).
    + apply analyzeGlobal_Ok in E as (_ & -> & _). by apply numbered_snoc.
    + unfold analyzeInStage in E. by injection E as <-.
Qed.

(** X4. In the report of a successful analysis layer numbers are
    1-based and dense: the layer at position [k] of [report.global], and
    of every stage's layer list, has number [k + 1]. *)
Theorem layer_numbers_are_positions (abs : result string) (file : result scan)
    (r : report) :
  analyzeDockerfile abs file = Ok r →
  (∀ k l, Global r !! k = Some l → Number l = Z.of_nat k + 1)
  ∧ ∀ i st k l, Stages r !! i = Some st → Layers st !! k = Some l →
      Number l = Z.of_nat k + 1.
Proof.
  intros (b & Hb & ->)%analyzeDockerfile_Ok.
  apply analyzeDockerfile_builder_Ok in Hb
    as (fullPath & raws & insts & _ & _ & _ & Hrun).
  split.
  - eapply analyzeInstructions_global_numbered; [|exact Hrun]. by intros k l.
  - intros i st k l Hst.
    apply (ok_numbers i st).
    eapply wf_stages; [|exact Hst].
    eapply analyzeInstructions_wf; [apply wf_newBuilder | exact Hrun].
Qed.

End ReportFacts.

Section BuilderFacts.
Context `{UnicodeText}.

(** ** What [parseFrom] returns *)

Lemma skipFlags_split (tokens : list string) :
  ∃ flags, tokens = flags ++ skipFlags tokens ∧ Forall is_flag flags
           ∧ match skipFlags tokens with
             | [] => True
             | token :: _ => HasPrefix token "--" = false
             end.
Proof.
  induction tokens as [|token tokens (flags & Heq & Hflags & Hhd)]; cbn [skipFlags].
  - by exists [].
  - destruct (HasPrefix token "--") eqn:E.
    + exists (token :: flags). split; [by rewrite Heq at 1|]. split; [|done].
      by constructor.
    + by exists [].
Qed.

Lemma parseFrom_tokens (args base alias : string) :
  parseFrom args = (base, alias) → base ≠ EmptyString →
  ∃ rest,
    skipFlags (Fields args) = base :: rest
    ∧ (alias = EmptyString
       ∨ ∃ t rest', rest = t :: alias :: rest' ∧ EqualFold t "AS" = true).
Proof.
  unfold parseFrom.
  destruct (len (Fields args) =? 0); [by intros [= <- <-]|].
  destruct (skipFlags (Fields args)) as [|token rest]; [by intros [= <- <-]|].
  intros Hpf Hne. exists rest.
  destruct rest as [|t [|a rest']].
  - injection Hpf as <- <-. auto.
  - injection Hpf as <- <-. auto.
  - destruct (EqualFold t "AS") eqn:Et; injection Hpf as <- <-.
    + split; [done|]. right. by exists t, rest'.
    + auto.
Qed.

(** X5. Whatever [parseFrom] returns as a base that is not empty is a
    token of the arguments that does not start with two dashes, with only
    flags before it; the alias is empty, or it is the second token after
    the base and the token between them is AS in some case. *)
Theorem parseFrom_sound (args base alias : string) :
  parseFrom args = (base, alias) → base ≠ EmptyString →
  ∃ flags rest,
    Fields args = flags ++ base :: rest
    ∧ Forall is_flag flags
    ∧ HasPrefix base "--" = false
    ∧ (alias = EmptyString
       ∨ ∃ t rest', rest = t :: alias :: rest' ∧ EqualFold t "AS" = true).
Proof.
  intros Hpf Hne.
  destruct (parseFrom_tokens _ _ _ Hpf Hne) as (rest & Hskip & Halias).
  destruct (skipFlags_split (Fields args)) as (flags & Heq & Hflags & Hhd).
  rewrite Hskip in Heq, Hhd. by exists flags, rest.
Qed.

(** ** The stage and its FROM layer *)

Lemma analyzeInstruction_stage_from_ok (b b' : builder) (inst : parsedInstruction) :
  wf b → Forall stage_from_ok (Stages (rep b)) →
  analyzeInstruction b inst = Ok b' →
  Forall stage_from_ok (Stages (rep b')).
Proof.
  intros Hwf Hall E. pose proof (wf_aligned _ Hwf) as Hal.
  destruct (analyzeInstruction_cases _ _ _ E)
    as [[Hk ->] | [[Hk Hf] | [(Hk & Hm1 & Hg) | (Hne & Hk & Hin & Hs)]]]; [done|..].
  - apply analyzeFrom_Ok in Hf as (base & alias & Hpf & Hbase & -> & _); [|done].
    apply Forall_app. split; [done|]. constructor; [|done].
    eexists. split; [reflexivity|]. cbn [withNumber Instruction Stage Base Name].
    by rewrite fromLayer_Instruction.
  - apply analyzeGlobal_Ok in Hg as (_ & _ & -> & _). done.
  - destruct (analyzeInStage_Ok b inst Hal) as (b2 & E2 & HS & _).
    rewrite E2 in Hs. injection Hs as <-. rewrite HS.
    apply Forall_lookup. intros i st Hst.
    apply lookup_alter_inv in Hst as [[Hi (st0 & Hst0 & ->)] | [Hi Hst]];
      [|by eapply (proj1 (Forall_lookup _ _) Hall)].
    destruct (proj1 (Forall_lookup _ _) Hall _ _ Hst0) as (l0 & Hhd & Hpf & Hbase).
    exists l0. unfold appendLayer. cbn [withLayers Layers Stage].
    rewrite countLayer_Layers, countLayer_Stage. split; [|done].
    destruct (Layers st0); [done | by injection Hhd as ->].
Qed.

Lemma analyzeInstructions_stage_from_ok (insts : list parsedInstruction)
    (b b' : builder) :
  wf b → Forall stage_from_ok (Stages (rep b)) →
  analyzeInstructions insts b = Ok b' →
  Forall stage_from_ok (Stages (rep b')).
Proof.
  revert b. induction insts as [|inst rest IH]; intros b Hwf Hall; simpl.
  - by intros [= <-].
  - destruct (analyzeInstruction b inst) as [b1|] eqn:E; [|done].
    apply IH; [by eapply analyzeInstruction_wf|].
    by eapply analyzeInstruction_stage_from_ok.
Qed.

(** X6. In the report of a successful analysis every stage repeats its
    FROM instruction: parsing the arguments of the instruction of the
    stage's first layer again gives the stage's base and name, and the
    base is a token of those arguments that is neither empty nor a
    flag. *)
Theorem stage_repeats_its_FROM (abs : result string) (file : result scan)
    (r : report) (i : nat) (st : stageReport) :
  analyzeDockerfile abs file = Ok r →
  Stages r !! i = Some st →
  ∃ l0,
    head (Layers st) = Some l0
    ∧ Keyword (Instruction l0) = "FROM"
    ∧ parseFrom (Args (Instruction l0)) = (Base (Stage st), Name (Stage st))
    ∧ Base (Stage st) ≠ EmptyString
    ∧ HasPrefix (Base (Stage st)) "--" = false
    ∧ Base (Stage st) ∈ Fields (Args (Instruction l0)).
Proof.
  intros (b & Hb & ->)%analyzeDockerfile_Ok Hst.
  apply analyzeDockerfile_builder_Ok in Hb
    as (fullPath & raws & insts & _ & _ & _ & Hrun).
  pose proof (analyzeInstructions_wf _ _ _ (wf_newBuilder fullPath) Hrun) as Hwf.
  assert (Forall stage_from_ok (Stages (rep b))) as Hall.
  { eapply analyzeInstructions_stage_from_ok; [apply wf_newBuilder | | exact Hrun].
    constructor. }
  destruct (proj1 (Forall_lookup _ _) Hall _ _ Hst) as (l0 & Hhd & Hpf & Hbase).
  destruct (ok_first _ _ (wf_stages _ Hwf _ _ Hst)) as (l0' & rest & HL & _ & _ & Hk & _).
  rewrite HL in Hhd. injection Hhd as ->.
  destruct (parseFrom_tokens _ _ _ Hpf Hbase) as (rest' & Hskip & _).
  destruct (skipFlags_split (Fields (Args (Instruction l0))))
    as (flags & HF & _ & Hnf).
  rewrite Hskip in HF, Hnf.
  exists l0. rewrite HL. do 5 (split; [done|]).
  rewrite HF. apply elem_of_app. right. by left.
Qed.

(** X7. The report of a successful analysis carries, as its file path,
    the absolute path that [filepath.Abs] returned. *)
Theorem report_has_the_absolute_path (abs : result string) (file : result scan)
    (r : report) :
  analyzeDockerfile abs file = Ok r → abs = Ok (FilePath r).
Proof.
  intros (b & Hb & ->)%analyzeDockerfile_Ok.
  apply analyzeDockerfile_builder_Ok in Hb
    as (fullPath & raws & insts & -> & _ & _ & Hrun).
  f_equal. change fullPath with (FilePath (rep (newBuilder fullPath))).
  revert Hrun. generalize (newBuilder fullPath). clear.
  induction insts as [|inst rest IH]; intros b0; simpl.
  - by intros [= <-].
  - destruct (analyzeInstruction b0 inst) as [b1|] eqn:E; [|done].
    intros Hrun. rewrite <- (IH _ Hrun). clear IH Hrun.
    unfold analyzeInstruction in E.
    destruct (String.eqb (Keyword inst) EmptyString); [by injection E as <-|].
    destruct (String.eqb (Keyword inst) "FROM").
    { unfold analyzeFrom in E. destruct (parseFrom (Args inst)) as [base alias].
      destruct (String.eqb base EmptyString); [done|]. by injection E as <-. }
    destruct (stageIndex b0 =? -1).
    + by apply analyzeGlobal_Ok in E as (_ & _ & _ & -> & _).
    + unfold analyzeInStage in E. by injection E as <-.
Qed.

End BuilderFacts.

Section RunFacts.
Context `{UnicodeText}.

(** ** A longer Dockerfile extends the report of a shorter one *)

Lemma extends_refl (b : builder) : extends b b.
Proof.
  split; [by exists []; rewrite app_nil_r|]. split; [|lia].
  intros i st Hst. exists st. repeat split; try done. by exists []; rewrite app_nil_r.
Qed.

Lemma extends_trans (b1 b2 b3 : builder) :
  extends b1 b2 → extends b2 b3 → extends b1 b3.
Proof.
  intros ([m1 HG1] & HS1 & HI1) ([m2 HG2] & HS2 & HI2).
  split; [exists (m1 ++ m2); by rewrite HG2, HG1, app_assoc|]. split; [|lia].
  intros i st Hst.
  destruct (HS1 i st Hst) as (st2 & Hst2 & HSt2 & [l1 HL1] & Hc1).
  destruct (HS2 i st2 Hst2) as (st3 & Hst3 & HSt3 & [l2 HL2] & Hc2).
  exists st3. split; [done|]. split; [congruence|].
  split; [exists (l1 ++ l2); by rewrite HL2, HL1, app_assoc|].
  intros Hlt. rewrite Hc2 by lia. by apply Hc1.
Qed.

Lemma analyzeInstruction_extends (b b' : builder) (inst : parsedInstruction) :
  aligned b → analyzeInstruction b inst = Ok b' → extends b b'.
Proof.
  intros Hal E.
  destruct (analyzeInstruction_cases _ _ _ E)
    as [[Hk ->] | [[Hk Hf] | [(Hk & Hm1 & Hg) | (Hne & Hk & Hin & Hs)]]].
  - apply extends_refl.
  - apply analyzeFrom_Ok in Hf as (base & alias & _ & _ & HS & HG & _ & HI & _); [|done].
    split; [exists []; by rewrite HG, app_nil_r|]. split; [|lia].
    intros i st Hst. exists st. rewrite HS.
    split; [by apply lookup_app_l_Some|]. repeat split; try done.
    by exists []; rewrite app_nil_r.
  - apply analyzeGlobal_Ok in Hg as (_ & HG & HS & _ & HI & _).
    split; [by eexists|]. split; [|lia].
    intros i st Hst. exists st. rewrite HS. repeat split; try done.
    by exists []; rewrite app_nil_r.
  - destruct (analyzeInStage_Ok b inst Hal) as (b2 & E2 & HS & HG & _ & HI & _).
    rewrite E2 in Hs. injection Hs as <-.
    split; [exists []; by rewrite HG, app_nil_r|]. split; [|lia].
    intros i st Hst. rewrite HS, list_lookup_alter.
    case_decide as Hi.
    + subst i. rewrite Hst. eexists. split; [reflexivity|].
      unfold appendLayer. cbn [withLayers Stage Layers].
      rewrite countLayer_Stage, countLayer_Layers.
      split; [done|]. split; [by eexists|].
      intros Hlt. unfold aligned, len in Hal.
      apply lookup_lt_Some in Hst. lia.
    + exists st. repeat split; try done. by exists []; rewrite app_nil_r.
Qed.

Lemma analyzeInstructions_extends (insts : list parsedInstruction) (b b' : builder) :
  wf b → analyzeInstructions insts b = Ok b' → extends b b'.
Proof.
  revert b. induction insts as [|inst rest IH]; intros b Hwf; simpl.
  - intros [= <-]. apply extends_refl.
  - destruct (analyzeInstruction b inst) as [b1|] eqn:E; [|done]. intros Hrun.
    eapply extends_trans.
    + by eapply analyzeInstruction_extends; [destruct Hwf|].
    + apply IH; [by eapply analyzeInstruction_wf | done].
Qed.

(** X8. Analysing a stream that continues another one continues its
    report: the global list and the layers of every stage are extended
    at the end only, the base, name and index of a stage stay, and a
    stage that was closed by a later FROM is left exactly as it was. *)
Theorem longer_stream_extends_report (fullPath : string)
    (insts more : list parsedInstruction) (b b' : builder) :
  analyzeInstructions insts (newBuilder fullPath) = Ok b →
  analyzeInstructions (insts ++ more) (newBuilder fullPath) = Ok b' →
  (∃ layers, Global (rep b') = Global (rep b) ++ layers)
  ∧ (∀ i st, Stages (rep b) !! i = Some st →
       ∃ st', Stages (rep b') !! i = Some st'
              ∧ Stage st' = Stage st
              ∧ (∃ layers, Layers st' = Layers st ++ layers)
              ∧ (Z.of_nat i < stageIndex b → st' = st)).
Proof.
  intros Hb. rewrite analyzeInstructions_app, Hb. intros Hb'.
  destruct (analyzeInstructions_extends more b b') as (HG & HS & _); [|done|done].
  eapply analyzeInstructions_wf; [apply wf_newBuilder | exact Hb].
Qed.

(** ** When the loop succeeds *)

Lemma analyzeInstructions_ARGs (pre : list parsedInstruction) (b : builder) :
  stageIndex b = -1 →
  Forall (λ inst, Keyword inst = "ARG" ∨ Keyword inst = EmptyString) pre →
  ∃ b', analyzeInstructions pre b = Ok b' ∧ stageIndex b' = -1
        ∧ Stages (rep b') = Stages (rep b).
Proof.
  intros Hm1 Hpre. revert b Hm1.
  induction Hpre as [|inst pre Hi _ IH]; intros b Hm1; simpl; [by exists b|].
  assert (∃ b1, analyzeInstruction b inst = Ok b1 ∧ stageIndex b1 = -1
                ∧ Stages (rep b1) = Stages (rep b)) as (b1 & -> & Hm1' & HS1).
  { unfold analyzeInstruction. destruct Hi as [Hi | Hi]; rewrite Hi; simpl.
    - rewrite Hm1. simpl. unfold analyzeGlobal. rewrite Hi. simpl. by eexists.
    - by exists b. }
  destruct (IH b1 Hm1') as (b' & Hrun & HI & HS).
  exists b'. by rewrite HS, HS1.
Qed.

Lemma analyzeInstructions_in_stage_Ok (insts : list parsedInstruction) (b : builder) :
  wf b → 0 ≤ stageIndex b → Forall has_base insts →
  ∃ b', analyzeInstructions insts b = Ok b'.
Proof.
  intros Hwf Hge Hall. revert b Hwf Hge.
  induction Hall as [|inst insts Hb _ IH]; intros b Hwf Hge; simpl; [by eexists|].
  assert (∃ b1, analyzeInstruction b inst = Ok b1 ∧ 0 ≤ stageIndex b1) as (b1 & E & Hb1).
  { unfold analyzeInstruction.
    destruct (String.eqb_spec (Keyword inst) EmptyString) as [Hk|Hne]; [by exists b|].
    destruct (String.eqb_spec (Keyword inst) "FROM") as [Hk|Hnf].
    - specialize (Hb Hk). unfold analyzeFrom.
      destruct (parseFrom (Args inst)) as [base alias]. simpl in Hb.
      rewrite (proj2 (String.eqb_neq _ _) Hb). eexists. split; [done|].
      cbn [stageIndex]. lia.
    - destruct (Z.eqb_spec (stageIndex b) (-1)) as [Hm1|Hin]; [lia|].
      eexists. split; [done|]. by cbn [stageIndex]. }
  rewrite E. apply IH; [by eapply analyzeInstruction_wf | done].
Qed.

Lemma analyzeInstructions_has_base (insts : list parsedInstruction) (b b' : builder) :
  analyzeInstructions insts b = Ok b' → Forall has_base insts.
Proof.
  revert b. induction insts as [|inst rest IH]; intros b; simpl; [by constructor|].
  destruct (analyzeInstruction b inst) as [b1|] eqn:E; [|done]. intros Hrun.
  constructor; [|by eapply IH].
  intros Hk Hbase. unfold analyzeInstruction in E. rewrite Hk in E. simpl in E.
  unfold analyzeFrom in E. destruct (parseFrom (Args inst)) as [base alias].
  simpl in Hbase. by rewrite Hbase in E.
Qed.

(** X9. The loop of [analyzeDockerfile] succeeds exactly when every
    instruction before the first FROM is an ARG (or blank) and every
    FROM names a base image; what the other instructions are or say
    never makes it fail. *)
Theorem analysis_succeeds_iff (fullPath : string) (pre rest : list parsedInstruction) :
  Forall (λ inst, Keyword inst ≠ "FROM") pre →
  (rest = [] ∨ ∃ from rest', rest = from :: rest' ∧ Keyword from = "FROM") →
  (∃ b, analyzeInstructions (pre ++ rest) (newBuilder fullPath) = Ok b)
  ↔ Forall (λ inst, Keyword inst = "ARG" ∨ Keyword inst = EmptyString) pre
    ∧ Forall has_base rest.
Proof.
  intros Hpre Hrest. rewrite analyzeInstructions_app. split.
  - intros [b Hb].
    destruct (analyzeInstructions pre (newBuilder fullPath)) as [b1|] eqn:E1; [|done].
    split.
    + by destruct (analyzeInstructions_before_FROM pre (newBuilder fullPath) b1
                     eq_refl Hpre E1) as (_ & _ & _ & ?).
    + by eapply analyzeInstructions_has_base.
  - intros [Hargs Hbase].
    destruct (analyzeInstructions_ARGs pre (newBuilder fullPath) eq_refl Hargs)
      as (b1 & E1 & Hm1 & _).
    rewrite E1.
    pose proof (analyzeInstructions_wf _ _ _ (wf_newBuilder fullPath) E1) as Hwf1.
    destruct Hrest as [-> | (from & rest' & -> & Hfrom)]; [by exists b1|].
    apply Forall_cons in Hbase as [Hb Hbase]. specialize (Hb Hfrom).
    cbn [analyzeInstructions].
    assert (∃ b2, analyzeInstruction b1 from = Ok b2 ∧ 0 ≤ stageIndex b2)
      as (b2 & E2 & Hge).
    { unfold analyzeInstruction. rewrite Hfrom. simpl. unfold analyzeFrom.
      destruct (parseFrom (Args from)) as [base alias]. simpl in Hb.
      rewrite (proj2 (String.eqb_neq _ _) Hb). eexists. split; [done|].
      cbn [stageIndex]. lia. }
    rewrite E2. apply analyzeInstructions_in_stage_Ok; [|done|done].
    by eapply analyzeInstruction_wf.
Qed.

(** X10. A stream of ARG instructions only is accepted although it has
    no FROM: the report has no stage, and every instruction is in its
    global list. *)
Theorem ARG_only_stream_is_accepted (fullPath : string)
    (insts : list parsedInstruction) :
  Forall (λ inst, Keyword inst = "ARG") insts →
  ∃ b, analyzeInstructions insts (newBuilder fullPath) = Ok b
       ∧ Stages (rep b) = []
       ∧ map Instruction (Global (rep b)) = insts.
Proof.
  intros Hall.
  destruct (analyzeInstructions_ARGs insts (newBuilder fullPath) eq_refl)
    as (b & E & _ & HS).
  { eapply Forall_impl; [exact Hall|]. intros inst ?. by left. }
  exists b. split; [done|]. split; [done|].
  destruct (analyzeInstructions_before_FROM insts (newBuilder fullPath) b eq_refl)
    as (_ & _ & HG & _); [|done|].
  { eapply Forall_impl; [exact Hall|]. intros inst ->. done. }
  rewrite HG. cbn. clear -Hall.
  induction Hall as [|inst insts Hi _ IH]; [done|].
  by rewrite filter_cons, decide_True, IH.
Qed.

(** ** The errors of the loop *)

(** [parseInstruction] has no error to return. *)
Lemma parseInstructions_Ok (raws : list rawInstruction) :
  ∃ insts, parseInstructions raws = Ok insts ∧ length insts = length raws.
Proof.
  induction raws as [|raw raws (insts & IH & Hlen)]; [by exists []|].
  cbn [parseInstructions].
  assert (∃ parsed, parseInstruction raw = Ok parsed) as [parsed ->].
  { unfold parseInstruction. destruct (String.eqb _ _); [by eexists|].
    destruct (_ =? -1); by eexists. }
  rewrite IH. eexists. split; [reflexivity|]. simpl. by rewrite Hlen.
Qed.

Lemma analyzeInstructions_Err (insts : list parsedInstruction) (b : builder)
    (e : string) :
  analyzeInstructions insts b = Err e →
  ∃ before inst after b1,
    insts = before ++ inst :: after
    ∧ analyzeInstructions before b = Ok b1
    ∧ ((Keyword inst = "FROM" ∧ (parseFrom (Args inst)).1 = EmptyString
        ∧ e = missingBaseError inst)
       ∨ (Keyword inst ≠ "FROM" ∧ Keyword inst ≠ "ARG" ∧ Keyword inst ≠ EmptyString
          ∧ stageIndex b1 = -1
          ∧ e = mustStartWithFromError inst)).
Proof.
  revert b. induction insts as [|inst rest IH]; intros b; simpl; [done|].
  destruct (analyzeInstruction b inst) as [b1|e1] eqn:E.
  - intros Hrun. destruct (IH b1 Hrun) as (before & i & after & b2 & -> & Hb2 & Hcase).
    exists (inst :: before), i, after, b2. split; [done|]. split; [|done].
    simpl. by rewrite E.
  - intros [= ->]. exists [], inst, rest, b. split; [done|]. split; [done|].
    unfold analyzeInstruction in E.
    destruct (String.eqb_spec (Keyword inst) EmptyString) as [|Hne]; [done|].
    destruct (String.eqb_spec (Keyword inst) "FROM") as [Hk|Hnf].
    + left. unfold analyzeFrom in E. destruct (parseFrom (Args inst)) as [base alias].
      destruct (String.eqb_spec base EmptyString) as [->|]; [|done].
      by injection E as <-.
    + right. destruct (Z.eqb_spec (stageIndex b) (-1)) as [Hm1|]; [|done].
      unfold analyzeGlobal in E.
      destruct (String.eqb_spec (Keyword inst) "ARG") as [|Hna]; [done|].
      injection E as <-. done.
Qed.

Lemma no_FROM_before_first_stage (fullPath : string) (insts : list parsedInstruction)
    (b : builder) :
  analyzeInstructions insts (newBuilder fullPath) = Ok b → stageIndex b = -1 →
  Forall (λ inst, Keyword inst ≠ "FROM") insts.
Proof.
  intros Hrun Hm1.
  pose proof (analyzeInstructions_wf _ _ _ (wf_newBuilder fullPath) Hrun) as Hwf.
  pose proof (analyzeInstructions_stages _ _ _ (wf_newBuilder fullPath) Hrun) as Hlen.
  rewrite (stages_nil_of_index b (wf_aligned _ Hwf) Hm1) in Hlen.
  unfold len in Hlen. cbn in Hlen.
  apply Forall_forall. intros inst Hin Hk.
  assert (inst ∈ filter (λ inst, Keyword inst = "FROM") insts) as Hf
    by (by apply list_elem_of_filter).
  destruct (filter _ insts); [by apply elem_of_nil in Hf | simpl in Hlen; lia].
Qed.

(** X11. [analyzeDockerfile] fails in seven ways only: with the error of
    [filepath.Abs], of [os.Open] or of the scanner; on a continuation
    left open; on a file without instructions; on the first FROM without
    a base image; or on the first instruction, with no FROM before it,
    that is neither ARG nor FROM.  In the last two cases everything
    before that instruction was analysed without error, and the message
    carries the line of that instruction. *)
Theorem analyzeDockerfile_errors (abs : result string) (file : result scan)
    (e : string) :
  analyzeDockerfile abs file = Err e →
  abs = Err e
  ∨ file = Err e
  ∨ (∃ f, file = Ok f ∧ scanErr f = Some e)
  ∨ e = "unterminated line continuation at end of file"
  ∨ (∃ fullPath, abs = Ok fullPath ∧ readInstructions file = Ok []
                 ∧ e = "no Dockerfile instructions found in " +:+ fullPath)
  ∨ ∃ fullPath raws before inst after b1,
      abs = Ok fullPath ∧ readInstructions file = Ok raws
      ∧ parseInstructions raws = Ok (before ++ inst :: after)
      ∧ analyzeInstructions before (newBuilder fullPath) = Ok b1
      ∧ ((Keyword inst = "FROM" ∧ (parseFrom (Args inst)).1 = EmptyString
          ∧ e = missingBaseError inst)
         ∨ (Keyword inst ≠ "FROM" ∧ Keyword inst ≠ "ARG"
            ∧ Keyword inst ≠ EmptyString
            ∧ Forall (λ i, Keyword i ≠ "FROM") before
            ∧ e = mustStartWithFromError inst)).
Proof.
  unfold analyzeDockerfile, analyzeDockerfile_builder.
  destruct abs as [fullPath|e0]; [|intros [= ->]; by left].
  destruct (readInstructions file) as [raws|e0] eqn:Hread.
  - destruct (Z.eqb_spec (len raws) 0) as [Hz|Hnz].
    { intros [= <-]. do 4 right. left. exists fullPath.
      destruct raws; [done | unfold len in Hz; simpl in Hz; lia]. }
    destruct (parseInstructions raws) as [insts|e1] eqn:Hparse.
    + destruct (analyzeInstructions insts (newBuilder fullPath)) as [b|e2] eqn:Hrun;
        [done|]. intros [= ->]. do 5 right.
      destruct (analyzeInstructions_Err _ _ _ Hrun)
        as (before & inst & after & b1 & -> & Hb1 & Hcase).
      exists fullPath, raws, before, inst, after, b1. do 4 (split; [done|]).
      destruct Hcase as [Hcase | (Hnf & Hna & Hne & Hm1 & ->)]; [by left|].
      right. do 3 (split; [done|]). split; [|done].
      by eapply no_FROM_before_first_stage.
    + destruct (parseInstructions_Ok raws) as (insts & Hok & _). congruence.
  - intros [= ->]. unfold readInstructions in Hread.
    destruct file as [f|e1]; [|injection Hread as ->; right; by left].
    destruct (scanErr f) as [e1|] eqn:Hs.
    + injection Hread as ->. do 2 right. left. by exists f.
    + destruct (negb _); [|done]. injection Hread as <-. do 3 right. by left.
Qed.

End RunFacts.

Section NotesFacts.
Context `{UnicodeText}.

(** ** The notes of the layers of a stage *)

Lemma analyzeInstruction_noted (b b' : builder) (inst : parsedInstruction) :
  wf b → Forall (λ st, Forall noted (Layers st)) (Stages (rep b)) →
  analyzeInstruction b inst = Ok b' →
  Forall (λ st, Forall noted (Layers st)) (Stages (rep b')).
Proof.
  intros Hwf Hall E. pose proof (wf_aligned _ Hwf) as Hal.
  destruct (analyzeInstruction_cases _ _ _ E)
    as [[Hk ->] | [[Hk Hf] | [(Hk & Hm1 & Hg) | (Hne & Hk & Hin & Hs)]]]; [done|..].
  - apply analyzeFrom_Ok in Hf as (base & alias & Hpf & Hbase & -> & _); [|done].
    apply Forall_app. split; [done|]. constructor; [|done].
    cbn [Layers]. constructor; [|done]. left.
    cbn [withNumber Instruction]. by rewrite fromLayer_Instruction.
  - apply analyzeGlobal_Ok in Hg as (_ & _ & -> & _). done.
  - destruct (analyzeInStage_Ok b inst Hal) as (b2 & E2 & HS & _).
    rewrite E2 in Hs. injection Hs as <-. rewrite HS.
    apply Forall_lookup. intros i st Hst.
    apply lookup_alter_inv in Hst as [[Hi (st0 & Hst0 & ->)] | [Hi Hst]];
      [|by eapply (proj1 (Forall_lookup _ _) Hall)].
    unfold appendLayer. cbn [withLayers Layers]. rewrite countLayer_Layers.
    apply Forall_app. split; [by eapply (proj1 (Forall_lookup _ _) Hall)|].
    constructor; [|done]. right. by exists (stageAliases b).
Qed.

Lemma analyzeInstructions_noted (insts : list parsedInstruction) (b b' : builder) :
  wf b → Forall (λ st, Forall noted (Layers st)) (Stages (rep b)) →
  analyzeInstructions insts b = Ok b' →
  Forall (λ st, Forall noted (Layers st)) (Stages (rep b')).
Proof.
  revert b. induction insts as [|inst rest IH]; intros b Hwf Hall; simpl.
  - by intros [= <-].
  - destruct (analyzeInstruction b inst) as [b1|] eqn:E; [|done].
    apply IH; [by eapply analyzeInstruction_wf|].
    by eapply analyzeInstruction_noted.
Qed.

(** X25. In the report of a successful analysis the notes of a layer of
    a stage follow from its own instruction when this is neither a FROM
    nor a COPY: a RUN layer has the one note on cleaning up, an ARG
    layer the one note on build-time scope, an ADD layer the note on
    remote URLs when its arguments contain "http://" or "https://" and
    then the note on archives when they contain ".tar", and a layer of
    any other keyword has no note. *)
Theorem notes_follow_the_keyword (abs : result string) (file : result scan)
    (r : report) (i : nat) (st : stageReport) (l : layerReport) :
  analyzeDockerfile abs file = Ok r →
  Stages r !! i = Some st →
  l ∈ Layers st →
  (Keyword (Instruction l) = "RUN" →
   Notes l = ["Cleanup temp files within the same RUN to prevent them from sticking in the layer."])
  ∧ (Keyword (Instruction l) = "ARG" →
     Notes l = ["Only available during build; use ENV if the value is needed at runtime."])
  ∧ (Keyword (Instruction l) = "ADD" →
     Notes l =
       (if Contains (Args (Instruction l)) "http://"
           || Contains (Args (Instruction l)) "https://"
        then ["Remote URLs are downloaded at build time; network changes can invalidate cache."]
        else [])
       ++ (if Contains (Args (Instruction l)) ".tar"
           then ["Tar archives are auto-extracted, which can surprise caching when archive contents change."]
           else []))
  ∧ (Keyword (Instruction l) ∉ ["FROM"; "COPY"; "ADD"; "RUN"; "ARG"] →
     Notes l = []).
Proof.
  intros (b & Hb & ->)%analyzeDockerfile_Ok Hst Hl.
  apply analyzeDockerfile_builder_Ok in Hb
    as (fullPath & raws & insts & _ & _ & _ & Hrun).
  assert (Forall (λ st, Forall noted (Layers st)) (Stages (rep b))) as Hall.
  { eapply analyzeInstructions_noted; [apply wf_newBuilder | | exact Hrun].
    constructor. }
  pose proof (proj1 (Forall_forall _ _)
                (proj1 (Forall_lookup _ _) Hall _ _ Hst) l Hl) as Hnoted.
  repeat split.
  - intros Hk. destruct Hnoted as [Hf | [aliases ->]]; [congruence|].
    unfold keywordNotes. by rewrite Hk.
  - intros Hk. destruct Hnoted as [Hf | [aliases ->]]; [congruence|].
    unfold keywordNotes. by rewrite Hk.
  - intros Hk. destruct Hnoted as [Hf | [aliases ->]]; [congruence|].
    unfold keywordNotes. by rewrite Hk.
  - intros Hk. destruct Hnoted as [Hf | [aliases ->]].
    + exfalso. apply Hk. rewrite Hf. by left.
    + assert (∀ k, k ∈ ["FROM"; "COPY"; "ADD"; "RUN"; "ARG"] →
                String.eqb (Keyword (Instruction l)) k = false) as Hno.
      { intros k Hin. apply String.eqb_neq. intros Heq. apply Hk. by rewrite Heq. }
      unfold keywordNotes.
      by rewrite (Hno "COPY"), (Hno "ADD"), (Hno "RUN"), (Hno "ARG") by set_solver.
Qed.

End NotesFacts.

(** ** The line assembler, line by line *)

Lemma readLine_skipped (n : Z) (text : string) (a : assembler) :
  skippedLine text = true → readLine n text a = a.
Proof.
  unfold skippedLine, lineContent, readLine. intros Hs.
  destruct (String.eqb (TrimSpace text) EmptyString || HasPrefix (TrimSpace text) "#");
    [done|].
  simpl in Hs. by rewrite Hs.
Qed.

Lemma skippedLine_false (text : string) :
  skippedLine text = false →
  String.eqb (TrimSpace text) EmptyString || HasPrefix (TrimSpace text) "#" = false
  ∧ String.eqb (lineContent text) EmptyString = false.
Proof. unfold skippedLine. by intros [? ?]%orb_false_iff. Qed.

(** A line that closes an instruction. *)
Lemma readLine_closes (n : Z) (text : string) (a : assembler) :
  skippedLine text = false → carriesOn text = false →
  readLine n text a =
  {| instructions :=
       instructions a ++
       [ {| line := if String.eqb (current a) EmptyString then n else currentLine a;
            text := if String.eqb (current a) EmptyString then lineContent text
                    else current a +:+ " " +:+ lineContent text |} ];
     current := EmptyString;
     currentLine := if String.eqb (current a) EmptyString then n else currentLine a |}.
Proof.
  intros [H1 H2]%skippedLine_false Hc. unfold carriesOn in Hc.
  unfold readLine. fold (lineContent text). rewrite H1, H2.
  unfold stripContinuation. rewrite Hc, strlen_zero.
  destruct (String.eqb_spec (current a) EmptyString) as [->|]; cbn; [done|].
  by rewrite append_assoc.
Qed.

(** A line that carries on. *)
Lemma readLine_carries (n : Z) (text : string) (a : assembler) :
  skippedLine text = false → carriesOn text = true →
  readLine n text a =
  {| instructions := instructions a;
     current := if String.eqb (current a) EmptyString then carriedPart text
                else current a +:+ " " +:+ carriedPart text;
     currentLine := if String.eqb (current a) EmptyString then n else currentLine a |}.
Proof.
  intros [H1 H2]%skippedLine_false Hc. unfold carriesOn in Hc.
  unfold readLine. fold (lineContent text). rewrite H1, H2.
  unfold stripContinuation. rewrite Hc, strlen_zero. fold (carriedPart text).
  destruct (String.eqb_spec (current a) EmptyString) as [->|]; cbn; [done|].
  by rewrite append_assoc.
Qed.

(** X12. [stripContinuation] takes one backslash off the end of a line
    that has one, trims what is left and reports that the line carries
    on; a line that does not end with a backslash is returned as it
    is. *)
Theorem stripContinuation_rule (line : string) :
  (∀ s, line = s +:+ backslash → stripContinuation line = (TrimSpace s, true))
  ∧ ((∀ s, line ≠ s +:+ backslash) → stripContinuation line = (line, false)).
Proof.
  unfold stripContinuation. split.
  - intros s ->. rewrite (proj2 (HasSuffix_iff _ _)) by (by exists s).
    by rewrite TrimSuffix_append.
  - intros Hno. destruct (HasSuffix line backslash) eqn:E; [|done].
    apply HasSuffix_iff in E as [t ->]. by destruct (Hno t).
Qed.

(** ** Files without continuation *)

Lemma readLines_plain (n : Z) (lines : list string) (a : assembler) :
  current a = EmptyString →
  Forall (λ text, skippedLine text = true ∨ carriesOn text = false) lines →
  ∃ k, readLines n lines a =
       {| instructions := instructions a ++ plainInstructions n lines;
          current := EmptyString; currentLine := k |}.
Proof.
  intros Hcur Hall. revert n a Hcur.
  induction Hall as [|text lines Ht _ IH]; intros n a Hcur; cbn [readLines plainInstructions].
  - exists (currentLine a). rewrite app_nil_r. destruct a. by simpl in Hcur; subst.
  - destruct (skippedLine text) eqn:Hs.
    + rewrite readLine_skipped by done. apply IH. done.
    + destruct Ht as [|Hc]; [done|].
      rewrite readLine_closes by done. rewrite Hcur. cbn.
      destruct (IH (n + 1) {| instructions := instructions a ++
                                 [ {| line := n; text := lineContent text |} ];
                              current := EmptyString; currentLine := n |} eq_refl)
        as [k Hk].
      exists k. rewrite Hk. cbn. by rewrite <- app_assoc.
Qed.

(** X13. For a file that opens and scans without error and in which no
    line carries on, [readInstructions] returns one instruction for each
    line that is not skipped (blank, comment, or empty once its inline
    comment is removed), in order: its line is the number of that
    physical line, counted from 1 over all lines, and its text is the
    line trimmed and without its inline comment. *)
Theorem readInstructions_without_continuation (lines : list string) :
  Forall (λ text, skippedLine text = true ∨ carriesOn text = false) lines →
  readInstructions (Ok {| scanned := lines; scanErr := None |})
  = Ok (plainInstructions 1 lines).
Proof.
  intros Hall. unfold readInstructions. cbn [scanned scanErr].
  destruct (readLines_plain 1 lines
              {| instructions := []; current := EmptyString; currentLine := 0 |}
              eq_refl Hall) as [k ->].
  reflexivity.
Qed.

Lemma plainInstructions_skipped (n : Z) (lines : list string) :
  Forall (λ text, skippedLine text = true) lines → plainInstructions n lines = [].
Proof.
  intros Hall. revert n. induction Hall as [|text lines Hs _ IH]; intros n; [done|].
  cbn [plainInstructions]. by rewrite Hs, IH.
Qed.

Section EmptyInput.
Context `{UnicodeText}.

(** X14. A file that holds blank lines and comments only (or no line at
    all) is refused: the analysis fails with "no Dockerfile instructions
    found in" and the absolute path. *)
Theorem file_without_instructions_is_refused (fullPath : string)
    (lines : list string) :
  Forall (λ text, skippedLine text = true) lines →
  analyzeDockerfile (Ok fullPath) (Ok {| scanned := lines; scanErr := None |})
  = Err ("no Dockerfile instructions found in " +:+ fullPath).
Proof.
  intros Hall.
  assert (readInstructions (Ok {| scanned := lines; scanErr := None |}) = Ok [])
    as Hread.
  { unfold readInstructions. cbn [scanned scanErr].
    destruct (readLines_plain 1 lines
                {| instructions := []; current := EmptyString; currentLine := 0 |}
                eq_refl) as [k ->].
    - eapply Forall_impl; [exact Hall|]. intros text ?. by left.
    - cbn. by rewrite plainInstructions_skipped. }
  unfold analyzeDockerfile, analyzeDockerfile_builder. by rewrite Hread.
Qed.

End EmptyInput.

(** ** Continuations *)

Lemma readLines_inside (n : Z) (middle : list string) (closing : string)
    (a : assembler) :
  current a ≠ EmptyString →
  Forall (λ text, skippedLine text = true ∨ carriesOn text = true) middle →
  skippedLine closing = false → carriesOn closing = false →
  readLines n (middle ++ [closing]) a =
  {| instructions :=
       instructions a ++
       [ {| line := currentLine a;
            text := current a +:+ " "
                    +:+ joinSpace (carriedParts middle ++ [lineContent closing]) |} ];
     current := EmptyString;
     currentLine := currentLine a |}.
Proof.
  intros Hcur Hall Hs Hc. revert n a Hcur.
  induction Hall as [|text middle Ht _ IH]; intros n a Hcur;
    cbn [app readLines carriedParts].
  - rewrite readLine_closes by done.
    by rewrite (proj2 (String.eqb_neq _ _) Hcur).
  - destruct (skippedLine text) eqn:Hst.
    + rewrite readLine_skipped by done. by apply IH.
    + destruct Ht as [|Hct]; [done|].
      rewrite readLine_carries by done.
      rewrite (proj2 (String.eqb_neq _ _) Hcur).
      rewrite IH by (cbn [current]; apply append_not_empty; done).
      cbn [instructions current currentLine app]. do 3 f_equal.
      rewrite !append_assoc. do 2 f_equal.
      destruct (carriedParts middle ++ [lineContent closing]) eqn:E; [|done].
      by destruct (carriedParts middle).
Qed.

(** X15. A line that carries on with a part that is not empty, then
    lines that carry on or are skipped, then a line that closes, make one
    instruction when the accumulator is empty: it has the number of the
    first of these lines, and its text is the parts of the lines that are
    not skipped, in order, with one space between them.  The instructions
    read before stay. *)
Theorem continuation_makes_one_instruction (n : Z) (first : string)
    (middle : list string) (closing : string) (a : assembler) :
  current a = EmptyString →
  skippedLine first = false → carriesOn first = true →
  carriedPart first ≠ EmptyString →
  Forall (λ text, skippedLine text = true ∨ carriesOn text = true) middle →
  skippedLine closing = false → carriesOn closing = false →
  readLines n (first :: middle ++ [closing]) a =
  {| instructions :=
       instructions a ++
       [ {| line := n;
            text := joinSpace (carriedPart first :: carriedParts middle
                               ++ [lineContent closing]) |} ];
     current := EmptyString;
     currentLine := n |}.
Proof.
  intros Hcur Hs1 Hc1 Hp1 Hall Hs Hc. cbn [readLines].
  rewrite readLine_carries by done. rewrite Hcur. cbn [String.eqb].
  rewrite readLines_inside by done.
  cbn [instructions current currentLine]. do 3 f_equal.
  cbn [joinSpace]. destruct (carriedParts middle ++ [lineContent closing]) eqn:E; [|done].
  by destruct (carriedParts middle).
Qed.

(** ** Line numbers *)

Lemma increasing_snoc (raws : list rawInstruction) (r : rawInstruction) :
  increasing raws → Forall (λ r', line r' < line r) raws → increasing (raws ++ [r]).
Proof.
  intros Hinc Hall i j ri rj Hij Hi Hj.
  apply lookup_app_Some in Hj as [Hj | [Hge Hj]].
  - apply lookup_app_Some in Hi as [Hi | [Hge' _]]; [by eapply Hinc|].
    apply lookup_lt_Some in Hj. lia.
  - destruct (j - length raws)%nat as [|k] eqn:Ek; [|done]. injection Hj as <-.
    apply lookup_app_Some in Hi as [Hi | [Hge' _]]; [|lia].
    by eapply (proj1 (Forall_lookup _ _) Hall).
Qed.

Lemma lineContent_not_empty (text : string) :
  skippedLine text = false → lineContent text ≠ EmptyString.
Proof. intros [_ H2]%skippedLine_false. by apply String.eqb_neq. Qed.

Lemma readLine_ok (n : Z) (physical : string) (a : assembler) :
  1 ≤ n → assembler_ok n a → assembler_ok (n + 1) (readLine n physical a).
Proof.
  intros Hn [Hinc Hins Hopen].
  assert (Forall (λ r, 1 ≤ line r < n + 1 ∧ text r ≠ EmptyString) (instructions a))
    as Hins'.
  { eapply Forall_impl; [exact Hins|]. intros r [? ?]. split; [lia | done]. }
  destruct (skippedLine physical) eqn:Hs.
  { rewrite readLine_skipped by done. split; [done | done |].
    intros Hc. destruct (Hopen Hc) as [? ?]. split; [lia | done]. }
  pose proof (lineContent_not_empty _ Hs) as Hne.
  destruct (carriesOn physical) eqn:Hc.
  - rewrite readLine_carries by done.
    split; cbn [instructions current currentLine]; [done | done |].
    destruct (String.eqb_spec (current a) EmptyString) as [Hcur|Hcur].
    + intros _. split; [lia|].
      eapply Forall_impl; [exact Hins|]. intros r [? _]. lia.
    + intros _. destruct (Hopen Hcur) as [? ?]. split; [lia | done].
  - rewrite readLine_closes by done.
    split; cbn [instructions current currentLine]; [| |done].
    + apply increasing_snoc; [done|]. cbn [line].
      destruct (String.eqb_spec (current a) EmptyString) as [Hcur|Hcur].
      * eapply Forall_impl; [exact Hins|]. intros r [? _]. lia.
      * by destruct (Hopen Hcur).
    + apply Forall_app. split; [done|]. constructor; [|done]. cbn [line text].
      destruct (String.eqb_spec (current a) EmptyString) as [Hcur|Hcur].
      * split; [lia | done].
      * destruct (Hopen Hcur) as [? _]. split; [lia|].
        rewrite <- append_assoc. by apply append_not_empty_r.
Qed.

Lemma readLines_ok (n : Z) (lines : list string) (a : assembler) :
  1 ≤ n → assembler_ok n a → assembler_ok (n + len lines) (readLines n lines a).
Proof.
  revert n a. induction lines as [|text lines IH]; intros n a Hn Hok.
  - unfold len. simpl. by rewrite Z.add_0_r.
  - cbn [readLines]. replace (n + len (text :: lines)) with ((n + 1) + len lines)
      by (unfold len; cbn [length]; lia).
    apply IH; [lia|]. by apply readLine_ok.
Qed.

(** X16. The instructions [readInstructions] returns have texts that are
    not empty and line numbers that grow strictly, each between 1 and the
    number of lines scanned. *)
Theorem readInstructions_lines (f : scan) (raws : list rawInstruction) :
  readInstructions (Ok f) = Ok raws →
  (∀ i j ri rj, (i < j)%nat → raws !! i = Some ri → raws !! j = Some rj →
     line ri < line rj)
  ∧ Forall (λ r, 1 ≤ line r ≤ len (scanned f) ∧ text r ≠ EmptyString) raws.
Proof.
  unfold readInstructions. destruct (scanErr f); [done|].
  destruct (negb _); [done|]. intros [= <-].
  destruct (readLines_ok 1 (scanned f)
              {| instructions := []; current := EmptyString; currentLine := 0 |})
    as [Hinc Hins _]; [lia | by split; [intros i j ? ? ? [=] | constructor |] |].
  split; [exact Hinc|].
  eapply Forall_impl; [exact Hins|]. intros r [? ?]. split; [lia | done].
Qed.

(** ** The helpers of the tests *)

(** X17. [findLayer] returns the first layer of the stage whose
    instruction has the keyword, and nil exactly when no layer has it. *)
Theorem findLayer_first (stage : stageReport) (keyword : string) :
  match findLayer stage keyword with
  | Some layer =>
    ∃ k, Layers stage !! k = Some layer
         ∧ Keyword (Instruction layer) = keyword
         ∧ ∀ j l, (j < k)%nat → Layers stage !! j = Some l →
             Keyword (Instruction l) ≠ keyword
  | None => Forall (λ l, Keyword (Instruction l) ≠ keyword) (Layers stage)
  end.
Proof.
  unfold findLayer. induction (Layers stage) as [|layer rest IH]; cbn [findLayer_loop].
  - constructor.
  - destruct (String.eqb_spec (Keyword (Instruction layer)) keyword) as [Hk|Hk].
    + exists 0%nat. repeat split; try done. intros j l Hj. lia.
    + destruct (findLayer_loop rest keyword) as [found|].
      * destruct IH as (k & Hk1 & Hk2 & Hk3). exists (S k). repeat split; try done.
        intros [|j] l Hj; [by intros [= <-]|]. apply Hk3. lia.
      * by constructor.
Qed.

(** X18. [noteContains] holds exactly when the needle occurs in one of
    the notes. *)
Theorem noteContains_iff (notes : list string) (needle : string) :
  noteContains notes needle = true
  ↔ ∃ note before after, note ∈ notes ∧ note = before +:+ needle +:+ after.
Proof.
  induction notes as [|note rest IH]; cbn [noteContains].
  - split; [done|]. intros (n & _ & _ & Hin & _). by apply elem_of_nil in Hin.
  - destruct (Contains note needle) eqn:E.
    + split; [|done]. intros _. apply Contains_iff in E as (before & after & E).
      exists note, before, after. split; [by left | done].
    + rewrite IH. split.
      * intros (n & before & after & Hin & Hn). exists n, before, after.
        split; [by right | done].
      * intros (n & before & after & Hin & Hn).
        apply elem_of_cons in Hin as [-> | Hin].
        -- assert (Contains note needle = true) as E'
             by (apply Contains_iff; by exists before, after).
           congruence.
        -- by exists n, before, after.
Qed.

Section TestFacts.
Context `{UnicodeText}.

(** X19. In the report of a successful analysis [findLayer(stage,
    "FROM")] is never nil: it is the first layer of the stage. *)
Theorem findLayer_FROM (abs : result string) (file : result scan) (r : report)
    (i : nat) (st : stageReport) :
  analyzeDockerfile abs file = Ok r →
  Stages r !! i = Some st →
  findLayer st "FROM" = head (Layers st) ∧ findLayer st "FROM" ≠ None.
Proof.
  intros (b & Hwf & ->)%analyzeDockerfile_wf Hst.
  destruct (ok_first _ _ (wf_stages _ Hwf _ _ Hst)) as (l0 & rest & HL & _ & _ & Hk & _).
  unfold findLayer. rewrite HL. cbn [findLayer_loop head]. by rewrite Hk.
Qed.

(** X20. When [detectCopySourceStage] finds a reference and the alias
    table has an entry for it, lowercased, the notes of [copyNotes]
    contain "stage <index> (<reference>)", which is what the package's
    test looks for with [noteContains]. *)
Theorem copyNotes_names_the_stage (args : string) (aliases : gmap string Z) (idx : Z) :
  detectCopySourceStage args ≠ EmptyString →
  aliases !! ToLower (detectCopySourceStage args) = Some idx →
  noteContains (copyNotes args aliases)
    ("stage " +:+ pretty idx +:+ " (" +:+ detectCopySourceStage args +:+ ")") = true.
Proof.
  intros Hne Hidx. unfold copyNotes.
  rewrite (proj2 (String.eqb_neq _ _) Hne), Hidx. cbn [noteContains].
  rewrite (proj2 (Contains_iff _ _)); [done|].
  exists "Copies from ", ". Cache depends on that stage's output instead of local files.".
  rewrite !append_assoc. reflexivity.
Qed.

(** ** The notes of the global layers *)

Lemma analyzeInstructions_global_notes (insts : list parsedInstruction)
    (b b' : builder) :
  Forall (λ l, ∃ inst n, l = withNumber n (globalLayer inst)) (Global (rep b)) →
  analyzeInstructions insts b = Ok b' →
  Forall (λ l, ∃ inst n, l = withNumber n (globalLayer inst)) (Global (rep b')).
Proof.
  revert b. induction insts as [|inst rest IH]; intros b Hall; simpl.
  - by intros [= <-].
  - destruct (analyzeInstruction b inst) as [b1|] eqn:E; [|done].
    apply IH. unfold analyzeInstruction in E.
    destruct (String.eqb (Keyword inst) EmptyString); [by injection E as <-|].
    destruct (String.eqb (Keyword inst) "FROM").
    { unfold analyzeFrom in E. destruct (parseFrom (Args inst)) as [base alias].
      destruct (String.eqb base EmptyString); [done|]. by injection E as <-. }
    destruct (stageIndex b =? -1).
    + apply analyzeGlobal_Ok in E as (_ & -> & _).
      apply Forall_app. split; [done|]. constructor; [|done]. by eexists inst, _.
    + unfold analyzeInStage in E. by injection E as <-.
Qed.

(** X21. Every layer of [report.global] is the layer of an ARG
    instruction with effect BuildArg and one note, that the ARG applies
    globally; [noteContains] finds "applies globally" in it, as the
    package's test expects. *)
Theorem global_layers_are_ARGs (abs : result string) (file : result scan)
    (r : report) (l : layerReport) :
  analyzeDockerfile abs file = Ok r →
  l ∈ Global r →
  Keyword (Instruction l) = "ARG"
  ∧ Effect l = effectBuildArg
  ∧ Notes l = ["This ARG applies globally and can be referenced in the first FROM."]
  ∧ noteContains (Notes l) "applies globally" = true.
Proof.
  intros Hrun Hl.
  destruct (analyzeDockerfile_wf _ _ _ Hrun) as (b & Hwf & ->).
  destruct (proj1 (Forall_forall _ _) (wf_global _ Hwf) l Hl) as [He Hk].
  apply analyzeDockerfile_Ok in Hrun as (b' & Hb & Hrep).
  apply analyzeDockerfile_builder_Ok in Hb
    as (fullPath & raws & insts & _ & _ & _ & Hrun).
  assert (Forall (λ l, ∃ inst n, l = withNumber n (globalLayer inst))
            (Global (rep b'))) as Hall.
  { eapply analyzeInstructions_global_notes; [|exact Hrun]. constructor. }
  rewrite Hrep in Hl.
  destruct (proj1 (Forall_forall _ _) Hall l Hl) as (inst & n & ->).
  do 3 (split; [done|]). by vm_compute.
Qed.

(** ** The alias table, key by key *)

Lemma analyzeDockerfile_builder_aliases_ok (abs : result string)
    (file : result scan) (b : builder) :
  analyzeDockerfile_builder abs file = Ok b → aliases_ok b.
Proof.
  intros (fullPath & raws & insts & _ & _ & _ & Hrun)%analyzeDockerfile_builder_Ok.
  eapply analyzeInstructions_aliases_ok; [apply wf_newBuilder | | exact Hrun].
  intros key. simpl. rewrite lookup_empty. by intros [|j] name.
Qed.

(** X22. After a successful analysis the keys of the alias table are
    exactly the lowercased aliases and the decimal indices of the
    stages, and every entry is the index of a stage of the report that
    wrote that key. *)
Theorem alias_table_keys (abs : result string) (file : result scan) (b : builder)
    (key : string) :
  analyzeDockerfile_builder abs file = Ok b →
  (is_Some (stageAliases b !! key)
   ↔ ∃ j st, Stages (rep b) !! j = Some st ∧ registers j (Name (Stage st)) key)
  ∧ ∀ idx, stageAliases b !! key = Some idx →
      ∃ j st, idx = Z.of_nat j ∧ Stages (rep b) !! j = Some st
              ∧ registers j (Name (Stage st)) key.
Proof.
  intros Hok%analyzeDockerfile_builder_aliases_ok. specialize (Hok key).
  assert (∀ j name, stageNames (rep b) !! j = Some name →
            ∃ st, Stages (rep b) !! j = Some st ∧ name = Name (Stage st)) as Hnames.
  { intros j name Hj. unfold stageNames in Hj. rewrite list_lookup_fmap in Hj.
    destruct (Stages (rep b) !! j) as [st|]; [|done]. injection Hj as <-. by exists st. }
  destruct (stageAliases b !! key) as [idx|].
  - destruct Hok as (j & -> & (name & Hj & Hreg) & _).
    destruct (Hnames j name Hj) as (st & Hst & ->).
    split.
    + split; [intros _; by exists j, st | by eexists].
    + intros idx [= <-]. by exists j, st.
  - split; [|done]. split; [by intros [? ?]|].
    intros (j & st & Hst & Hreg). exfalso. eapply (Hok j); [|done].
    unfold stageNames. by rewrite list_lookup_fmap, Hst.
Qed.

(** X23. A numeric reference reaches its stage unless an alias takes its
    place: for every stage [i] of a successful analysis, if no stage
    declared an alias whose lowercased form is the decimal string of [i],
    the alias table maps that string to [i]. *)
Theorem numeric_reference_is_stable (abs : result string) (file : result scan)
    (b : builder) (i : nat) (st : stageReport) :
  analyzeDockerfile_builder abs file = Ok b →
  Stages (rep b) !! i = Some st →
  (∀ j stj, Stages (rep b) !! j = Some stj → Name (Stage stj) ≠ EmptyString →
     ToLower (Name (Stage stj)) ≠ pretty (Z.of_nat i)) →
  stageAliases b !! pretty (Z.of_nat i) = Some (Z.of_nat i).
Proof.
  intros Hok%analyzeDockerfile_builder_aliases_ok Hst Hno.
  specialize (Hok (pretty (Z.of_nat i))).
  assert (stageNames (rep b) !! i = Some (Name (Stage st))) as Hi
    by (unfold stageNames; by rewrite list_lookup_fmap, Hst).
  destruct (stageAliases b !! pretty (Z.of_nat i)) as [idx|].
  - destruct Hok as (j & -> & (name & Hj & Hreg) & _). do 2 f_equal.
    destruct Hreg as [[Hne Hlow] | Hp].
    + exfalso. unfold stageNames in Hj. rewrite list_lookup_fmap in Hj.
      destruct (Stages (rep b) !! j) as [stj|] eqn:Hstj; [|done].
      injection Hj as <-. by eapply (Hno j stj).
    + apply (inj pretty) in Hp. lia.
  - exfalso. eapply (Hok i); [done|]. by right.
Qed.

End TestFacts.

(** * Examples on concrete Dockerfiles *)

Module Examples.
Import AsciiText Inputs.

(** Scenario A: two filesystem layers, two metadata steps, no build
    argument, five layers. *)
Lemma counts_round_trip_witness :
  analyzeDockerfile srcDockerfile (textFile scenarioA) = Ok scenarioA_report
  ∧ ∃ st, Stages scenarioA_report !! 0%nat = Some st
          ∧ FsLayers st = 2 ∧ MetadataLayers st = 2 ∧ BuildArgs st = 0
          ∧ len (Layers st) = FsLayers st + MetadataLayers st + BuildArgs st + 1
          ∧ FsLayers st = counted effectFilesystem (Layers st).
Proof.
  assert (analyzeDockerfile srcDockerfile (textFile scenarioA) = Ok scenarioA_report) as Hrun
    by (vm_compute; reflexivity).
  split; [exact Hrun|].
  eexists. split; [reflexivity|].
  destruct (counts_round_trip srcDockerfile (textFile scenarioA) scenarioA_report 0 _
              Hrun eq_refl) as (Hfs & _ & _ & Htot & _).
  do 3 (split; [reflexivity|]). split; [exact Htot | exact Hfs].
Defined.

(** Scenario B: three FROM instructions, three stages. *)
Lemma stages_follow_FROMs_witness :
  readInstructions (textFile scenarioB) = Ok scenarioB_raws
  ∧ parseInstructions scenarioB_raws = Ok scenarioB_insts
  ∧ analyzeDockerfile srcDockerfile (textFile scenarioB) = Ok scenarioB_report
  ∧ len (Stages scenarioB_report) = 3
  ∧ ∀ i st, Stages scenarioB_report !! i = Some st → Index (Stage st) = Z.of_nat i.
Proof.
  assert (readInstructions (textFile scenarioB) = Ok scenarioB_raws) as Hread
    by (vm_compute; reflexivity).
  assert (parseInstructions scenarioB_raws = Ok scenarioB_insts) as Hparse
    by (vm_compute; reflexivity).
  assert (analyzeDockerfile srcDockerfile (textFile scenarioB) = Ok scenarioB_report) as Hrun
    by (vm_compute; reflexivity).
  do 3 (split; [assumption|]).
  destruct (stages_follow_FROMs srcDockerfile (textFile scenarioB) scenarioB_raws
              scenarioB_insts scenarioB_report Hread Hparse Hrun) as [Hlen Hidx].
  split; [exact Hlen | exact Hidx].
Defined.

Lemma stage_start_is_first_layer_witness :
  analyzeDockerfile srcDockerfile (textFile scenarioB) = Ok scenarioB_report
  ∧ Forall (λ l, Effect l ≠ effectStageStart) (Global scenarioB_report)
  ∧ ∀ i st, Stages scenarioB_report !! i = Some st →
      ∃ l0 rest,
        Layers st = l0 :: rest ∧ Number l0 = 1 ∧ Effect l0 = effectStageStart
        ∧ Keyword (Instruction l0) = "FROM"
        ∧ Forall (λ l, Effect l ≠ effectStageStart) rest.
Proof.
  assert (analyzeDockerfile srcDockerfile (textFile scenarioB) = Ok scenarioB_report) as Hrun
    by (vm_compute; reflexivity).
  split; [exact Hrun|].
  destruct (stage_start_is_first_layer srcDockerfile (textFile scenarioB) scenarioB_report
              Hrun) as [Hstages Hglobal].
  split; [exact Hglobal | exact Hstages].
Defined.

Lemma sameAlias_stage0 :
  ∃ st, Stages (rep sameAlias_builder) !! 0%nat = Some st ∧ Name (Stage st) = "build".
Proof. eexists. split; [vm_compute; reflexivity | reflexivity]. Qed.

(** C3 as stated fails: stage 0 declared the alias [build], and the
    table gives stage 1 for it. *)
Lemma alias_write_once_counterexample :
  analyzeDockerfile_builder srcDockerfile (textFile sameAlias) = Ok sameAlias_builder
  ∧ ¬ alias_write_once sameAlias_builder.
Proof.
  split; [vm_compute; reflexivity|].
  intros Hclaim. destruct sameAlias_stage0 as (st & Hst & Hname).
  specialize (Hclaim 0%nat st Hst). rewrite Hname in Hclaim.
  specialize (Hclaim ltac:(discriminate)).
  vm_compute in Hclaim. discriminate.
Qed.

Lemma alias_table_last_wins_witness :
  analyzeDockerfile_builder srcDockerfile (textFile sameAlias) = Ok sameAlias_builder
  ∧ ∃ st, Stages (rep sameAlias_builder) !! 0%nat = Some st
          ∧ Name (Stage st) = "build"
          ∧ ∃ j, stageAliases sameAlias_builder !! ToLower (Name (Stage st))
                 = Some (Z.of_nat j)
                 ∧ (0 ≤ j)%nat
                 ∧ last_registered (stageNames (rep sameAlias_builder))
                     (ToLower (Name (Stage st))) j.
Proof.
  assert (analyzeDockerfile_builder srcDockerfile (textFile sameAlias) = Ok sameAlias_builder)
    as Hrun by (vm_compute; reflexivity).
  split; [exact Hrun|].
  destruct sameAlias_stage0 as (st & Hst & Hname).
  exists st. split; [exact Hst|]. split; [exact Hname|].
  apply (alias_table_last_wins srcDockerfile (textFile sameAlias) sameAlias_builder 0 st
           Hrun Hst).
  rewrite Hname. discriminate.
Defined.

Lemma only_ARG_before_first_FROM_witness :
  analyzeInstructions ([argVersion] ++ [fromAlpine]) (newBuilder "/src/Dockerfile")
  = Ok argThenFrom
  ∧ map Instruction (Global (rep argThenFrom)) = [argVersion]
  ∧ analyzeInstructions ([argVersion; runFirst] ++ [fromAlpine])
      (newBuilder "/src/Dockerfile")
    = Err "line 2: Dockerfile must start with FROM (found RUN)".
Proof.
  assert (∃ from rest', [fromAlpine] = from :: rest' ∧ Keyword from = "FROM") as Hrest
    by (by exists fromAlpine, []).
  assert (analyzeInstructions ([argVersion] ++ [fromAlpine])
            (newBuilder "/src/Dockerfile") = Ok argThenFrom) as Hrun
    by (vm_compute; reflexivity).
  split; [exact Hrun|]. split.
  - assert (Forall (λ inst, Keyword inst ≠ "FROM") [argVersion]) as Hpre
      by (repeat constructor; discriminate).
    destruct (only_ARG_before_first_FROM "/src/Dockerfile" [argVersion] [fromAlpine]
                Hpre (or_intror Hrest)) as [Hglobal _].
    by destruct (Hglobal argThenFrom Hrun) as [-> _].
  - assert (Forall (λ inst, Keyword inst ≠ "FROM") [argVersion; runFirst]) as Hpre
      by (repeat constructor; discriminate).
    destruct (only_ARG_before_first_FROM "/src/Dockerfile" [argVersion; runFirst]
                [fromAlpine] Hpre (or_intror Hrest)) as [_ Hfail].
    apply (Hfail [argVersion] runFirst []); [reflexivity | | discriminate | discriminate].
    repeat constructor.
Defined.

Lemma inStage0_aligned : aligned inStage0 ∧ 0 ≤ stageIndex inStage0.
Proof. split; [by vm_compute | by vm_compute]. Qed.

(** A reference in capitals to the alias [base] of stage 0. *)
Lemma COPY_note_witness :
  ∃ b' st layer,
    analyzeInstruction inStage0 copyFromBase = Ok b'
    ∧ Stages (rep b') !! 0%nat = Some st
    ∧ last (Layers st) = Some layer
    ∧ Notes layer =
      ["Copies from stage 0 (BASE). Cache depends on that stage's output instead of local files."].
Proof.
  destruct inStage0_aligned as [Hal Hge].
  destruct (COPY_note inStage0 copyFromBase Hal Hge eq_refl)
    as (b' & st & layer & Hrun & Hst & Hlast & _ & Href & _).
  exists b', st, layer. do 3 (split; [assumption|]).
  destruct (Href [] "BASE" ["/src"; "/src"]) as [Hnote _].
  - constructor.
  - left. split; [by vm_compute | discriminate].
  - apply (Hnote 0). by vm_compute.
Defined.

Lemma FROM_base_and_alias_witness :
  (∃ b' st,
     analyzeInstruction (newBuilder "/src/Dockerfile") fromAlpine = Ok b'
     ∧ last (Stages (rep b')) = Some st
     ∧ Base (Stage st) = "alpine:3.18" ∧ Name (Stage st) = "build")
  ∧ analyzeInstruction (newBuilder "/src/Dockerfile") fromNothing
    = Err "line 7: FROM instruction missing base image".
Proof.
  split.
  - destruct (FROM_base_and_alias (newBuilder "/src/Dockerfile") fromAlpine
                eq_refl eq_refl) as [Hbase _].
    destruct (Hbase ["--platform=linux/amd64"] "alpine:3.18" ["as"; "build"])
      as (b' & st & Hrun & Hlast & HB & HN & _).
    + by vm_compute.
    + by repeat constructor.
    + reflexivity.
    + exists b', st. do 3 (split; [assumption|]).
      by apply (HN "as" "build" []).
  - destruct (FROM_base_and_alias (newBuilder "/src/Dockerfile") fromNothing
                eq_refl eq_refl) as [_ Hfail].
    apply Hfail. by vm_compute; repeat constructor.
Defined.

Lemma unknown_keyword_is_metadata_witness :
  instructionDescriptors !! "CHECKPOINT" = None
  ∧ descEffect (descriptorFor "CHECKPOINT") = effectMetadata
  ∧ ∃ b', analyzeInstruction inStage0 checkpoint = Ok b'.
Proof.
  assert (instructionDescriptors !! "CHECKPOINT" = None) as Hnone
    by (vm_compute; reflexivity).
  split; [exact Hnone|].
  destruct (unknown_keyword_is_metadata "CHECKPOINT" Hnone) as [Hdesc Hrun].
  split; [by rewrite Hdesc|].
  apply Hrun; [reflexivity|]. by vm_compute.
Defined.

(** *** Where the line assembler departs from its specification *)

(** C7 does not hold of the code.  The last line of [loneBackslash] ends
    with a backslash, so the input ends inside a continuation; yet
    [readInstructions] returns the instructions read so far instead of
    "unterminated line continuation at end of file", and the analysis
    returns a report.  The test at the end of [readInstructions] looks at
    the length of the text gathered, which is zero here. *)
Lemma lone_backslash_is_accepted :
  stripContinuation backslash = (EmptyString, true)
  ∧ readInstructions (textFile loneBackslash) = Ok [ {| line := 1; text := "FROM alpine:3.18" |} ]
  ∧ ∃ r, analyzeDockerfile srcDockerfile (textFile loneBackslash) = Ok r
         ∧ len (Stages r) = 1.
Proof.
  split; [by vm_compute|]. split; [by vm_compute|].
  eexists (reportOf (analyzeDockerfile srcDockerfile (textFile loneBackslash))).
  split; by vm_compute.
Qed.

(** With text before the backslash the same file is refused (scenario D
    of the specification). *)
Lemma dangling_continuation_is_refused :
  analyzeDockerfile srcDockerfile (textFile ["FROM alpine:3.18"; "RUN foo " +:+ backslash])
  = Err "unterminated line continuation at end of file".
Proof. by vm_compute. Qed.

(** C6 does not hold of the code.  In [labelLine] the hash sign is inside
    a token: it follows the letter U+00E0, which is no white space (the
    line has the two fields shown).  [removeInlineComment] tests the byte
    before the hash sign, 0xA0, the last byte of that letter, as if it
    were the code point U+00A0, a white space, and drops the rest of the
    token. *)
Lemma hash_inside_token_is_cut :
  TrimSpace labelLine = labelLine
  ∧ Fields labelLine = ["LABEL"; "greeting=voil" +:+ a_grave +:+ "#1"]
  ∧ DecodeLastRuneInString ("LABEL greeting=voil" +:+ a_grave) = (0xE0%N, 2%nat)
  ∧ IsSpace 0xE0%N = false
  ∧ removeInlineComment labelLine = "LABEL greeting=voil" +:+ a_grave
  ∧ readInstructions (textFile [labelLine])
    = Ok [ {| line := 1; text := "LABEL greeting=voil" +:+ a_grave |} ].
Proof. repeat split; by vm_compute. Qed.

(** The other way round, a hash sign after an em space starts no
    comment, although [strings.Fields] splits the line at that space. *)
Lemma hash_after_em_space_is_kept :
  Fields ("RUN make" +:+ em_space +:+ "# build") = ["RUN"; "make"; "#"; "build"]
  ∧ removeInlineComment ("RUN make" +:+ em_space +:+ "# build")
    = "RUN make" +:+ em_space +:+ "# build".
Proof. split; by vm_compute. Qed.

(** On a line of ASCII text the hash sign inside a URL stays, and the
    comment after a space goes. *)
Lemma hash_in_url_is_kept :
  removeInlineComment "ADD http://host/page#top /page # the docs"
  = "ADD http://host/page#top /page".
Proof. by vm_compute. Qed.

End Examples.

(** * More examples *)

Module MoreExamples.
Import AsciiText Inputs MoreInputs.

Lemma scenarioB_runs :
  readInstructions (textFile scenarioB) = Ok scenarioB_raws
  ∧ parseInstructions scenarioB_raws = Ok scenarioB_insts
  ∧ analyzeDockerfile srcDockerfile (textFile scenarioB) = Ok scenarioB_report
  ∧ analyzeDockerfile_builder srcDockerfile (textFile scenarioB) = Ok scenarioB_builder.
Proof. repeat split; vm_compute; reflexivity. Qed.

Lemma builderStage_lookup : Stages scenarioB_report !! 1%nat = Some builderStage.
Proof. vm_compute. reflexivity. Qed.

Lemma ensureStage_fills_slots_witness :
  len (Stages (ensureStage scenarioA_report 3)) = 4
  ∧ Stages (ensureStage scenarioA_report 3) !! 0%nat = Stages scenarioA_report !! 0%nat.
Proof.
  destruct (ensureStage_fills_slots scenarioA_report 3 ltac:(lia)) as (Hlen & Hold & _).
  split; [exact Hlen|].
  destruct (Stages scenarioA_report !! 0%nat) as [st|] eqn:Hst; [|by vm_compute in Hst].
  exact (Hold 0%nat st Hst).
Defined.

Lemma one_layer_per_instruction_witness :
  map Instruction (layersInOrder scenarioB_report) = scenarioB_insts.
Proof.
  destruct scenarioB_runs as (Hread & Hparse & Hrun & _).
  rewrite (one_layer_per_instruction srcDockerfile (textFile scenarioB) scenarioB_raws
             scenarioB_insts scenarioB_report Hread Hparse Hrun).
  vm_compute. reflexivity.
Defined.

Lemma layers_carry_their_descriptor_witness :
  ∃ l, layersInOrder scenarioB_report !! 3%nat = Some l
       ∧ Keyword (Instruction l) = "COPY"
       ∧ Effect l = descEffect (descriptorFor "COPY").
Proof.
  destruct scenarioB_runs as (_ & _ & Hrun & _).
  destruct (layersInOrder scenarioB_report !! 3%nat) as [l|] eqn:Hl;
    [|by vm_compute in Hl].
  exists l. split; [done|].
  assert (Keyword (Instruction l) = "COPY") as Hkw
    by (vm_compute in Hl; by injection Hl as <-).
  split; [exact Hkw|].
  destruct (layers_carry_their_descriptor srcDockerfile (textFile scenarioB)
              scenarioB_report l Hrun (list_elem_of_lookup_2 _ _ _ Hl)) as [He _].
  by rewrite Hkw in He.
Defined.

Lemma layer_numbers_are_positions_witness :
  ∃ l, Layers builderStage !! 2%nat = Some l ∧ Number l = 3.
Proof.
  destruct scenarioB_runs as (_ & _ & Hrun & _).
  destruct (layer_numbers_are_positions srcDockerfile (textFile scenarioB)
              scenarioB_report Hrun) as [_ Hnum].
  destruct (Layers builderStage !! 2%nat) as [l|] eqn:Hl; [|by vm_compute in Hl].
  exists l. split; [reflexivity|].
  exact (Hnum 1%nat builderStage 2%nat l builderStage_lookup Hl).
Defined.

Lemma parseFrom_sound_witness :
  parseFrom fromArgs = ("alpine:3.18", "build")
  ∧ ∃ flags rest,
      Fields fromArgs = flags ++ "alpine:3.18" :: rest
      ∧ Forall is_flag flags
      ∧ HasPrefix "alpine:3.18" "--" = false
      ∧ ("build" = EmptyString
         ∨ ∃ t rest', rest = t :: "build" :: rest' ∧ EqualFold t "AS" = true).
Proof.
  assert (parseFrom fromArgs = ("alpine:3.18", "build")) as Hpf
    by (vm_compute; reflexivity).
  split; [exact Hpf|].
  apply (parseFrom_sound fromArgs "alpine:3.18" "build" Hpf). discriminate.
Defined.

Lemma stage_repeats_its_FROM_witness :
  ∃ st l0,
    Stages scenarioB_report !! 1%nat = Some st
    ∧ head (Layers st) = Some l0
    ∧ parseFrom (Args (Instruction l0)) = ("base", "builder")
    ∧ Base (Stage st) = "base" ∧ Name (Stage st) = "builder".
Proof.
  destruct scenarioB_runs as (_ & _ & Hrun & _).
  assert (∃ st, Stages scenarioB_report !! 1%nat = Some st
                ∧ Base (Stage st) = "base" ∧ Name (Stage st) = "builder")
    as (st & Hst & HB & HN).
  { eexists. split; [vm_compute; reflexivity|]. split; reflexivity. }
  destruct (stage_repeats_its_FROM srcDockerfile (textFile scenarioB) scenarioB_report
              1 st Hrun Hst) as (l0 & Hhd & _ & Hpf & _).
  rewrite HB, HN in Hpf.
  exists st, l0. exact (conj Hst (conj Hhd (conj Hpf (conj HB HN)))).
Defined.

Lemma report_has_the_absolute_path_witness :
  srcDockerfile = Ok (FilePath scenarioA_report).
Proof.
  apply (report_has_the_absolute_path srcDockerfile (textFile scenarioA)).
  vm_compute. reflexivity.
Defined.

Lemma longer_stream_extends_report_witness :
  analyzeInstructions firstTwoStages (newBuilder "/src/Dockerfile") = Ok afterTwoStages
  ∧ analyzeInstructions (firstTwoStages ++ lastStage) (newBuilder "/src/Dockerfile")
    = Ok scenarioB_builder
  ∧ Stages (rep scenarioB_builder) !! 0%nat = Stages (rep afterTwoStages) !! 0%nat.
Proof.
  assert (analyzeInstructions firstTwoStages (newBuilder "/src/Dockerfile")
          = Ok afterTwoStages) as H1 by (vm_compute; reflexivity).
  assert (analyzeInstructions (firstTwoStages ++ lastStage) (newBuilder "/src/Dockerfile")
          = Ok scenarioB_builder) as H2 by (vm_compute; reflexivity).
  do 2 (split; [assumption|]).
  destruct (longer_stream_extends_report "/src/Dockerfile" firstTwoStages lastStage
              afterTwoStages scenarioB_builder H1 H2) as [_ Hstages].
  destruct (Stages (rep afterTwoStages) !! 0%nat) as [st|] eqn:Hst;
    [|by vm_compute in Hst].
  destruct (Hstages 0%nat st Hst) as (st' & Hst' & _ & _ & Hsame).
  rewrite Hst'. f_equal. apply Hsame. by vm_compute.
Defined.

Lemma analysis_succeeds_iff_witness :
  (∃ b, analyzeInstructions ([argVersion] ++ [fromAlpine; runFirst])
          (newBuilder "/src/Dockerfile") = Ok b)
  ∧ ¬ ∃ b, analyzeInstructions ([argVersion] ++ [fromNothing; runFirst])
             (newBuilder "/src/Dockerfile") = Ok b.
Proof.
  assert (Forall (λ inst, Keyword inst ≠ "FROM") [argVersion]) as Hpre
    by (repeat constructor; discriminate).
  split.
  - apply (analysis_succeeds_iff "/src/Dockerfile" [argVersion] [fromAlpine; runFirst]
             Hpre).
    + right. by exists fromAlpine, [runFirst].
    + split; [repeat constructor; by left|].
      repeat constructor; [|discriminate]. intros _. by vm_compute.
  - intros Hok.
    apply (analysis_succeeds_iff "/src/Dockerfile" [argVersion] [fromNothing; runFirst]
             Hpre) in Hok as [_ Hbase].
    + apply Forall_cons in Hbase as [Hb _]. by apply (Hb eq_refl).
    + right. by exists fromNothing, [runFirst].
Defined.

Lemma ARG_only_stream_is_accepted_witness :
  ∃ b, analyzeInstructions [argVersion; argVersion] (newBuilder "/src/Dockerfile") = Ok b
       ∧ Stages (rep b) = []
       ∧ map Instruction (Global (rep b)) = [argVersion; argVersion].
Proof.
  apply (ARG_only_stream_is_accepted "/src/Dockerfile" [argVersion; argVersion]).
  by repeat constructor.
Defined.

Lemma analyzeDockerfile_errors_witness :
  analyzeDockerfile srcDockerfile (textFile runBeforeFrom) = Err runBeforeFromError
  ∧ ∃ inst,
      Keyword inst ≠ "FROM" ∧ runBeforeFromError = mustStartWithFromError inst.
Proof.
  assert (analyzeDockerfile srcDockerfile (textFile runBeforeFrom)
          = Err runBeforeFromError) as Herr by (vm_compute; reflexivity).
  split; [exact Herr|].
  destruct (analyzeDockerfile_errors srcDockerfile (textFile runBeforeFrom) _ Herr)
    as [Ha | [Hf | [(f & Hf & Hs) | [He | [(p & _ & Hread & _) | Hinst]]]]].
  - discriminate Ha.
  - discriminate Hf.
  - injection Hf as <-. discriminate Hs.
  - discriminate He.
  - vm_compute in Hread. discriminate Hread.
  - destruct Hinst
      as (p & raws & before & inst & after & b1 & _ & Hread & Hparse & _ & Hcase).
    destruct Hcase as [(Hkw & Hbase & _) | (Hkw & _ & _ & _ & Hmsg)];
      [exfalso | exists inst; exact (conj Hkw Hmsg)].
    assert (inst ∈ runBeforeFrom_insts) as Hin.
    { assert (Ok (before ++ inst :: after) = Ok runBeforeFrom_insts) as [= E].
      { rewrite <- Hparse. vm_compute in Hread. injection Hread as <-.
        vm_compute. reflexivity. }
      rewrite <- E. apply elem_of_app. right. apply elem_of_cons. by left. }
    unfold runBeforeFrom_insts in Hin.
    repeat (apply elem_of_cons in Hin as [-> | Hin]);
      [discriminate Hkw | discriminate Hkw | vm_compute in Hbase; discriminate Hbase
      | by apply elem_of_nil in Hin].
Defined.

Lemma stripContinuation_rule_witness :
  stripContinuation runFirstLine = ("RUN apk update &&", true)
  ∧ stripContinuation runLastLine = (runLastLine, false).
Proof.
  split.
  - destruct (stripContinuation_rule runFirstLine) as [Hcarry _].
    rewrite (Hcarry "RUN apk update && " eq_refl). by vm_compute.
  - destruct (stripContinuation_rule runLastLine) as [_ Hplain].
    apply Hplain. intros s Hs.
    assert (HasSuffix runLastLine backslash = true) as E
      by (apply HasSuffix_iff; by exists s).
    by vm_compute in E.
Defined.

Lemma readInstructions_without_continuation_witness :
  readInstructions (textFile scenarioA)
  = Ok [ {| line := 1; text := "ARG GLOBAL_VERSION=3.18" |};
         {| line := 2; text := "FROM alpine:${GLOBAL_VERSION}" |};
         {| line := 3; text := "RUN apk add --no-cache curl" |};
         {| line := 4; text := "COPY . /app" |};
         {| line := 5; text := "WORKDIR /app" |};
         {| line := 6; text := "CMD [./run]" |} ].
Proof.
  unfold textFile. rewrite (readInstructions_without_continuation scenarioA).
  - by vm_compute.
  - repeat constructor; right; by vm_compute.
Defined.

Lemma file_without_instructions_is_refused_witness :
  analyzeDockerfile (Ok "/src/Dockerfile")
    (Ok {| scanned := onlyComments; scanErr := None |})
  = Err "no Dockerfile instructions found in /src/Dockerfile".
Proof.
  apply (file_without_instructions_is_refused "/src/Dockerfile" onlyComments).
  repeat constructor; by vm_compute.
Defined.

Lemma continuation_makes_one_instruction_witness :
  readLines 4 (runFirstLine :: [runSecondLine; "  # why not"] ++ [runLastLine])
    emptyAssembler
  = {| instructions :=
         [ {| line := 4;
              text := "RUN apk update && apk add curl && rm -rf /var/cache" |} ];
       current := EmptyString; currentLine := 4 |}.
Proof.
  rewrite (continuation_makes_one_instruction 4 runFirstLine
             [runSecondLine; "  # why not"] runLastLine emptyAssembler).
  - by vm_compute.
  - reflexivity.
  - by vm_compute.
  - by vm_compute.
  - by vm_compute.
  - constructor; [right; by vm_compute|].
    constructor; [left; by vm_compute | constructor].
  - by vm_compute.
  - by vm_compute.
Defined.

Lemma readInstructions_lines_witness :
  Forall (λ r, 1 ≤ line r ≤ 7 ∧ text r ≠ EmptyString) scenarioB_raws.
Proof.
  destruct scenarioB_runs as (Hread & _).
  by destruct (readInstructions_lines {| scanned := scenarioB; scanErr := None |}
                 scenarioB_raws Hread) as [_ Hall].
Defined.

Lemma findLayer_first_witness :
  ∃ layer k,
    findLayer builderStage "COPY" = Some layer
    ∧ Layers builderStage !! k = Some layer
    ∧ Keyword (Instruction layer) = "COPY"
    ∧ ∀ j l, (j < k)%nat → Layers builderStage !! j = Some l →
        Keyword (Instruction l) ≠ "COPY".
Proof.
  pose proof (findLayer_first builderStage "COPY") as Hfirst.
  destruct (findLayer builderStage "COPY") as [layer|] eqn:Hfind;
    [|by vm_compute in Hfind].
  destruct Hfirst as (k & Hk & Hkw & Hbefore).
  exists layer, k. exact (conj eq_refl (conj Hk (conj Hkw Hbefore))).
Defined.

Lemma noteContains_iff_witness :
  ∃ note before after,
    note ∈ copyNotes copyArgs baseAliases
    ∧ note = before +:+ "stage 0 (base)" +:+ after.
Proof.
  apply (noteContains_iff (copyNotes copyArgs baseAliases) "stage 0 (base)").
  vm_compute. reflexivity.
Defined.

Lemma findLayer_FROM_witness :
  findLayer builderStage "FROM" = head (Layers builderStage)
  ∧ findLayer builderStage "FROM" ≠ None.
Proof.
  destruct scenarioB_runs as (_ & _ & Hrun & _).
  exact (findLayer_FROM srcDockerfile (textFile scenarioB) scenarioB_report
           1 builderStage Hrun builderStage_lookup).
Defined.

Lemma copyNotes_names_the_stage_witness :
  noteContains (copyNotes copyArgs baseAliases) "stage 0 (base)" = true.
Proof.
  assert (detectCopySourceStage copyArgs = "base") as Hsrc by (vm_compute; reflexivity).
  pose proof (copyNotes_names_the_stage copyArgs baseAliases 0) as Hnote.
  rewrite Hsrc in Hnote. apply Hnote; [discriminate | by vm_compute].
Defined.

Lemma global_layers_are_ARGs_witness :
  ∃ l, Global scenarioA_report !! 0%nat = Some l
       ∧ Keyword (Instruction l) = "ARG"
       ∧ Effect l = effectBuildArg
       ∧ Notes l = ["This ARG applies globally and can be referenced in the first FROM."]
       ∧ noteContains (Notes l) "applies globally" = true.
Proof.
  assert (analyzeDockerfile srcDockerfile (textFile scenarioA) = Ok scenarioA_report)
    as Hrun by (vm_compute; reflexivity).
  destruct (Global scenarioA_report !! 0%nat) as [l|] eqn:Hl; [|by vm_compute in Hl].
  exists l. split; [reflexivity|].
  exact (global_layers_are_ARGs srcDockerfile (textFile scenarioA) scenarioA_report l
           Hrun (list_elem_of_lookup_2 _ _ _ Hl)).
Defined.

Lemma alias_table_keys_witness :
  is_Some (stageAliases scenarioB_builder !! "builder")
  ∧ ∃ j st, Stages (rep scenarioB_builder) !! j = Some st
            ∧ registers j (Name (Stage st)) "builder".
Proof.
  destruct scenarioB_runs as (_ & _ & _ & Hrun).
  destruct (alias_table_keys srcDockerfile (textFile scenarioB) scenarioB_builder
              "builder" Hrun) as [[Hkeys _] _].
  assert (is_Some (stageAliases scenarioB_builder !! "builder")) as Hsome
    by (by vm_compute; eexists).
  split; [exact Hsome | exact (Hkeys Hsome)].
Defined.

Lemma numeric_reference_is_stable_witness :
  stageAliases scenarioB_builder !! "1" = Some 1.
Proof.
  destruct scenarioB_runs as (_ & _ & _ & Hrun).
  destruct (Stages (rep scenarioB_builder) !! 1%nat) as [st|] eqn:Hst;
    [|by vm_compute in Hst].
  apply (numeric_reference_is_stable srcDockerfile (textFile scenarioB)
           scenarioB_builder 1 st Hrun Hst).
  intros [|[|[|j]]] stj Hj Hne; vm_compute in Hj; [| | |done];
    injection Hj as <-; by vm_compute.
Defined.

Lemma notes_follow_the_keyword_witness :
  ∃ l, Layers builderStage !! 1%nat = Some l
       ∧ Keyword (Instruction l) = "ARG"
       ∧ Notes l
         = ["Only available during build; use ENV if the value is needed at runtime."].
Proof.
  destruct scenarioB_runs as (_ & _ & Hrun & _).
  destruct (Layers builderStage !! 1%nat) as [l|] eqn:Hl; [|by vm_compute in Hl].
  assert (Keyword (Instruction l) = "ARG") as Hk
    by (vm_compute in Hl; by injection Hl as <-).
  destruct (notes_follow_the_keyword srcDockerfile (textFile scenarioB)
              scenarioB_report 1 builderStage l Hrun builderStage_lookup
              (list_elem_of_lookup_2 _ _ _ Hl)) as (_ & Harg & _).
  exists l. exact (conj eq_refl (conj Hk (Harg Hk))).
Defined.

End MoreExamples.
